(** * nm-usgs-water-task: the batched fetch, join, clean and summary pipeline

    A shallow embedding of [daily_values.py], [data_loader.py] and [eda.py],
    followed by the properties of the pipeline.

    Python values are embedded as follows.
    - Exceptions are the [Raise] case of [result]; code that raises stops
      there, as in Python.
    - A JSON document is a [json] tree; a [dict] keeps its items in
      insertion order and has each key once.
    - Integers are [Z]; [float] payloads of JSON numbers are [spec_float].
    - The environment read by [os.getenv] after [load_dotenv] is a finite map
      from names to strings.
    - The HTTP API is a function from the number of earlier requests and the
      request to its reply; every request issued is appended to a log. *)

From stdpp Require Import base option list gmap sets strings pretty.
From Stdlib Require Import Ascii ZArith QArith Lia.
From Stdlib Require Import Floats.SpecFloat.
From Stdlib Require Import Sorting.Sorted.

#[local] Set Warnings "-register-all".
#[local] Open Scope string_scope.
#[local] Open Scope list_scope.
#[local] Open Scope Z_scope.

(** ** Python values *)

Module Py.

Inductive exn : Type :=
| RuntimeError (msg : string)
| TypeError
| ValueError
| AttributeError
| OverflowError
| KeyError (key : string)
| MergeError
| RequestException (detail : string).

Inductive result (A : Type) : Type :=
| Ok (a : A)
| Raise (e : exn).
Arguments Ok {A} a.
Arguments Raise {A} e.

(** Sequencing: an exception in [m] ends the computation. *)
Definition bind {A C} (m : result A) (k : A -> result C) : result C :=
  match m with
  | Ok a => k a
  | Raise e => Raise e
  end.

Notation "'let*' x ':=' m 'in' k" := (bind m (fun x => k))
  (at level 10, x name, m at level 200, k at level 200).

Definition is_ok {A} (r : result A) : bool :=
  match r with Ok _ => true | Raise _ => false end.

(** [f] on the value of a computation that completes. *)
Definition map_result {A C} (f : A -> C) (r : result A) : result C :=
  match r with Ok a => Ok (f a) | Raise e => Raise e end.

Inductive json : Type :=
| JNull
| JBool (b : bool)
| JInt (z : Z)
| JFloat (f : spec_float)
| JStr (s : string)
| JArr (l : list json)
| JObj (items : list (string * json)).

Definition dict : Type := list (string * json).

(** [d.get(k)]: the value bound to [k], if any. *)
Fixpoint dict_get (k : string) (d : dict) : option json :=
  match d with
  | [] => None
  | (k', v) :: d' => if String.eqb k k' then Some v else dict_get k d'
  end.

(** [d[k] = v]: an existing key keeps its place and takes the new value, a
    new key goes last. *)
Fixpoint dict_set (k : string) (v : json) (d : dict) : dict :=
  match d with
  | [] => [(k, v)]
  | (k', v') :: d' =>
      if String.eqb k k' then (k', v) :: d' else (k', v') :: dict_set k v d'
  end.

Definition float_is_zero (f : spec_float) : bool :=
  match f with S754_zero _ => true | _ => false end.

(** Truth value of a JSON value in a condition. *)
Definition truthy (v : json) : bool :=
  match v with
  | JNull => false
  | JBool b => b
  | JInt z => negb (z =? 0)
  | JFloat f => negb (float_is_zero f)
  | JStr s => negb (String.eqb s "")
  | JArr l => match l with [] => false | _ => true end
  | JObj d => match d with [] => false | _ => true end
  end.

(** White space for [str.strip]. *)
Definition is_space (c : ascii) : bool :=
  let n := nat_of_ascii c in
  (Nat.eqb n 32 || (Nat.leb 9 n && Nat.leb n 13)
   || (Nat.leb 28 n && Nat.leb n 31))%bool.

(** White space for [int]. *)
Definition is_c_space (c : ascii) : bool :=
  let n := nat_of_ascii c in
  (Nat.eqb n 32 || (Nat.leb 9 n && Nat.leb n 13))%bool.

Definition is_digit (c : ascii) : bool :=
  let n := nat_of_ascii c in (Nat.leb 48 n && Nat.leb n 57)%bool.

Definition digit_value (c : ascii) : Z := Z.of_nat (nat_of_ascii c) - 48.

Fixpoint lstrip (space : ascii -> bool) (cs : list ascii) : list ascii :=
  match cs with
  | c :: cs' => if space c then lstrip space cs' else cs
  | [] => []
  end.

Definition strip_chars (space : ascii -> bool) (cs : list ascii)
  : list ascii :=
  rev (lstrip space (rev (lstrip space cs))).

(** [s.strip()] on ASCII text. *)
Definition str_strip (s : string) : string :=
  String.string_of_list_ascii
    (strip_chars is_space (String.list_ascii_of_string s)).

(** Digits of an integer literal; a single underscore may separate two
    digits. *)
Fixpoint int_digits (cs : list ascii) (acc : Z) : option Z :=
  match cs with
  | [] => Some acc
  | c :: cs' =>
      if is_digit c then int_digits cs' (10 * acc + digit_value c)
      else if Ascii.eqb c "_" then
        match cs' with
        | d :: _ => if is_digit d then int_digits cs' acc else None
        | [] => None
        end
      else None
  end.

Definition int_body (cs : list ascii) : option Z :=
  match cs with
  | c :: _ => if is_digit c then int_digits cs 0 else None
  | [] => None
  end.

(** [int(s)] for ASCII text: surrounding white space, an optional sign,
    then decimal digits. [None] stands for the [ValueError]. *)
Definition py_int (s : string) : option Z :=
  match strip_chars is_c_space (String.list_ascii_of_string s) with
  | c :: cs =>
      if Ascii.eqb c "-" then Z.opp <$> int_body cs
      else if Ascii.eqb c "+" then int_body cs
      else int_body (c :: cs)
  | [] => None
  end.

(** [int(os.getenv(name))]: [int(None)] is a [TypeError], a string that is
    no integer literal a [ValueError]. *)
Definition int_of_env (v : option string) : result Z :=
  match v with
  | None => Raise TypeError
  | Some s =>
      match py_int s with
      | Some z => Ok z
      | None => Raise ValueError
      end
  end.

(** [sep.join(xs)] *)
Fixpoint str_join (sep : string) (xs : list string) : string :=
  match xs with
  | [] => ""
  | [x] => x
  | x :: xs' => x +:+ sep +:+ str_join sep xs'
  end.

(** Elements of [range(start, stop, step)] for a non-zero step. *)
Definition range_len (start stop step : Z) : Z :=
  if 0 <? step then
    if start <? stop then (stop - start - 1) / step + 1 else 0
  else
    if stop <? start then (start - stop - 1) / (- step) + 1 else 0.

Definition py_range (start stop step : Z) : result (list Z) :=
  if step =? 0 then Raise ValueError
  else Ok ((fun i : nat => start + Z.of_nat i * step) <$>
            seq 0 (Z.to_nat (range_len start stop step))).

(** A slice bound, clamped to the list as Python does. *)
Definition slice_bound (len i : Z) : Z :=
  if i <? 0 then Z.max 0 (i + len) else Z.min i len.

(** [l[i:j]] *)
Definition py_slice {A} (l : list A) (i j : Z) : list A :=
  let len := Z.of_nat (length l) in
  let lo := slice_bound len i in
  let hi := slice_bound len j in
  take (Z.to_nat (hi - lo)) (drop (Z.to_nat lo) l).

(** What the built-ins and the standard modules do where this development
    does not spell it out. *)
Class Builtins : Type := {
  (** [str(v)] for floats, lists and dicts *)
  str_other : json -> string;
  (** [json.loads]; [None] stands for [json.JSONDecodeError] *)
  json_loads : string -> option json;
  (** a dict of request parameters *)
  params : Type;
  (** [dict(v)] *)
  dict_of : json -> result params;
  (** [p[k] = v] for a string value *)
  set_param : params -> string -> string -> params;
  (** [dt.strftime("%Y-%m-%dT%H:%M:%SZ")], [dt] given in seconds since the
      epoch *)
  strftime_iso : Z -> string;
}.

(** [str(v)] *)
Definition py_str `{B : Builtins} (v : json) : string :=
  match v with
  | JStr s => s
  | JInt z => pretty z
  | JBool true => "True"
  | JBool false => "False"
  | JNull => "None"
  | _ => str_other v
  end.

(** What [for x in v] iterates over. *)
Definition py_iter (v : json) : result (list json) :=
  match v with
  | JArr l => Ok l
  | JObj d => Ok ((fun kv => JStr kv.1) <$> d)
  | JStr s => Ok ((fun c => JStr (String c "")) <$> String.list_ascii_of_string s)
  | _ => Raise TypeError
  end.

End Py.
Import Py.

(** ** daily_values.py *)

Module daily_values.

Record request `{B : Builtins} : Type := {
  req_url : string;
  req_params : params;
  req_timeout : Z;
}.

(** The process environment, the clock and the remote API. *)
Class World `{B : Builtins} : Type := {
  environ : gmap string string;
  (** [datetime.now(timezone.utc)], whole seconds since the epoch *)
  utc_now : Z;
  (** the reply to the [n]-th request of the run: the decoded JSON body, or
      the exception of [requests.get], [raise_for_status] or [r.json()] *)
  server : nat -> request -> result json;
}.

Section Program.
Context `{B : Builtins} `{W : !World}.

Definition getenv (name : string) : option string := environ !! name.

(** Seconds since the epoch of [datetime.min] and [datetime.max]. *)
Definition datetime_min : Z := -62135596800.
Definition datetime_max : Z := 253402300799.

Definition calculate_time_range : result string :=
  let* days := int_of_env (getenv "DV_TIME_RANGE_DAYS") in
  let end_dt := utc_now in
  if (days <? -999999999) || (999999999 <? days) then Raise OverflowError
  else
    let start_dt := end_dt - days * 86400 in
    if (start_dt <? datetime_min) || (datetime_max <? start_dt)
    then Raise OverflowError
    else
      let start := strftime_iso start_dt in
      let end_ := strftime_iso end_dt in
      Ok (start +:+ "/" +:+ end_).

(** The body of the first loop of [extract_location_ids] for one feature:
    the identifier appended to [ids], if any. *)
Definition feature_id (f : json) : result (option string) :=
  match f with
  | JObj fd =>
      let props := default (JObj []) (dict_get "properties" fd) in
      let from_props :=
        match props with
        | JObj pd =>
            match dict_get "id" pd with
            | Some v => if truthy v then Some (py_str v) else None
            | None => None
            end
        | _ => None
        end in
      match from_props with
      | Some s => Ok (Some s)
      | None =>
          match dict_get "id" fd with
          | Some v => if truthy v then Ok (Some (py_str v)) else Ok None
          | None => Ok None
          end
      end
  | _ => Raise AttributeError
  end.

Fixpoint collect_ids (features : list json) (ids : list string)
  : result (list string) :=
  match features with
  | [] => Ok ids
  | f :: features' =>
      let* o := feature_id f in
      match o with
      | Some s => collect_ids features' (ids ++ [s])
      | None => collect_ids features' ids
      end
  end.

(** The second loop: de-dupe, preserve order. *)
Fixpoint dedupe (ids : list string) (seen : gset string) (out : list string)
  : list string :=
  match ids with
  | [] => out
  | x :: ids' =>
      if decide (x ∈ seen) then dedupe ids' seen out
      else dedupe ids' ({[x]} ∪ seen) (out ++ [x])
  end.

Definition extract_location_ids (locations_json : json)
  : result (list string) :=
  match locations_json with
  | JObj d =>
      let* features := py_iter (default (JArr []) (dict_get "features" d)) in
      let* ids := collect_ids features [] in
      Ok (dedupe ids ∅ [])
  | _ => Raise AttributeError
  end.

Definition chunk_list {A} (items : list A) (chunk_size : Z)
  : result (list (list A)) :=
  let* starts := py_range 0 (Z.of_nat (length items)) chunk_size in
  Ok ((fun i => py_slice items i (i + chunk_size)) <$> starts).

(** Code that talks to the API: it reads and extends the request log. *)
Definition io (A : Type) : Type := list request -> result A * list request.

Definition io_bind {A C} (m : io A) (k : A -> io C) : io C :=
  fun log =>
    match m log with
    | (Ok a, log') => k a log'
    | (Raise e, log') => (Raise e, log')
    end.

Definition lift {A} (r : result A) : io A := fun log => (r, log).

(** [r = requests.get(url, params=..., timeout=...); r.raise_for_status();
    r.json()] *)
Definition requests_get_json (url : string) (p : params) (timeout : Z)
  : io json :=
  fun log =>
    let req := {| req_url := url; req_params := p; req_timeout := timeout |} in
    (server (length log) req, log ++ [req]).

(** The replies of the API to the requests [reqs], the first of which is
    request number [n] of the run, are the JSON objects [datas]. *)
Definition replies (n : nat) (reqs : list request) (datas : list dict)
  : Prop :=
  length datas = length reqs /\
  forall (i : nat) req, reqs !! i = Some req ->
    exists d, datas !! i = Some d /\ server (n + i) req = Ok (JObj d).

(** [{k: v for k, v in data.items() if k != "features"}] *)
Definition without_features (d : dict) : dict :=
  filter (fun kv => negb (String.eqb kv.1 "features")) d.

(** The body of the batch loop. [data] must be a dict: [data.items()] and
    [data.get] raise [AttributeError] on anything else. *)
Definition absorb (data : json) (all_features : list json)
    (first_page_meta : option dict) : result (list json * option dict) :=
  match data with
  | JObj d =>
      let first_page_meta :=
        match first_page_meta with
        | None => Some (without_features d)
        | Some m => Some m
        end in
      let features := default (JArr []) (dict_get "features" d) in
      match features with
      | JArr l => Ok (all_features ++ l, first_page_meta)
      | _ => Ok (all_features, first_page_meta)
      end
  | _ => Raise AttributeError
  end.

Fixpoint fetch_batches (dv_base_url : string) (dv_params_base : json)
    (time_range : string) (timeout : Z) (batches : list (list string))
    (all_features : list json) (first_page_meta : option dict)
  : io (list json * option dict) :=
  match batches with
  | [] => lift (Ok (all_features, first_page_meta))
  | batch :: batches' =>
      io_bind (lift (dict_of dv_params_base)) (fun dv_params =>
      let dv_params :=
        set_param dv_params "monitoring_location_id" (str_join "," batch) in
      let dv_params := set_param dv_params "time" time_range in
      io_bind (requests_get_json dv_base_url dv_params timeout) (fun data =>
      io_bind (lift (absorb data all_features first_page_meta)) (fun st =>
      fetch_batches dv_base_url dv_params_base time_range timeout batches'
        st.1 st.2)))
  end.

Definition len {A} (l : list A) : json := JInt (Z.of_nat (length l)).

Definition combine (first_page_meta : option dict) (all_features : list json)
    (batch_size : Z) (batches : list (list string)) (time_range : string)
  : dict :=
  let d := default [] first_page_meta in
  let d := dict_set "features" (JArr all_features) d in
  let d := dict_set "numberReturned" (len all_features) d in
  let d := dict_set "total_features" (len all_features) d in
  let d := dict_set "batch_size" (JInt batch_size) d in
  let d := dict_set "batches" (len batches) d in
  dict_set "time_range" (JStr time_range) d.

Record settings : Type := {
  dv_base_url : string;
  dv_params_base : json;
  batch_size : Z;
  timeout : Z;
  ids : list string;
  time_range : string;
  batches : list (list string);
}.

(** Everything [fetch_daily_values_for_locations] does before its loop. The
    message for a template that is no JSON ends, in the source, with the
    decoder's own message, which is left out here. *)
Definition prepare (locations_json : json) : result settings :=
  match getenv "USGS_DV_BASE_URL" with
  | None => Raise (RuntimeError "Missing USGS_DV_BASE_URL in .env")
  | Some "" => Raise (RuntimeError "Missing USGS_DV_BASE_URL in .env")
  | Some dv_base_url =>
  match getenv "DV_QUERY_PARAMS" with
  | None => Raise (RuntimeError "Missing DV_QUERY_PARAMS in .env (must be JSON)")
  | Some "" => Raise (RuntimeError "Missing DV_QUERY_PARAMS in .env (must be JSON)")
  | Some raw_params =>
  match json_loads raw_params with
  | None => Raise (RuntimeError "DV_QUERY_PARAMS is not valid JSON")
  | Some dv_params_base =>
      let* batch_size := int_of_env (getenv "DV_BATCH_SIZE") in
      let* timeout := int_of_env (getenv "API_TIMEOUT_SECONDS") in
      let* ids := extract_location_ids locations_json in
      match ids with
      | [] => Raise (RuntimeError
                "No monitoring location IDs found in locations JSON")
      | _ =>
          let* time_range := calculate_time_range in
          let* batches := chunk_list ids batch_size in
          Ok {| dv_base_url := dv_base_url; dv_params_base := dv_params_base;
                batch_size := batch_size; timeout := timeout; ids := ids;
                time_range := time_range; batches := batches |}
      end
  end end end.

Definition fetch_daily_values_for_locations (locations_json : json)
  : io json :=
  io_bind (lift (prepare locations_json)) (fun s =>
  io_bind (fetch_batches (dv_base_url s) (dv_params_base s) (time_range s)
             (timeout s) (batches s) [] None) (fun st =>
  lift (Ok (JObj (combine st.2 st.1 (batch_size s) (batches s)
                    (time_range s)))))).

(** *** Notions for the statements about the requests *)

(** The request that the loop sends for one batch: the template with the
    identifiers of the batch, joined by commas, and the time range. *)
Definition request_for (s : settings) (p : params) (batch : list string)
  : request :=
  {| req_url := dv_base_url s;
     req_params :=
       set_param
         (set_param p "monitoring_location_id" (str_join "," batch))
         "time" (time_range s);
     req_timeout := timeout s |}.

(** The entries that the combined result sets itself. *)
Definition computed_keys : list string :=
  ["features"; "numberReturned"; "total_features"; "batch_size"; "batches";
   "time_range"].

(** A reply that the loop cannot use: an exception of the request, or a
    body that is no JSON object. [failure] is what the loop raises then. *)
Definition unusable (r : result json) : Prop :=
  forall d, r <> Ok (JObj d).

Definition failure (r : result json) : exn :=
  match r with
  | Raise e => e
  | Ok _ => AttributeError
  end.

End Program.

End daily_values.

(** ** The table library

    A [DataFrame] is kept by columns, as the library keeps it: a number of
    rows and the labelled columns in order. Labels may repeat. Cells are
    null ([None], [NaN], [NaT]), text, numbers or timestamps; numbers carry
    the exact rational they denote: binary rounding and infinities are not
    modelled. Timestamps count nanoseconds since the epoch. *)

Module pandas.

Inductive cell : Type :=
| NA
| Str (s : string)
| Num (q : Q)
| Time (t : Z).

Abbreviation Series := (list cell).

Record DataFrame : Type := {
  nrows : nat;
  cols : list (string * Series);
}.

Definition columns (df : DataFrame) : list string := (cols df).*1.

(** Every column has one cell per row. *)
Definition well_formed (df : DataFrame) : Prop :=
  Forall (fun c : string * Series => length c.2 = nrows df) (cols df).

Definition isna (c : cell) : bool :=
  match c with NA => true | _ => false end.

(** Equality of cells as joins and duplicate detection see it: nulls are
    equal to each other. *)
Definition cell_eqb (a b : cell) : bool :=
  match a, b with
  | NA, NA => true
  | Str s, Str t => String.eqb s t
  | Num p, Num q => Qeq_bool p q
  | Time s, Time t => s =? t
  | _, _ => false
  end.

Definition iloc (s : Series) (i : nat) : cell := default NA (s !! i).

Definition named (c : string) (df : DataFrame) : list (string * Series) :=
  filter (fun nc : string * Series => String.eqb nc.1 c = true) (cols df).

Definition has_column (c : string) (df : DataFrame) : bool :=
  bool_decide (c ∈ columns df).

(** [df[c]] where a Series is needed: a label that is missing is a
    [KeyError]; for a repeated label the library hands back a table and the
    caller's next step fails with [not_unique]. *)
Definition getitem (df : DataFrame) (c : string) (not_unique : exn)
  : result Series :=
  match named c df with
  | [] => Raise (KeyError c)
  | [(_, s)] => Ok s
  | _ => Raise not_unique
  end.

(** [df[c] = s] *)
Definition setitem (df : DataFrame) (c : string) (s : Series) : DataFrame :=
  if has_column c df then
    {| nrows := nrows df;
       cols := (fun nc : string * Series =>
                  if String.eqb nc.1 c then (nc.1, s) else nc) <$> cols df |}
  else {| nrows := nrows df; cols := cols df ++ [(c, s)] |}.

Fixpoint first_missing (cs : list string) (df : DataFrame) : option string :=
  match cs with
  | [] => None
  | c :: cs' => if has_column c df then first_missing cs' df else Some c
  end.

(** [df[[c1, ..., cn]]] *)
Definition getitem_list (df : DataFrame) (cs : list string)
  : result DataFrame :=
  match first_missing cs df with
  | Some c => Raise (KeyError c)
  | None =>
      Ok {| nrows := nrows df;
            cols := concat ((fun c => named c df) <$> cs) |}
  end.

(** [df.drop(columns=cs)] *)
Definition drop_columns (df : DataFrame) (cs : list string)
  : result DataFrame :=
  match first_missing cs df with
  | Some c => Raise (KeyError c)
  | None =>
      Ok {| nrows := nrows df;
            cols := filter (fun nc : string * Series => nc.1 ∉ cs) (cols df) |}
  end.

Definition rename_label (mapping : list (string * string)) (c : string)
  : string :=
  default c (snd <$> find (fun kv : string * string => String.eqb kv.1 c) mapping).

(** [df.rename(columns=mapping)] *)
Definition rename (df : DataFrame) (mapping : list (string * string))
  : DataFrame :=
  {| nrows := nrows df;
     cols := (fun nc : string * Series =>
                (rename_label mapping nc.1, nc.2)) <$> cols df |}.

(** The rows [idx] of a column; [None] gives a null. *)
Definition reindex (idx : list (option nat)) (s : Series) : Series :=
  (fun o => match o with Some i => iloc s i | None => NA end) <$> idx.

Definition take_rows (idx : list nat) (df : DataFrame) : DataFrame :=
  {| nrows := length idx;
     cols := (fun nc : string * Series =>
                (nc.1, reindex (Some <$> idx) nc.2)) <$> cols df |}.

(** [df.dropna(subset=[c]).reset_index(drop=True)] *)
Definition dropna (df : DataFrame) (c : string) : result DataFrame :=
  let* s := getitem df c ValueError in
  Ok (take_rows (filter (fun i => isna (iloc s i) = false) (seq 0 (nrows df)))
        df).

Definition row (df : DataFrame) (i : nat) : list cell :=
  (fun nc : string * Series => iloc nc.2 i) <$> cols df.

Fixpoint row_eqb (r1 r2 : list cell) : bool :=
  match r1, r2 with
  | [], [] => true
  | a :: r1', b :: r2' => cell_eqb a b && row_eqb r1' r2'
  | _, _ => false
  end.

(** The rows that [drop_duplicates] keeps: a row stays unless an equal row
    comes before it. *)
Definition kept (df : DataFrame) : list nat :=
  filter (fun i => forallb (fun j => negb (row_eqb (row df j) (row df i)))
                     (seq 0 i) = true)
    (seq 0 (nrows df)).

(** [df.drop_duplicates()] *)
Definition drop_duplicates (df : DataFrame) : DataFrame :=
  take_rows (kept df) df.

(** [labels.duplicated()]: a label is marked when it occurred before. *)
Definition duplicated (labels : list string) : list bool :=
  imap (fun i c => bool_decide (c ∈ take i labels)) labels.

(** The columns of a merge: labels on both sides take the suffixes [_x] and
    [_y]; a repeated label that the suffix created is a [MergeError]. *)
Definition suffix (overlap : list string) (sfx : string) (c : string)
  : string :=
  if bool_decide (c ∈ overlap) then c +:+ sfx else c.

Definition new_duplicates (old new : list string) : list string :=
  omap (fun x : string * (bool * bool) =>
          if x.2.1 && negb x.2.2 then Some x.1 else None)
    (zip new (zip (duplicated new) (duplicated old))).

Definition items_overlap_with_suffix (left right : list string)
  : result (list string * list string) :=
  let to_rename := filter (fun c => c ∈ right) left in
  match to_rename with
  | [] => Ok (left, right)
  | _ =>
      let llabels := suffix to_rename "_x" <$> left in
      let rlabels := suffix to_rename "_y" <$> right in
      match new_duplicates left llabels ++ new_duplicates right rlabels with
      | [] => Ok (llabels, rlabels)
      | _ => Raise MergeError
      end
  end.

(** The row pairs of a left join: each left row with every right row of the
    same key in the right table's order, or with no row when there is
    none. *)
Definition match_rows (lkey rkey : Series) : list (nat * option nat) :=
  flat_map
    (fun ik : nat * cell =>
       match filter (fun jk : nat * cell => cell_eqb jk.2 ik.2 = true)
               (imap pair rkey) with
       | [] => [(ik.1, None)]
       | ms => (fun jk : nat * cell => (ik.1, Some jk.1)) <$> ms
       end)
    (imap pair lkey).

(** [left.merge(right, how="left", left_on=..., right_on=...)] for two
    different key labels: both key columns are kept, the rows come in the
    order of the left table. The library looks up the key of the right
    table before that of the left one; a label that is missing is a
    [KeyError], one that is repeated a [ValueError]. The library also
    refuses key columns of unlike types (text against numbers); that check
    is left out, so the merge of this model completes on every pair of
    tables on which the library's does. *)
Definition merge_left (left right : DataFrame) (left_on right_on : string)
  : result DataFrame :=
  let* rkey := getitem right right_on ValueError in
  let* lkey := getitem left left_on ValueError in
  let* labels := items_overlap_with_suffix (columns left) (columns right) in
  let pairs := match_rows lkey rkey in
  Ok {| nrows := length pairs;
        cols :=
          zip labels.1 (reindex (Some <$> pairs.*1) <$> (cols left).*2)
          ++ zip labels.2 (reindex pairs.*2 <$> (cols right).*2) |}.

(** *** Notions for the statements about joins *)

(** The last character of a label. *)
Fixpoint last_char (s : string) : option ascii :=
  match s with
  | EmptyString => None
  | String a EmptyString => Some a
  | String _ s' => last_char s'
  end.

(** A label that does not end in [x] or [y] is no suffixed label. *)
Definition plain (c : string) : Prop :=
  last_char c <> Some "x"%char /\ last_char c <> Some "y"%char.

(** The labels that go through the lookup joins unchanged: plain ones, and
    [id_x]. *)
Definition passes (c : string) : Prop := plain c \/ c = "id_x".

(** The columns of a merge with the overlap [ov] and the row pairs [pairs],
    written with maps. *)
Definition merged_cols (ov : list string) (pairs : list (nat * option nat))
    (left right : DataFrame) : list (string * Series) :=
  ((fun nc : string * Series =>
      (suffix ov "_x" nc.1, reindex (Some <$> pairs.*1) nc.2)) <$> cols left)
  ++ ((fun nc : string * Series =>
         (suffix ov "_y" nc.1, reindex pairs.*2 nc.2)) <$> cols right).

(** The rows of [rkey] that hold the key [k]. *)
Definition matches (rkey : Series) (k : cell) : list nat :=
  filter (fun j => cell_eqb (iloc rkey j) k = true) (seq 0 (length rkey)).

(** The pairs of the left row [i], whose key is [k]. *)
Definition pairs_of (rkey : Series) (i : nat) (k : cell)
  : list (nat * option nat) :=
  match matches rkey k with
  | [] => [(i, None)]
  | ms => (fun j => (i, Some j)) <$> ms
  end.

(** Keys that occur once. *)
Definition distinct_keys (rkey : Series) : Prop :=
  forall j1 j2, (j1 < length rkey)%nat -> (j2 < length rkey)%nat ->
    cell_eqb (iloc rkey j1) (iloc rkey j2) = true -> j1 = j2.

(** The rows [b !! k] for the positions [k] of [a]. *)
Definition rows_of (a b : list nat) : list nat :=
  (fun k => default O (b !! k)) <$> a.

(** Every code of the lookup has one description. *)
Definition one_description_per_code (n : nat) (codes descriptions : Series)
  : Prop :=
  forall i j, (i < n)%nat -> (j < n)%nat ->
    cell_eqb (iloc codes i) (iloc codes j) = true ->
    cell_eqb (iloc descriptions i) (iloc descriptions j) = true.

(** [d] is what a lookup with the rows [codes], [descriptions] gives for
    the code [k]: the description of the rows with that code, and null
    when no row has it. *)
Definition described (n : nat) (codes descriptions : Series) (k d : cell)
  : Prop :=
  (forall j, (j < n)%nat -> cell_eqb (iloc codes j) k = true ->
     cell_eqb d (iloc descriptions j) = true)
  /\ ((forall j, (j < n)%nat -> cell_eqb (iloc codes j) k = false) -> d = NA).

(** Conversions of the library that are taken as given. The date parsers
    work on a whole column: the format is inferred from the column. With
    [errors="coerce"] what cannot be parsed becomes null. *)
Class Conversions : Type := {
  (** one cell of [s.astype(str)] *)
  astype_str : cell -> string;
  (** [pd.to_datetime(s, errors="coerce")] on text *)
  to_datetime : list string -> Series;
  (** [pd.to_datetime(s, errors="coerce", utc=True)] *)
  to_datetime_utc : Series -> Series;
  (** the number a text cell denotes for [pd.to_numeric], if any *)
  parse_float : string -> option Q;
  (** [t.strftime("%Y-%m-%d")] *)
  strftime_date : Z -> string;
  (** one cell of [s.round(2)]: the library rounds the floating-point
      product of the number and 100 to an integer and divides by 100 *)
  round2 : cell -> cell;
  to_datetime_length : forall l, length (to_datetime l) = length l;
  to_datetime_utc_length : forall s, length (to_datetime_utc s) = length s;
  to_datetime_cells :
    forall l, Forall (fun c => c = NA \/ exists t, c = Time t) (to_datetime l);
  to_datetime_utc_cells :
    forall s, Forall (fun c => c = NA \/ exists t, c = Time t)
                (to_datetime_utc s);
}.

(** One cell of [pd.to_numeric(s, errors="coerce")]. *)
Definition to_numeric `{C : Conversions} (c : cell) : cell :=
  match c with
  | NA => NA
  | Num q => Num q
  | Str s => match parse_float s with Some q => Num q | None => NA end
  | Time t => Num (inject_Z t)
  end.

End pandas.
Import pandas.

(** ** data_loader.py *)

Module data_loader.

Definition loc_keep : list string :=
  ["id"; "agency_name"; "monitoring_location_name"; "country_name";
   "state_name"; "county_name"; "site_type"].

Definition join_daily_values_with_locations (dv_df loc_df : DataFrame)
  : result DataFrame :=
  let* loc_filtered := getitem_list loc_df loc_keep in
  merge_left dv_df loc_filtered "monitoring_location_id" "id".

End data_loader.

(** ** eda.py *)

Module eda.

Section Program.
Context `{C : Conversions}.

Definition final_cols : list string :=
  ["id"; "monitoring_location_id"; "monitoring_location_name"; "site_type";
   "time"; "last_modified"; "parameter_code"; "parameter_name"; "value";
   "unit_of_measure"; "statistic_id"; "statistic_description";
   "approval_status"; "agency_name"; "state_name"; "county_name"].

Definition clean_and_transform_data (joined_df param_df stat_df : DataFrame)
  : result DataFrame :=
  let df := joined_df in
  (* Parse dates *)
  let* time := getitem df "time" AttributeError in
  let df :=
    setitem df "time"
      (to_datetime ((fun c => str_strip (astype_str c)) <$> time)) in
  let* last_modified := getitem df "last_modified" ValueError in
  let df := setitem df "last_modified" (to_datetime_utc last_modified) in
  (* Convert value to numeric *)
  let* value := getitem df "value" TypeError in
  let df := setitem df "value" (to_numeric <$> value) in
  (* Drop rows with missing value *)
  let* df := dropna df "value" in
  (* Drop qualifier column (if present) *)
  let* df :=
    if has_column "qualifier" df then drop_columns df ["qualifier"]
    else Ok df in
  (* Join Parameter Name *)
  let* param_small := getitem_list param_df ["id"; "parameter_name"] in
  let param_small := drop_duplicates param_small in
  let* df := merge_left df param_small "parameter_code" "id" in
  let* df := drop_columns df ["id"] in
  (* Join Statistic Description *)
  let* stat_small := getitem_list stat_df ["id"; "statistic_description"] in
  let stat_small := drop_duplicates stat_small in
  let* df := merge_left df stat_small "statistic_id" "id" in
  let* df := drop_columns df ["id"] in
  (* Rename id_x to id *)
  let df := rename df [("id_x", "id")] in
  (* Select and order final columns (drop everything else) *)
  getitem_list df final_cols.

(** *** Notions for the statements about the Cleaner *)

(** The table after the three conversions of the Cleaner. *)
Definition typed (joined_df : DataFrame) (time last_modified value : Series)
  : DataFrame :=
  setitem
    (setitem
       (setitem joined_df "time"
          (to_datetime ((fun c => str_strip (astype_str c)) <$> time)))
       "last_modified" (to_datetime_utc last_modified))
    "value" (to_numeric <$> value).

(** The steps of a run of the Cleaner that completes. *)
Inductive cleaning (joined_df param_df stat_df out : DataFrame) : Prop :=
| Cleaning (time last_modified value : Series)
    (filtered trimmed param_small with_param param_dropped stat_small
       with_stat stat_dropped : DataFrame)
    (Htime : getitem joined_df "time" AttributeError = Ok time)
    (Hlast_modified :
       getitem joined_df "last_modified" ValueError = Ok last_modified)
    (Hvalue : getitem joined_df "value" TypeError = Ok value)
    (Hdropna :
       dropna (typed joined_df time last_modified value) "value" = Ok filtered)
    (Hqualifier :
       (if has_column "qualifier" filtered
        then drop_columns filtered ["qualifier"] else Ok filtered)
       = Ok trimmed)
    (Hparam_small :
       getitem_list param_df ["id"; "parameter_name"] = Ok param_small)
    (Hwith_param :
       merge_left trimmed (drop_duplicates param_small) "parameter_code" "id"
       = Ok with_param)
    (Hparam_dropped : drop_columns with_param ["id"] = Ok param_dropped)
    (Hstat_small :
       getitem_list stat_df ["id"; "statistic_description"] = Ok stat_small)
    (Hwith_stat :
       merge_left param_dropped (drop_duplicates stat_small) "statistic_id"
         "id" = Ok with_stat)
    (Hstat_dropped : drop_columns with_stat ["id"] = Ok stat_dropped)
    (Hselect :
       getitem_list (rename stat_dropped [("id_x", "id")]) final_cols
       = Ok out).

(** The rows that keep a value after [to_numeric]. *)
Definition survivors (value : Series) (n : nat) : list nat :=
  filter (fun i => isna (to_numeric (iloc value i)) = false) (seq 0 n).

(** The final columns that come from the joined table under a plain
    label. *)
Definition final_plain (c : string) : Prop :=
  c ∈ final_cols /\ plain c /\ c <> "id" /\ c <> "parameter_name"
  /\ c <> "statistic_description".

(** The columns that the Cleaner needs in the joined table. *)
Definition required_columns : list string :=
  ["id_x"; "monitoring_location_id"; "monitoring_location_name"; "site_type";
   "time"; "last_modified"; "parameter_code"; "value"; "unit_of_measure";
   "statistic_id"; "approval_status"; "agency_name"; "state_name";
   "county_name"].

(** The final columns that no step of the Cleaner writes to. *)
Definition copied_columns : list string :=
  ["monitoring_location_id"; "monitoring_location_name"; "site_type";
   "parameter_code"; "unit_of_measure"; "statistic_id"; "approval_status";
   "agency_name"; "state_name"; "county_name"].

(** The copied columns that the Joiner takes from the daily values, and
    those that it takes from the locations. *)
Definition daily_value_columns : list string :=
  ["monitoring_location_id"; "parameter_code"; "unit_of_measure";
   "statistic_id"; "approval_status"].

Definition location_columns : list string :=
  ["monitoring_location_name"; "site_type"; "agency_name"; "state_name";
   "county_name"].




(** What [produce_summary_by_site] reads of a row. Rows whose site or
    parameter name is null belong to no group; names that are neither text
    nor null are outside this model and raise. *)
Record observation : Type := {
  o_site : string;
  o_parameter : string;
  o_value : cell;
  o_time : cell;
  o_unit : cell;
}.

Definition key_of (c : cell) : result (option string) :=
  match c with
  | Str s => Ok (Some s)
  | NA => Ok None
  | _ => Raise TypeError
  end.

Fixpoint grouped_rows (sites params values times units : Series)
    (idx : list nat) : result (list observation) :=
  match idx with
  | [] => Ok []
  | i :: idx' =>
      let* s := key_of (iloc sites i) in
      let* p := key_of (iloc params i) in
      let* rest := grouped_rows sites params values times units idx' in
      match s, p with
      | Some s, Some p =>
          Ok ({| o_site := s; o_parameter := p; o_value := iloc values i;
                 o_time := iloc times i; o_unit := iloc units i |} :: rest)
      | _, _ => Ok rest
      end
  end.

Definition key (o : observation) : string * string :=
  (o_site o, o_parameter o).

Definition key_eqb (k1 k2 : string * string) : bool :=
  String.eqb k1.1 k2.1 && String.eqb k1.2 k2.2.

Definition key_leb (k1 k2 : string * string) : bool :=
  if String.eqb k1.1 k2.1 then String.leb k1.2 k2.2 else String.leb k1.1 k2.1.

(** Timestamps ascending, nulls last. *)
Definition time_leb (a b : cell) : bool :=
  match a, b with
  | Time s, Time t => s <=? t
  | Time _, _ => true
  | _, Time _ => false
  | _, _ => true
  end.

Fixpoint insert_sorted {A} (leb : A -> A -> bool) (x : A) (l : list A)
  : list A :=
  match l with
  | [] => [x]
  | y :: l' => if leb x y then x :: l else y :: insert_sorted leb x l'
  end.

(** A sort that keeps the input order of equal elements. The library's
    [sort_values] puts nulls last in their input order; among equal
    timestamps its default algorithm promises no order, and this model
    takes the input order. *)
Definition sort_by {A} (leb : A -> A -> bool) (l : list A) : list A :=
  foldr (insert_sorted leb) [] l.

Fixpoint unique_keys (ks : list (string * string)) : list (string * string) :=
  match ks with
  | [] => []
  | k :: ks' =>
      k :: filter (fun k' => key_eqb k' k = false) (unique_keys ks')
  end.

Definition numbers (rows : list observation) : list Q :=
  omap (fun o => match o_value o with Num q => Some q | _ => None end) rows.

Definition timestamps (rows : list observation) : list Z :=
  omap (fun o => match o_time o with Time t => Some t | _ => None end) rows.

Definition Qmin (a b : Q) : Q := if Qle_bool a b then a else b.
Definition Qmax (a b : Q) : Q := if Qle_bool a b then b else a.

Definition agg_min (l : list Q) : cell :=
  match l with [] => NA | x :: l' => Num (foldl Qmin x l') end.

Definition agg_max (l : list Q) : cell :=
  match l with [] => NA | x :: l' => Num (foldl Qmax x l') end.

Definition agg_mean (l : list Q) : cell :=
  match l with
  | [] => NA
  | _ => Num (Qred (foldl Qplus 0%Q l / inject_Z (Z.of_nat (length l))))
  end.

Definition agg_max_time (l : list Z) : cell :=
  match l with [] => NA | x :: l' => Time (foldl Z.max x l') end.

Definition starts_with (p s : list ascii) : bool :=
  bool_decide (take (length p) s = p).

(** [s.replace(old, "")] for a non-empty [old]; [skip] counts the characters
    of a match still to be dropped. *)
Fixpoint remove_all (old : list ascii) (skip : nat) (s : list ascii)
  : list ascii :=
  match s with
  | [] => []
  | c :: s' =>
      match skip with
      | S k => remove_all old k s'
      | O =>
          if starts_with old s then remove_all old (length old - 1) s'
          else c :: remove_all old 0 s'
      end
  end.

Definition str_remove (old s : string) : string :=
  String.string_of_list_ascii
    (remove_all (String.list_ascii_of_string old) 0
       (String.list_ascii_of_string s)).

Definition format_date (c : cell) : cell :=
  match c with
  | Time t => Str (strftime_date t)
  | _ => NA
  end.

(** One line of the printed report. *)
Record summary_row : Type := {
  site : string;
  parameter : string;
  unit_of_measure : cell;
  observations : nat;
  min_value : cell;
  max_value : cell;
  avg_value : cell;
  most_recent_value : cell;
  most_recent_time : cell;
}.

(** The table that [produce_summary_by_site] prints, line by line; the
    banner and the totals printed around it are left out. *)
Definition produce_summary_by_site (cleaned_df : DataFrame)
  : result (list summary_row) :=
  let df := cleaned_df in
  let* sites := getitem df "monitoring_location_name" ValueError in
  let* params := getitem df "parameter_name" ValueError in
  let* values := getitem df "value" ValueError in
  let* times := getitem df "time" ValueError in
  let* units := getitem df "unit_of_measure" ValueError in
  let* rows :=
    grouped_rows sites params values times units (seq 0 (nrows df)) in
  (* summary = df.groupby([...], as_index=False).agg(...) *)
  let groups := sort_by key_leb (unique_keys (key <$> rows)) in
  (* recent_rows = df.sort_values("time").groupby([...]).tail(1) *)
  let sorted := sort_by (fun a b => time_leb (o_time a) (o_time b)) rows in
  Ok ((fun k =>
         let group := filter (fun o => key_eqb (key o) k = true) rows in
         let recent :=
           last (filter (fun o => key_eqb (key o) k = true) sorted) in
         {| site := str_remove ", NM" k.1;
            parameter := k.2;
            unit_of_measure := default NA (o_unit <$> recent);
            observations :=
              length (filter (fun o => isna (o_value o) = false) group);
            min_value := round2 (agg_min (numbers group));
            max_value := round2 (agg_max (numbers group));
            avg_value := round2 (agg_mean (numbers group));
            most_recent_value := round2 (default NA (o_value <$> recent));
            most_recent_time :=
              format_date (agg_max_time (timestamps group)) |})
        <$> groups).

(** *** Notions for the statements about the Summarizer *)

(** The observations of the group [k], in input order. *)
Definition group_of (k : string * string) (rows : list observation)
  : list observation :=
  filter (fun o => key_eqb (key o) k = true) rows.

(** The last row of [g] in this model's order of times, which keeps the
    input order of rows with equal times: no row before it has a later
    place in the order, every row after it has an earlier one. *)
Definition last_in_order (o : observation) (g : list observation) : Prop :=
  exists l1 l2,
    g = l1 ++ o :: l2
    /\ Forall (fun x => time_leb (o_time x) (o_time o) = true) l1
    /\ Forall (fun x => time_leb (o_time o) (o_time x) = false) l2.

Definition dated (o : observation) : Prop := exists t, o_time o = Time t.

(** A row that [sort_values("time")] followed by [tail(1)] can take from the
    group [g], whatever the sort does with equal times: no row of the group
    comes after it in the order of times, nulls last, and if it has no time
    it is the last of the rows without one, which the library keeps in
    input order. So it is the last row without a time if the group has
    one, and else a row with the greatest time. *)
Definition most_recent (o : observation) (g : list observation) : Prop :=
  o ∈ g
  /\ Forall (fun x => time_leb (o_time x) (o_time o) = true) g
  /\ (~ dated o -> exists l1 l2, g = l1 ++ o :: l2 /\ Forall dated l2).

(** The cells of a value column and of a time column as the Cleaner leaves
    them. *)
Definition number_or_null (c : cell) : Prop := c = NA \/ exists q, c = Num q.
Definition time_or_null (c : cell) : Prop := c = NA \/ exists t, c = Time t.

(** The line of the report for the group [g] with the key [k]: the count
    of its values, the least and the greatest of them, rounded by the
    library, the day of the greatest time, and the value and the unit of a
    most recent row. *)
Definition line_of (k : string * string) (g : list observation)
    (line : summary_row) : Prop :=
  site line = str_remove ", NM" k.1
  /\ parameter line = k.2
  /\ observations line = length (filter (fun o => isna (o_value o) = false) g)
  /\ (numbers g <> [] ->
      exists lo hi : Q,
        min_value line = round2 (Num lo)
        /\ max_value line = round2 (Num hi)
        /\ lo ∈ numbers g /\ hi ∈ numbers g
        /\ Forall (fun q => (lo <= q <= hi)%Q) (numbers g))
  /\ (timestamps g <> [] ->
      exists t,
        most_recent_time line = Str (strftime_date t)
        /\ t ∈ timestamps g
        /\ Forall (fun t' => t' <= t) (timestamps g))
  /\ exists o,
       most_recent o g
       /\ most_recent_value line = round2 (o_value o)
       /\ unit_of_measure line = o_unit o.

End Program.

End eda.

(** ** Files

    The calls on the file system, taken as given. A path is the string that
    the code hands to [Path]. A call that fails raises an [OSError]; it may
    still have changed the disk. *)

Module files.

(** What ends a run that does not complete: one of the exceptions above, an
    [OSError] of the file system, or, in [json_normalize], a
    [NotImplementedError]. *)
Inductive failure : Type :=
| Exception (e : exn)
| OSError (detail : string)
| NotImplementedError.

Inductive outcome (A : Type) : Type :=
| Done (a : A)
| Failed (f : failure).
Arguments Done {A} a.
Arguments Failed {A} f.

Definition is_done {A} (o : outcome A) : bool :=
  match o with Done _ => true | Failed _ => false end.

Definition of_result {A} (r : result A) : outcome A :=
  match r with Ok a => Done a | Raise e => Failed (Exception e) end.

Class Disk : Type := {
  disk : Type;
  (** [Path(p).parent.mkdir(parents=True, exist_ok=True)] *)
  mkdir_parent : string -> disk -> outcome unit * disk;
  (** [Path(p).exists()] *)
  path_exists : string -> disk -> bool;
  (** [Path(p).write_text(text, encoding="utf-8")] *)
  write_text : string -> string -> disk -> outcome unit * disk;
  (** [Path(p).read_text(encoding="utf-8")] *)
  read_text : string -> disk -> outcome string;
  (** [json.dumps(v, indent=2)] *)
  json_dumps : json -> string;
}.

(** What is assumed of the file system where a statement needs it: making
    directories changes no file and succeeds next to a file that is there,
    and a file that has been written is there and holds what was written. *)
Record lawful (D : Disk) : Prop := {
  mkdir_keeps_files :
    forall p q d r d', mkdir_parent p d = (r, d') ->
      read_text q d' = read_text q d
      /\ (path_exists q d = true -> path_exists q d' = true);
  mkdir_next_to_file :
    forall p d, path_exists p d = true -> (mkdir_parent p d).1 = Done tt;
  write_then_read :
    forall p text d d', write_text p text d = (Done tt, d') ->
      path_exists p d' = true /\ read_text p d' = Done text;
}.

(** [json.loads(Path(path).read_text(encoding="utf-8"))]; text that is no
    JSON raises [json.JSONDecodeError], a [ValueError]. *)
Definition read_json `{B : Builtins} `{D : Disk} (path : string) (d : disk)
  : outcome json :=
  match read_text path d with
  | Failed f => Failed f
  | Done text =>
      match json_loads text with
      | Some v => Done v
      | None => Failed (Exception ValueError)
      end
  end.

End files.
Import files.

(** ** lookups.py *)

Module lookups.

Record request : Type := {
  req_url : string;
  req_params : json;
  req_timeout : Z;
}.

(** The process environment and the remote API. *)
Class World : Type := {
  environ : gmap string string;
  (** the reply to the [n]-th request of the run: the decoded JSON body, or
      the exception of [requests.get], [raise_for_status] or [r.json()] *)
  server : nat -> request -> result json;
}.

Section Program.
Context `{B : Builtins} `{D : Disk} `{W : World}.

Definition getenv (name : string) : option string := environ !! name.

(** The disk and the requests sent so far. *)
Definition state : Type := disk * list request.

Definition run (A : Type) : Type := state -> outcome A * state.

(** [s.lower()] on ASCII text. *)
Definition lower_char (c : ascii) : ascii :=
  let n := nat_of_ascii c in
  if (Nat.leb 65 n && Nat.leb n 90)%bool then ascii_of_nat (n + 32) else c.

Definition str_lower (s : string) : string :=
  String.string_of_list_ascii
    (lower_char <$> String.list_ascii_of_string s).

(** The message for a value that is no JSON ends, in the source, with the
    decoder's own message, which is left out here. *)
Definition _load_json_env (env_key : string) : result json :=
  match getenv env_key with
  | None | Some "" =>
      Raise (RuntimeError ("Missing " +:+ env_key +:+ " in .env "))
  | Some raw =>
      match json_loads raw with
      | Some v => Ok v
      | None => Raise (RuntimeError (env_key +:+ " is not valid JSON"))
      end
  end.

Definition get_or_fetch_json (base_url_env params_env output_env : string)
    (refresh : bool) : run string :=
  fun st =>
  match getenv base_url_env with
  | None | Some "" =>
      (Failed (Exception
         (RuntimeError ("Missing " +:+ base_url_env +:+ " in .env"))), st)
  | Some base_url =>
  match getenv output_env with
  | None | Some "" =>
      (Failed (Exception
         (RuntimeError ("Missing " +:+ output_env +:+ " in .env"))), st)
  | Some out_file =>
  match mkdir_parent out_file st.1 with
  | (Failed f, d) => (Failed f, (d, st.2))
  | (Done _, d) =>
      if path_exists out_file d && negb refresh then (Done out_file, (d, st.2))
      else
        match _load_json_env params_env with
        | Raise e => (Failed (Exception e), (d, st.2))
        | Ok params =>
        match int_of_env (getenv "API_TIMEOUT_SECONDS") with
        | Raise e => (Failed (Exception e), (d, st.2))
        | Ok timeout =>
            let req := {| req_url := base_url; req_params := params;
                          req_timeout := timeout |} in
            match server (length st.2) req with
            | Raise e => (Failed (Exception e), (d, st.2 ++ [req]))
            | Ok body =>
                match write_text out_file (json_dumps body) d with
                | (Failed f, d') => (Failed f, (d', st.2 ++ [req]))
                | (Done _, d') => (Done out_file, (d', st.2 ++ [req]))
                end
            end
        end end
  end end end.

(** [os.getenv(name).lower() == "true"]; without the setting, [.lower()]
    raises [AttributeError]. *)
Definition refresh_setting (name : string) : result bool :=
  match getenv name with
  | None => Raise AttributeError
  | Some v => Ok (String.eqb (str_lower v) "true")
  end.

Definition get_locations : run (json * string) :=
  fun st =>
  match refresh_setting "REFRESH_LOCATIONS" with
  | Raise e => (Failed (Exception e), st)
  | Ok refresh =>
      match get_or_fetch_json "USGS_LOCATIONS_BASE_URL" "QUERY_PARAMS"
              "OUTPUT_FILE" refresh st with
      | (Failed f, st') => (Failed f, st')
      | (Done path, st') =>
          match read_json path st'.1 with
          | Failed f => (Failed f, st')
          | Done data => (Done (data, path), st')
          end
      end
  end.

Definition get_parameter_codes : run string :=
  fun st =>
  match refresh_setting "REFRESH_PARAMETER_CODES" with
  | Raise e => (Failed (Exception e), st)
  | Ok refresh =>
      get_or_fetch_json "USGS_PARAMETER_CODES_BASE_URL"
        "PARAM_CODES_QUERY_PARAMS" "PARAM_CODES_OUTPUT_FILE" refresh st
  end.

Definition get_statistic_codes : run string :=
  fun st =>
  match refresh_setting "REFRESH_STATISTIC_CODES" with
  | Raise e => (Failed (Exception e), st)
  | Ok refresh =>
      get_or_fetch_json "USGS_STATISTIC_CODES_BASE_URL"
        "STAT_CODES_QUERY_PARAMS" "STAT_CODES_OUTPUT_FILE" refresh st
  end.

End Program.

End lookups.

(** ** Tables from JSON records

    [pd.json_normalize] with its default arguments, the table that
    [DataFrame] builds from its records, and the two calls that
    data_loader.py chains after it. *)

Module normalize.

(** What [DataFrame] does with records where this development does not
    spell it out. *)
Class Frames : Type := {
  (** the cells of a column that holds more than text and nulls; [None] is
      a record without the label *)
  column_of_values : list (option json) -> Series;
  column_of_values_length :
    forall vals, length (column_of_values vals) = length vals;
  (** [DataFrame(rows)] when one of the rows is itself a list *)
  frame_of_nested : list json -> outcome DataFrame;
}.

Definition is_dict (v : json) : bool :=
  match v with JObj _ => true | _ => false end.

Definition is_list (v : json) : bool :=
  match v with JArr _ => true | _ => false end.

Definition keys (d : dict) : list string := d.*1.

(** The key of a nested value: [f"{key_string}.{key}"], without the
    separator in front when [key_string] is empty. *)
Definition new_key (key_string key : string) : string :=
  if String.eqb key_string "" then key else key_string +:+ "." +:+ key.

(** [_normalise_json(data, key_string, normalized_dict, separator=".")] *)
Fixpoint _normalise_json (data : json) (key_string : string)
    (normalized_dict : dict) : dict :=
  match data with
  | JObj items =>
      (fix items_loop (items : list (string * json)) (acc : dict) : dict :=
         match items with
         | [] => acc
         | (key, value) :: items' =>
             items_loop items'
               (_normalise_json value (new_key key_string key) acc)
         end) items normalized_dict
  | _ => dict_set key_string data normalized_dict
  end.

(** [{**a, **b}] *)
Definition dict_update (a b : dict) : dict :=
  fold_left (fun acc kv => dict_set kv.1 kv.2 acc) b a.

(** [_normalise_json_ordered(data, separator=".")] *)
Definition _normalise_json_ordered (data : dict) : dict :=
  let top_dict_ := filter (fun kv : string * json => is_dict kv.2 = false) data in
  let nested_dict_ :=
    _normalise_json
      (JObj (filter (fun kv : string * json => is_dict kv.2 = true) data))
      "" [] in
  dict_update top_dict_ nested_dict_.

(** [_simple_json_normalize(row)] for a row that is no list: a row that is
    no dict either gives an empty record. *)
Definition normalise_row (row : json) : dict :=
  match row with
  | JObj d => _normalise_json_ordered d
  | _ => []
  end.

(** The labels of the records in the order of their first appearance. *)
Definition unique (labels : list string) : list string :=
  fold_left (fun acc c => if bool_decide (c ∈ acc) then acc else acc ++ [c])
    labels [].

Definition is_text (v : option json) : bool :=
  match v with
  | None | Some JNull | Some (JStr _) => true
  | _ => false
  end.

Definition text_cell (v : option json) : cell :=
  match v with
  | Some (JStr s) => Str s
  | _ => NA
  end.

(** One column of the table: a record without the label has a null there;
    text stays as it is. *)
Definition column_cells `{F : Frames} (vals : list (option json)) : Series :=
  if forallb is_text vals then text_cell <$> vals else column_of_values vals.

(** [DataFrame(records)] for a list of dicts. *)
Definition frame_of_dicts `{F : Frames} (records : list dict) : DataFrame :=
  {| nrows := length records;
     cols := (fun c => (c, column_cells ((fun r => dict_get c r) <$> records)))
               <$> unique (concat (keys <$> records)) |}.

(** [DataFrame(_simple_json_normalize(rows))] *)
Definition frame_of_rows `{F : Frames} (rows : list json)
  : outcome DataFrame :=
  if existsb is_list rows then frame_of_nested rows
  else Done (frame_of_dicts (normalise_row <$> rows)).

(** [pd.json_normalize(data, record_path=None)] *)
Definition json_normalize `{F : Frames} (data : json) : outcome DataFrame :=
  match data with
  | JArr [] => Done {| nrows := 0; cols := [] |}
  | JArr rows => frame_of_rows rows
  | JObj d => frame_of_rows [JObj d]
  | _ => Failed NotImplementedError
  end.

(** [df.filter(regex=r"^prefix")], the prefix given as plain text. *)
Definition filter_prefix (prefix : string) (df : DataFrame) : DataFrame :=
  {| nrows := nrows df;
     cols := filter (fun nc : string * Series => String.prefix prefix nc.1 = true)
               (cols df) |}.

Fixpoint is_prefix (p s : list ascii) : bool :=
  match p, s with
  | [], _ => true
  | a :: p', b :: s' => Ascii.eqb a b && is_prefix p' s'
  | _ :: _, [] => false
  end.

(** [s.replace(old, new)] for a non-empty [old], from left to right;
    [skip] counts the characters of a match still to pass over. *)
Fixpoint replace_chars (old new : list ascii) (skip : nat) (s : list ascii)
  : list ascii :=
  match s with
  | [] => []
  | c :: s' =>
      match skip with
      | S n => replace_chars old new n s'
      | O =>
          if is_prefix old s
          then new ++ replace_chars old new (length old - 1) s'
          else c :: replace_chars old new 0 s'
      end
  end.

Definition str_replace (old new s : string) : string :=
  String.string_of_list_ascii
    (replace_chars (String.list_ascii_of_string old)
       (String.list_ascii_of_string new) 0 (String.list_ascii_of_string s)).

(** [df.rename(columns=f)] *)
Definition rename_with (f : string -> string) (df : DataFrame) : DataFrame :=
  {| nrows := nrows df;
     cols := (fun nc : string * Series => (f nc.1, nc.2)) <$> cols df |}.

(** *** Notions for the statements below *)

(** The properties of a feature, none where it has no such object. *)
Definition properties_of (feature : json) : dict :=
  match feature with
  | JObj fd =>
      match dict_get "properties" fd with
      | Some (JObj props) => props
      | _ => []
      end
  | _ => []
  end.

Definition dotless (k : string) : Prop :=
  "."%char ∉ String.list_ascii_of_string k.

(** A label is under [g] when it is [g] or starts with [g] and a dot. *)
Definition under (g x : string) : Prop :=
  x = g \/ exists r, x = g +:+ "." +:+ r.

(** A feature as the API sends it: an object whose members have distinct,
    non-empty names without a dot, and whose properties have distinct names
    without a dot and hold no object. What is no object and no list counts
    as a feature without members. *)
Definition tidy (feature : json) : Prop :=
  match feature with
  | JObj fd =>
      NoDup (keys fd)
      /\ Forall (fun k => k <> "" /\ dotless k) (keys fd)
      /\ NoDup (keys (properties_of feature))
      /\ Forall (fun kv : string * json => dotless kv.1 /\ is_dict kv.2 = false)
           (properties_of feature)
  | JArr _ => False
  | _ => True
  end.

End normalize.

(** ** The files of the run: data_loader.py and [save_daily_values] *)

Module data_files.

Section Program.
Context `{B : Builtins} `{D : Disk} `{F : normalize.Frames}.

(** The table of a document that has been read: the properties of its
    features. *)
Definition table_of_features (data : json) : outcome DataFrame :=
  match data with
  | JObj d =>
      let features := default (JArr []) (dict_get "features" d) in
      match normalize.json_normalize features with
      | Failed f => Failed f
      | Done df =>
          Done (normalize.rename_with
                  (normalize.str_replace "properties." "")
                  (normalize.filter_prefix "properties." df))
      end
  | _ => Failed (Exception AttributeError)
  end.

Definition convert_geojson_to_dataframe (path : string) (d : disk)
  : outcome DataFrame :=
  match read_json path d with
  | Failed f => Failed f
  | Done data => table_of_features data
  end.

Definition load_daily_values_and_locations (dv_path locations_path : string)
    (d : disk) : outcome (DataFrame * DataFrame) :=
  match convert_geojson_to_dataframe dv_path d with
  | Failed f => Failed f
  | Done dv_df =>
      match convert_geojson_to_dataframe locations_path d with
      | Failed f => Failed f
      | Done loc_df => Done (dv_df, loc_df)
      end
  end.

Definition load_lookup_tables_as_df (param_codes_path stat_codes_path : string)
    (d : disk) : outcome (DataFrame * DataFrame) :=
  match convert_geojson_to_dataframe param_codes_path d with
  | Failed f => Failed f
  | Done param_df =>
      match convert_geojson_to_dataframe stat_codes_path d with
      | Failed f => Failed f
      | Done stat_df => Done (param_df, stat_df)
      end
  end.

(** [save_daily_values] of daily_values.py; without the setting,
    [Path(None)] raises [TypeError]. *)
Definition save_daily_values `{W : !daily_values.World} (data : json)
    (d : disk) : outcome string * disk :=
  match daily_values.getenv "DV_OUTPUT_FILE" with
  | None => (Failed (Exception TypeError), d)
  | Some output_file =>
      match mkdir_parent output_file d with
      | (Failed f, d1) => (Failed f, d1)
      | (Done _, d1) =>
          match write_text output_file (json_dumps data) d1 with
          | (Failed f, d2) => (Failed f, d2)
          | (Done _, d2) => (Done output_file, d2)
          end
      end
  end.

End Program.

End data_files.

(** ** Reference definitions, in the words of the specification *)

Module spec.

(** [properties.id] of a feature. *)
Definition properties_id (fd : dict) : option json :=
  match dict_get "properties" fd with
  | Some (JObj pd) => dict_get "id" pd
  | _ => None
  end.

Definition present_and_truthy (o : option json) : option json :=
  match o with
  | Some v => if truthy v then Some v else None
  | None => None
  end.

(** The identifier of a feature: [properties.id] if present and truthy, else
    the top-level [id] if present and truthy. *)
Definition identifier (f : json) : option json :=
  match f with
  | JObj fd =>
      match present_and_truthy (properties_id fd) with
      | Some v => Some v
      | None => present_and_truthy (dict_get "id" fd)
      end
  | _ => None
  end.

(** De-duplication with first-occurrence order: an element stays exactly
    when no equal element comes before it. *)
Definition first_occurrences (ids : list string) : list string :=
  omap id
    (imap (fun j x => if decide (x ∈ take j ids) then None else Some x) ids).

(** The feature list of one batch response; a missing or non-list feature
    field counts as no features. *)
Definition batch_features (data : dict) : list json :=
  match dict_get "features" data with
  | Some (JArr l) => l
  | _ => []
  end.

End spec.

(** ** A concrete run-time, for examples *)

Module demo.

(** Proleptic Gregorian date of a day number counted from 1970-01-01. *)
Definition civil_from_days (z : Z) : Z * Z * Z :=
  let z := z + 719468 in
  let era := z / 146097 in
  let doe := z - era * 146097 in
  let yoe := (doe - doe / 1460 + doe / 36524 - doe / 146096) / 365 in
  let doy := doe - (365 * yoe + yoe / 4 - yoe / 100) in
  let mp := (5 * doy + 2) / 153 in
  let d := doy - (153 * mp + 2) / 5 + 1 in
  let m := if mp <? 10 then mp + 3 else mp - 9 in
  let y := yoe + era * 400 + (if m <=? 2 then 1 else 0) in
  (y, m, d).

Definition days_from_civil (y m d : Z) : Z :=
  let y := if m <=? 2 then y - 1 else y in
  let era := y / 400 in
  let yoe := y - era * 400 in
  let doy := (153 * (if 2 <? m then m - 3 else m + 9) + 2) / 5 + d - 1 in
  let doe := yoe * 365 + yoe / 4 - yoe / 100 + doy in
  era * 146097 + doe - 719468.

Definition two_digits (n : Z) : string :=
  if n <? 10 then "0" +:+ pretty n else pretty n.

Definition four_digits (n : Z) : string :=
  if n <? 10 then "000" +:+ pretty n
  else if n <? 100 then "00" +:+ pretty n
  else if n <? 1000 then "0" +:+ pretty n
  else pretty n.

Definition date_string (days : Z) : string :=
  let '(y, m, d) := civil_from_days days in
  four_digits y +:+ "-" +:+ two_digits m +:+ "-" +:+ two_digits d.

Definition iso_string (t : Z) : string :=
  let s := t mod 86400 in
  date_string (t / 86400) +:+ "T" +:+ two_digits (s / 3600) +:+ ":"
    +:+ two_digits (s mod 3600 / 60) +:+ ":" +:+ two_digits (s mod 60) +:+ "Z".

(** A JSON reader for the one document the examples use. *)
Definition loads (s : string) : option json :=
  if String.eqb s "{}" then Some (JObj []) else None.

#[export] Instance builtins : Builtins := {|
  str_other := fun _ => "";
  json_loads := loads;
  params := dict;
  dict_of := fun v => match v with JObj d => Ok d | _ => Raise TypeError end;
  set_param := fun p k v => dict_set k (JStr v) p;
  strftime_iso := iso_string;
|}.

Definition feature (id : string) : json :=
  JObj [("type", JStr "Feature"); ("properties", JObj [("id", JStr id)])].

Definition locations : json :=
  JObj [("type", JStr "FeatureCollection");
        ("features",
         JArr [feature "USGS-1"; feature "USGS-2"; feature "USGS-1";
               feature "USGS-3"])].

(** The body of reply number [n]. *)
Definition reply (n : nat) : json :=
  match n with
  | O =>
      JObj [("type", JStr "FeatureCollection");
            ("features", JArr [JStr "a"; JStr "b"; JStr "c"]);
            ("numberReturned", JInt 3)]
  | 1%nat =>
      JObj [("type", JStr "FeatureCollection");
            ("features", JArr [JStr "d"; JStr "e"]);
            ("numberReturned", JInt 2)]
  | 2%nat => JObj [("type", JStr "FeatureCollection")]
  | _ => JObj [("features", JStr "none")]
  end.

Definition env (batch_size days : string) : gmap string string :=
  list_to_map [("USGS_DV_BASE_URL", "https://api.example/daily");
               ("DV_QUERY_PARAMS", "{}");
               ("DV_BATCH_SIZE", batch_size);
               ("API_TIMEOUT_SECONDS", "30");
               ("DV_TIME_RANGE_DAYS", days)].

Definition world (batch_size days : string) : daily_values.World := {|
  daily_values.environ := env batch_size days;
  daily_values.utc_now := 1700000000;
  daily_values.server := fun n _ => Ok (reply n);
|}.

(** The settings of a run in [world "2" "90"] over [locations]. *)
Definition run_settings : daily_values.settings :=
  {| daily_values.dv_base_url := "https://api.example/daily";
     daily_values.dv_params_base := JObj [];
     daily_values.batch_size := 2;
     daily_values.timeout := 30;
     daily_values.ids := ["USGS-1"; "USGS-2"; "USGS-3"];
     daily_values.time_range := "2023-08-16T22:13:20Z/2023-11-14T22:13:20Z";
     daily_values.batches := [["USGS-1"; "USGS-2"]; ["USGS-3"]] |}.

(** The same, with an API that fails at its second request. *)
Definition world_failing (batch_size days : string) : daily_values.World := {|
  daily_values.environ := env batch_size days;
  daily_values.utc_now := 1700000000;
  daily_values.server :=
    fun n _ =>
      match n with
      | 1%nat => Raise (RequestException "503 Server Error")
      | _ => Ok (reply n)
      end;
|}.

Definition digits (cs : list ascii) : option Z :=
  match cs with
  | [] => None
  | _ =>
      if forallb is_digit cs
      then Some (foldl (fun acc c => 10 * acc + digit_value c) 0 cs)
      else None
  end.

(** [YYYY-MM-DD] *)
Definition parse_date (s : string) : option Z :=
  match String.list_ascii_of_string s with
  | [y1; y2; y3; y4; "-"%char; m1; m2; "-"%char; d1; d2] =>
      y ← digits [y1; y2; y3; y4];
      m ← digits [m1; m2];
      d ← digits [d1; d2];
      let days := days_from_civil y m d in
      if bool_decide (civil_from_days days = (y, m, d))
      then Some (days * 86400000000000) else None
  | _ => None
  end.

Definition time_cell (o : option Z) : cell :=
  match o with Some t => Time t | None => NA end.

Fixpoint split_at_dot (cs : list ascii) : list ascii * option (list ascii) :=
  match cs with
  | [] => ([], None)
  | c :: cs' =>
      if Ascii.eqb c "." then ([], Some cs')
      else let '(a, b) := split_at_dot cs' in (c :: a, b)
  end.

Definition unsigned_decimal (cs : list ascii) : option Q :=
  match split_at_dot cs with
  | (int_part, None) => inject_Z <$> digits int_part
  | (int_part, Some frac) =>
      i ← digits int_part;
      f ← digits frac;
      Some (Qred (inject_Z i + Qmake f (Pos.of_nat (10 ^ length frac))))
  end.

(** Plain decimal literals such as [3.5] and [-12]. *)
Definition parse_decimal (s : string) : option Q :=
  match String.list_ascii_of_string s with
  | "-"%char :: cs => Qopp <$> unsigned_decimal cs
  | cs => unsigned_decimal cs
  end.

Definition show_cell (c : cell) : string :=
  match c with
  | NA => "nan"
  | Str s => s
  | Num q => pretty (Qnum q) +:+ "/" +:+ pretty (Z.pos (Qden q))
  | Time t => date_string (t / 86400000000000)
  end.

Definition utc_cell (c : cell) : cell :=
  match c with
  | Str s => time_cell (parse_date s)
  | Time t => Time t
  | _ => NA
  end.

(** The integer nearest to [q], halves to the even one. *)
Definition round_half_even (q : Q) : Z :=
  let n := Qnum q in
  let d := Z.pos (Qden q) in
  let f := n / d in
  let r2 := 2 * (n mod d) in
  if r2 <? d then f
  else if d <? r2 then f + 1
  else if Z.even f then f else f + 1.

(** Rounding to two decimals for the examples, whose numbers have no more
    than two: on those it gives the number itself, as the library does. *)
Definition round_decimal (c : cell) : cell :=
  match c with
  | Num q => Num (Qred (Qmake (round_half_even (q * 100)) 100))
  | _ => c
  end.

#[export] Instance conversions : Conversions.
Proof.
  refine {|
    astype_str := show_cell;
    to_datetime := fun l => (fun s => time_cell (parse_date s)) <$> l;
    to_datetime_utc := fun l => utc_cell <$> l;
    parse_float := parse_decimal;
    strftime_date := fun t => date_string (t / 86400000000000);
    round2 := round_decimal;
  |}.
  - intros l. apply length_fmap.
  - intros l. apply length_fmap.
  - intros l. apply Forall_fmap, Forall_true. intros s. simpl.
    destruct (parse_date s); simpl; eauto.
  - intros l. apply Forall_fmap, Forall_true. intros [|s|q|t]; simpl; eauto.
    destruct (parse_date s); simpl; eauto.
Defined.

(** A table given row by row. *)
Definition table (labels : list string) (rows : list (list cell))
  : DataFrame :=
  {| nrows := length rows;
     cols := imap (fun j c => (c, (fun r => iloc r j) <$> rows)) labels |}.

Definition dv_labels : list string :=
  ["id"; "monitoring_location_id"; "parameter_code"; "statistic_id"; "time";
   "value"; "unit_of_measure"; "approval_status"; "qualifier";
   "last_modified"].

Definition dv_row (id site time value : string) : list cell :=
  [Str id; Str site; Str "00060"; Str "00003"; Str time; Str value;
   Str "ft^3/s"; Str "Approved"; NA; Str "2024-02-01"].

Definition loc_labels : list string :=
  ["id"; "agency_name"; "monitoring_location_name"; "country_name";
   "state_name"; "county_name"; "site_type"; "altitude"].

Definition loc_row (id name : string) : list cell :=
  [Str id; Str "U.S. Geological Survey"; Str name; Str "US";
   Str "New Mexico"; Str "Taos County"; Str "Stream"; Num 2000].

Definition loc_df : DataFrame :=
  table loc_labels [loc_row "USGS-1" "RIO GRANDE AT EMBUDO, NM"].

Definition param_df : DataFrame :=
  table ["id"; "parameter_name"; "unit"]
    [[Str "00060"; Str "Discharge"; Str "ft^3/s"];
     [Str "00010"; Str "Temperature, water"; Str "degC"]].

Definition stat_df : DataFrame :=
  table ["id"; "statistic_description"] [[Str "00003"; Str "MEAN"]].

(** Three daily values: one good, one whose value is no number, one whose
    time is no date and whose site is unknown. *)
Definition dv_df : DataFrame :=
  table dv_labels
    [dv_row "dv-1" "USGS-1" "2024-01-15" "3.5";
     dv_row "dv-2" "USGS-1" "2024-01-16" "not_a_number";
     dv_row "dv-3" "USGS-9" "garbage" "1.0"].

Definition joined_labels : list string :=
  ["id_x"; "monitoring_location_id"; "parameter_code"; "statistic_id"; "time";
   "value"; "unit_of_measure"; "approval_status"; "qualifier";
   "last_modified"; "id_y"; "agency_name"; "monitoring_location_name";
   "country_name"; "state_name"; "county_name"; "site_type"].

Definition joined_row (id site time value : string) (location : list cell)
  : list cell :=
  dv_row id site time value ++ location.

Definition location_1 : list cell :=
  [Str "USGS-1"; Str "U.S. Geological Survey";
   Str "RIO GRANDE AT EMBUDO, NM"; Str "US"; Str "New Mexico";
   Str "Taos County"; Str "Stream"].

Definition no_location : list cell := [NA; NA; NA; NA; NA; NA; NA].

(** [dv_df] joined with [loc_df]. *)
Definition joined_df : DataFrame :=
  table joined_labels
    [joined_row "dv-1" "USGS-1" "2024-01-15" "3.5" location_1;
     joined_row "dv-2" "USGS-1" "2024-01-16" "not_a_number" location_1;
     joined_row "dv-3" "USGS-9" "garbage" "1.0" no_location].

(** [joined_df] cleaned with [param_df] and [stat_df]. *)
Definition cleaned_df : DataFrame :=
  table eda.final_cols
    [[Str "dv-1"; Str "USGS-1"; Str "RIO GRANDE AT EMBUDO, NM"; Str "Stream";
      Time 1705276800000000000; Time 1706745600000000000; Str "00060";
      Str "Discharge"; Num (7 # 2); Str "ft^3/s"; Str "00003"; Str "MEAN";
      Str "Approved"; Str "U.S. Geological Survey"; Str "New Mexico";
      Str "Taos County"];
     [Str "dv-3"; Str "USGS-9"; NA; NA; NA; Time 1706745600000000000;
      Str "00060"; Str "Discharge"; Num 1; Str "ft^3/s"; Str "00003";
      Str "MEAN"; Str "Approved"; NA; NA; NA]].

(** A location table that lists one site twice. *)
Definition loc_df_repeated : DataFrame :=
  table loc_labels
    [loc_row "USGS-1" "RIO GRANDE AT EMBUDO, NM";
     loc_row "USGS-1" "Rio Grande at Embudo"].

(** A parameter lookup with two names for one code. *)
Definition param_df_two_names : DataFrame :=
  table ["id"; "parameter_name"]
    [[Str "00060"; Str "Discharge"];
     [Str "00060"; Str "Discharge, cubic feet per second"]].

(** Two values of one site and parameter, at two days. *)
Definition two_days : DataFrame :=
  table joined_labels
    [joined_row "dv-1" "USGS-1" "2024-01-15" "1.0" location_1;
     joined_row "dv-2" "USGS-1" "2024-01-16" "3.0" location_1].

(** Two values of one site and parameter, the second with a time that
    cannot be parsed. *)
Definition one_undated : DataFrame :=
  table joined_labels
    [joined_row "dv-1" "USGS-1" "2024-01-15" "1.0" location_1;
     joined_row "dv-2" "USGS-1" "garbage" "5.0" location_1].

(** A JSON writer for the one document the examples use. *)
Definition dumps (v : json) : string :=
  match v with
  | JObj [] => "{}"
  | _ => "null"
  end.

(** Files held in memory by path, with every directory in place. *)
#[export] Instance memory : Disk := {|
  disk := gmap string string;
  mkdir_parent := fun _ d => (Done tt, d);
  path_exists := fun p d =>
    match d !! p with Some _ => true | None => false end;
  write_text := fun p text d => (Done tt, <[p := text]> d);
  read_text := fun p d =>
    match d !! p with
    | Some text => Done text
    | None => Failed (OSError "No such file or directory")
    end;
  json_dumps := dumps;
|}.

Definition lookup_env (refresh : string) : gmap string string :=
  list_to_map [("USGS_LOCATIONS_BASE_URL", "https://api.example/locations");
               ("QUERY_PARAMS", "{}");
               ("OUTPUT_FILE", "outputs/locations.json");
               ("REFRESH_LOCATIONS", refresh);
               ("API_TIMEOUT_SECONDS", "30")].

(** An API that answers every request with an empty object. *)
Definition lookup_world (refresh : string) : lookups.World := {|
  lookups.environ := lookup_env refresh;
  lookups.server := fun _ _ => Ok (JObj []);
|}.

Definition locations_request : lookups.request := {|
  lookups.req_url := "https://api.example/locations";
  lookups.req_params := JObj [];
  lookups.req_timeout := 30;
|}.

(** A run that starts with no file and no request sent. *)
Definition fresh : lookups.state (D := memory) := (∅, []).

(** The same run after a request that has brought nothing. *)
Definition asked : lookups.state (D := memory) := (∅, [locations_request]).

(** The same run after the locations have been fetched. *)
Definition fetched : lookups.state (D := memory) :=
  (<["outputs/locations.json" := "{}"]> ∅, [locations_request]).

(** An API that is down. *)
Definition lookup_world_down (refresh : string) : lookups.World := {|
  lookups.environ := lookup_env refresh;
  lookups.server := fun _ _ => Raise (RequestException "503 Server Error");
|}.

(** Two sites as the API sends them: the first with a geometry, the second
    without a site type and with a county that is null. *)
Definition site_features : list json :=
  [JObj [("type", JStr "Feature");
         ("geometry",
          JObj [("type", JStr "Point");
                ("coordinates", JArr [JInt 1; JInt 2])]);
         ("properties",
          JObj [("id", JStr "USGS-1"); ("site_type", JStr "Stream")])];
   JObj [("type", JStr "Feature");
         ("geometry", JNull);
         ("properties",
          JObj [("id", JStr "USGS-2"); ("county_name", JNull)])]].

Definition sites : dict :=
  [("type", JStr "FeatureCollection"); ("features", JArr site_features)].

(** A JSON reader that knows the documents of the examples: [sites] under
    a name that stands for its text. *)
Definition loads_named (s : string) : option json :=
  if String.eqb s "<sites>" then Some (JObj sites) else loads s.

Definition reader : Builtins := {|
  str_other := fun _ => "";
  json_loads := loads_named;
  params := dict;
  dict_of := fun v => match v with JObj d => Ok d | _ => Raise TypeError end;
  set_param := fun p k v => dict_set k (JStr v) p;
  strftime_iso := iso_string;
|}.

(** Integers as numbers in a column, nulls for the rest; no table for
    nested lists. *)
Definition frames : normalize.Frames := {|
  normalize.column_of_values :=
    fun vals =>
      (fun v => match v with
                | Some (JInt z) => Num (inject_Z z)
                | Some (JStr s) => Str s
                | _ => NA
                end) <$> vals;
  normalize.column_of_values_length := fun vals => length_fmap _ vals;
  normalize.frame_of_nested := fun _ => Failed (Exception ValueError);
|}.

(** A disk that holds the sites. *)
Definition sites_disk : disk (Disk := memory) :=
  <["outputs/sites.json" := "<sites>"]> ∅.

(** The disk after the daily values of a run without any have been
    saved. *)
Definition saved_disk : disk (Disk := memory) :=
  <["outputs/daily_values.json" := "{}"]> ∅.

(** The table of [sites]. *)
Definition sites_df : DataFrame :=
  table ["id"; "site_type"; "county_name"]
    [[Str "USGS-1"; Str "Stream"; NA]; [Str "USGS-2"; NA; NA]].

(** A run that saves its daily values. *)
Definition saving_world : daily_values.World := {|
  daily_values.environ :=
    <["DV_OUTPUT_FILE" := "outputs/daily_values.json"]> (env "2" "90");
  daily_values.utc_now := 1700000000;
  daily_values.server := fun n _ => Ok (reply n);
|}.

End demo.

(** * Properties *)

(** ** The Batcher *)

Section Batcher.
Context {A : Type}.
Implicit Types (items : list A) (chunk_size : Z).

Lemma take_plus_app items (a b : nat) :
  take (a + b) items = take a items ++ take b (drop a items).
Proof.
  revert items; induction a as [|a IH]; intros [|x items]; simpl; try done.
  - by rewrite take_nil.
  - by rewrite IH.
Qed.

(** [m] consecutive windows of width [k] make up the first [m * k] items. *)
Lemma concat_windows items (k m : nat) :
  concat ((fun i : nat => take k (drop (i * k) items)) <$> seq 0 m)
  = take (m * k) items.
Proof.
  induction m as [|m IH]; [done|].
  rewrite seq_S, fmap_app, concat_app, IH. simpl.
  rewrite app_nil_r, <- take_plus_app. f_equal. lia.
Qed.

Lemma range_len_pos (n k : Z) :
  0 < k -> 0 <= n ->
  let m := range_len 0 n k in
  0 <= m /\ n <= m * k /\ (0 < n -> (m - 1) * k < n) /\ (n = 0 -> m = 0).
Proof.
  intros Hk Hn. unfold range_len.
  destruct (Z.ltb_spec 0 k); [|lia].
  destruct (Z.ltb_spec 0 n).
  - replace (n - 0 - 1) with (n - 1) by lia.
    pose proof (Z.div_mod (n - 1) k ltac:(lia)) as Hd.
    pose proof (Z.mod_pos_bound (n - 1) k Hk) as Hm.
    assert (0 <= (n - 1) / k) by (apply Z.div_pos; lia).
    nia.
  - lia.
Qed.

(** The slice taken for the [i]-th start of the range is the [i]-th window. *)
Lemma py_slice_window items (i : nat) (k : Z) :
  0 < k ->
  py_slice items (0 + Z.of_nat i * k) (0 + Z.of_nat i * k + k)
  = take (Z.to_nat k) (drop (i * Z.to_nat k) items).
Proof.
  intros Hk. unfold py_slice, slice_bound.
  set (n := Z.of_nat (length items)).
  destruct (Z.ltb_spec (0 + Z.of_nat i * k) 0); [nia|].
  destruct (Z.ltb_spec (0 + Z.of_nat i * k + k) 0); [nia|].
  destruct (Z.le_gt_cases n (Z.of_nat i * k)) as [Hge|Hlt].
  - rewrite !Z.min_r by lia.
    rewrite (drop_ge items (i * Z.to_nat k)) by (subst n; nia).
    rewrite drop_ge by (subst n; lia).
    by rewrite !take_nil.
  - rewrite (Z.min_l (0 + _)) by lia.
    replace (Z.to_nat (0 + Z.of_nat i * k)) with (i * Z.to_nat k)%nat by lia.
    destruct (Z.le_gt_cases n (Z.of_nat i * k + k)) as [Hge'|Hlt'].
    + rewrite Z.min_r by lia.
      rewrite !take_ge; [done| |]; rewrite length_drop; subst n; lia.
    + rewrite Z.min_l by lia. f_equal. lia.
Qed.

(** C2. For every list and every positive chunk size, [chunk_list] returns
    chunks of at most [chunk_size] items whose concatenation, in order, is
    the list: chunk [i] is the window of [chunk_size] items starting at
    [i * chunk_size], none is empty, and the empty list gives no chunk. *)
Theorem chunk_list_partitions items chunk_size :
  0 < chunk_size ->
  exists chunks : list (list A),
    daily_values.chunk_list items chunk_size = Ok chunks
    /\ concat chunks = items
    /\ Forall (fun c => Z.of_nat (length c) <= chunk_size) chunks
    /\ (forall (i : nat) c, chunks !! i = Some c ->
          c = take (Z.to_nat chunk_size) (drop (i * Z.to_nat chunk_size) items)
          /\ c <> [])
    /\ (items = [] -> chunks = []).
Proof.
  intros Hk.
  set (k := Z.to_nat chunk_size).
  set (n := Z.of_nat (length items)).
  destruct (range_len_pos n chunk_size Hk ltac:(lia))
    as (Hm0 & Hcover & Hlast & Hnil).
  set (m := Z.to_nat (range_len 0 n chunk_size)) in *.
  assert (Hchunks : daily_values.chunk_list items chunk_size
            = Ok ((fun i : nat => take k (drop (i * k) items)) <$> seq 0 m)).
  { unfold daily_values.chunk_list, py_range. fold n.
    destruct (Z.eqb_spec chunk_size 0); [lia|]. simpl. f_equal.
    rewrite <- list_fmap_compose. apply list_fmap_ext.
    intros _ i _. simpl. by apply py_slice_window. }
  eexists. split; [exact Hchunks|].
  split; [|split; [|split]].
  - rewrite concat_windows. apply take_ge. subst m k n. nia.
  - apply Forall_fmap, Forall_forall. intros i _. simpl.
    rewrite length_take. subst k. lia.
  - intros i c Hi.
    apply list_lookup_fmap_Some in Hi as (j & Hc & Hj).
    apply lookup_seq in Hj as [-> Hj]. simpl in Hc. split; [done|].
    subst c. intros Hempty. apply (f_equal length) in Hempty.
    rewrite length_take, length_drop in Hempty. simpl in Hempty.
    subst m k n. nia.
  - intros ->. subst n. simpl in *. subst m. by rewrite Hnil.
Qed.

End Batcher.

Lemma chunk_list_partitions_witness :
  0 < 2 /\
  exists chunks : list (list nat),
    daily_values.chunk_list [1; 2; 3; 4; 5]%nat 2 = Ok chunks
    /\ concat chunks = [1; 2; 3; 4; 5]%nat.
Proof.
  split; [lia|].
  destruct (chunk_list_partitions [1; 2; 3; 4; 5]%nat 2 ltac:(lia))
    as (chunks & Hc & Hcat & _).
  exists chunks. by split.
Defined.

Example chunk_list_five_by_two :
  daily_values.chunk_list [1; 2; 3; 4; 5]%nat 2 = Ok [[1; 2]; [3; 4]; [5]]%nat.
Proof. reflexivity. Qed.

(** 250 identifiers in batches of 100 go out as 100, 100 and 50. *)
Example chunk_list_250_by_100 :
  exists chunks : list (list nat),
    daily_values.chunk_list (seq 0 250) 100 = Ok chunks
    /\ length <$> chunks = [100; 100; 50]%nat.
Proof. eexists. split; [vm_compute; reflexivity|]. reflexivity. Qed.

(** ** The Identifier Extractor *)

Section Extractor.
Context `{B : Builtins}.

(** The first loop appends what the specification calls the identifier of
    the feature, as a string. *)
Lemma feature_id_identifier (fd : dict) :
  daily_values.feature_id (JObj fd)
  = Ok (py_str <$> spec.identifier (JObj fd)).
Proof.
  unfold daily_values.feature_id, spec.identifier, spec.properties_id,
    spec.present_and_truthy.
  destruct (dict_get "properties" fd) as [[]|]; simpl;
    repeat (match goal with
            | |- context [match dict_get ?k ?d with _ => _ end] =>
                destruct (dict_get k d); simpl
            | |- context [if truthy ?v then _ else _] =>
                destruct (truthy v); simpl
            end); reflexivity.
Qed.

Lemma collect_ids_objects (features : list json) (ids : list string) :
  Forall (fun f => exists fd, f = JObj fd) features ->
  daily_values.collect_ids features ids
  = Ok (ids ++ omap (fun f => py_str <$> spec.identifier f) features).
Proof.
  intros Hall. revert ids.
  induction Hall as [|f features [fd ->] _ IH]; intros ids.
  - simpl. by rewrite app_nil_r.
  - cbn [daily_values.collect_ids]. rewrite feature_id_identifier. cbn [bind].
    change (omap ?f (?x :: ?l)) with
      (match f x with Some y => y :: omap f l | None => omap f l end).
    cbv beta.
    destruct (spec.identifier (JObj fd)); cbn [fmap option_fmap option_map].
    + rewrite IH, <- app_assoc. done.
    + by rewrite IH.
Qed.

(** Invariant of the second loop: [seen] holds the identifiers met so far,
    [p], and [out] grows by those of the rest that are new. *)
Lemma dedupe_first_occurrences (p ids : list string) (seen : gset string)
    (out : list string) :
  (forall x, x ∈ seen <-> x ∈ p) ->
  daily_values.dedupe ids seen out
  = out ++ omap id (imap (fun j x =>
                      if decide (x ∈ p ++ take j ids) then None else Some x)
                      ids).
Proof.
  revert p seen out. induction ids as [|x ids IH]; intros p seen out Hseen.
  - simpl. by rewrite app_nil_r.
  - cbn [daily_values.dedupe imap omap]. rewrite take_0, app_nil_r.
    assert (Hext :
      imap ((fun j y => if decide (y ∈ p ++ take j (x :: ids))
                        then None else Some y) ∘ S) ids
      = imap (fun j y => if decide (y ∈ (p ++ [x]) ++ take j ids)
                         then None else Some y) ids).
    { apply imap_ext. intros j y _. simpl. by rewrite <- app_assoc. }
    assert (Hseen' : forall s : gset string,
              (forall y, y ∈ s <-> y ∈ seen \/ y = x) ->
              forall y, y ∈ s <-> y ∈ p ++ [x]).
    { intros s Hs y.
      rewrite Hs, elem_of_app, list_elem_of_singleton, Hseen. done. }
    destruct (decide (x ∈ seen)) as [Hin|Hnin].
    + rewrite decide_True by (by apply Hseen). cbn [id].
      rewrite (IH (p ++ [x])); [by rewrite Hext|].
      apply Hseen'. intros y. split; [by left|]. by intros [?| ->].
    + rewrite decide_False by (by rewrite <- Hseen). cbn [id].
      rewrite (IH (p ++ [x])); [rewrite Hext; by rewrite <- app_assoc|].
      apply Hseen'. intros y.
      rewrite elem_of_union, elem_of_singleton. tauto.
Qed.

Lemma dedupe_spec (ids : list string) :
  daily_values.dedupe ids ∅ [] = spec.first_occurrences ids.
Proof.
  rewrite (dedupe_first_occurrences []); [done|].
  intros x. split; intros Hx; [by apply elem_of_empty in Hx|].
  by apply elem_of_nil in Hx.
Qed.

Lemma first_occurrences_snoc (ids : list string) (y : string) :
  spec.first_occurrences (ids ++ [y])
  = spec.first_occurrences ids ++ (if decide (y ∈ ids) then [] else [y]).
Proof.
  unfold spec.first_occurrences. rewrite imap_app, omap_app. f_equal.
  - f_equal. apply imap_ext. intros j x Hj. simpl.
    rewrite take_app_le by (apply lookup_lt_Some in Hj; lia). done.
  - simpl. rewrite Nat.add_0_r, take_app_le, take_ge by lia.
    by destruct (decide (y ∈ ids)).
Qed.

Lemma first_occurrences_elem_of (ids : list string) (x : string) :
  x ∈ spec.first_occurrences ids <-> x ∈ ids.
Proof.
  induction ids as [|y ids IH] using rev_ind.
  - done.
  - rewrite first_occurrences_snoc, !elem_of_app, IH.
    destruct (decide (y ∈ ids)) as [Hin|Hnin].
    + rewrite elem_of_nil, list_elem_of_singleton.
      split; [tauto|]. intros [?| ->]; by left.
    + done.
Qed.

Lemma first_occurrences_NoDup (ids : list string) :
  NoDup (spec.first_occurrences ids).
Proof.
  induction ids as [|y ids IH] using rev_ind; [constructor|].
  rewrite first_occurrences_snoc.
  destruct (decide (y ∈ ids)) as [Hin|Hnin]; [by rewrite app_nil_r|].
  apply NoDup_app. split; [done|]. split; [|apply NoDup_singleton].
  intros x Hx Hy. apply list_elem_of_singleton in Hy as ->.
  apply Hnin. by apply first_occurrences_elem_of.
Qed.

Lemma first_occurrences_sublist (ids : list string) :
  sublist (spec.first_occurrences ids) ids.
Proof.
  induction ids as [|y ids IH] using rev_ind; [constructor|].
  rewrite first_occurrences_snoc. apply sublist_app; [done|].
  destruct (decide (y ∈ ids)); [apply sublist_nil_l|done].
Qed.

(** C3. For a Feature Collection, [extract_location_ids] returns the
    identifiers of its features as strings ([properties.id] when present and
    truthy, else the top-level [id] when present and truthy, a feature with
    neither being skipped), each once, at the place of its first occurrence:
    the result has no duplicates, the same elements as the identifiers, and
    keeps their order. *)
Theorem extract_location_ids_first_occurrences (d : dict)
    (features : list json) :
  default (JArr []) (dict_get "features" d) = JArr features ->
  Forall (fun f => exists fd, f = JObj fd) features ->
  let ids := omap (fun f => py_str <$> spec.identifier f) features in
  daily_values.extract_location_ids (JObj d)
  = Ok (spec.first_occurrences ids)
  /\ NoDup (spec.first_occurrences ids)
  /\ (forall x, x ∈ spec.first_occurrences ids <-> x ∈ ids)
  /\ sublist (spec.first_occurrences ids) ids.
Proof.
  intros Hfeatures Hobjects ids. split; [|split; [|split]].
  - unfold daily_values.extract_location_ids. rewrite Hfeatures.
    cbn [py_iter bind]. rewrite collect_ids_objects by done.
    cbn [bind app]. by rewrite dedupe_spec.
  - apply first_occurrences_NoDup.
  - apply first_occurrences_elem_of.
  - apply first_occurrences_sublist.
Qed.

End Extractor.

Lemma extract_location_ids_first_occurrences_witness :
  daily_values.extract_location_ids (B := demo.builtins) demo.locations
  = Ok ["USGS-1"; "USGS-2"; "USGS-3"].
Proof.
  refine (proj1 (extract_location_ids_first_occurrences (B := demo.builtins)
    [("type", JStr "FeatureCollection");
     ("features",
      JArr [demo.feature "USGS-1"; demo.feature "USGS-2";
            demo.feature "USGS-1"; demo.feature "USGS-3"])]
    [demo.feature "USGS-1"; demo.feature "USGS-2"; demo.feature "USGS-1";
     demo.feature "USGS-3"] _ _)).
  - reflexivity.
  - repeat constructor; eexists; reflexivity.
Defined.

(** Features with ids a, b, a give a, b; a falsy [properties.id] falls back
    to the top-level [id]; a feature with neither is skipped. *)
Example extract_location_ids_a_b_a :
  daily_values.extract_location_ids (B := demo.builtins)
    (JObj [("features",
            JArr [JObj [("properties", JObj [("id", JStr "a")])];
                  JObj [("id", JStr "b"); ("properties", JObj [("id", JStr "")])];
                  JObj [("properties", JNull)];
                  JObj [("id", JStr "a"); ("properties", JStr "x")];
                  JObj [("id", JInt 7)]])])
  = Ok ["a"; "b"; "7"].
Proof. reflexivity. Qed.

(** ** The Fetch Client and the Aggregator *)

Lemma dict_get_set_eq (k : string) (v : json) (d : dict) :
  dict_get k (dict_set k v d) = Some v.
Proof.
  induction d as [|[k' v'] d IH]; simpl.
  - by rewrite String.eqb_refl.
  - destruct (String.eqb k k') eqn:E; simpl; rewrite E; [done|apply IH].
Qed.

Lemma dict_get_set_ne (k k' : string) (v : json) (d : dict) :
  k <> k' -> dict_get k (dict_set k' v d) = dict_get k d.
Proof.
  intros Hne. induction d as [|[k0 v0] d IH]; simpl.
  - by apply String.eqb_neq in Hne as ->.
  - destruct (String.eqb k' k0) eqn:E; simpl.
    + apply String.eqb_eq in E as ->. by apply String.eqb_neq in Hne as ->.
    + by rewrite IH.
Qed.

Lemma bind_ok_inv {A C} (m : result A) (k : A -> result C) (c : C) :
  bind m k = Ok c -> exists a, m = Ok a /\ k a = Ok c.
Proof. destruct m; [eauto|discriminate]. Qed.

Section Aggregator.
Context `{B : Builtins} `{W : !daily_values.World}.
Import daily_values.

Lemma replies_nil n : replies n [] [].
Proof. split; [done|]. intros i req Hi. by rewrite lookup_nil in Hi. Qed.

Lemma replies_cons n req d reqs datas :
  server n req = Ok (JObj d) -> replies (S n) reqs datas ->
  replies n (req :: reqs) (d :: datas).
Proof.
  intros Hd [Hlen Hall]. split; [simpl; by rewrite Hlen|].
  intros [|i] req' Hi; simpl in *.
  - simplify_eq. exists d. by rewrite Nat.add_0_r.
  - destruct (Hall i req' Hi) as (d' & ? & ?). exists d'.
    by replace (n + S i)%nat with (S n + i)%nat by lia.
Qed.

(** One pass of the loop body on a JSON object. *)
Lemma absorb_ok (d : dict) (all_features : list json) (meta : option dict) :
  absorb (JObj d) all_features meta
  = Ok (all_features ++ spec.batch_features d,
        Some (default (without_features d) meta)).
Proof.
  unfold absorb, spec.batch_features.
  destruct (dict_get "features" d) as [[]|], meta; simpl;
    by rewrite ?app_nil_r.
Qed.

Lemma absorb_inv data all_features meta st :
  absorb data all_features meta = Ok st -> exists d, data = JObj d.
Proof. destruct data; try discriminate. eauto. Qed.

(** Loop invariant: a completed loop has sent one request per batch and
    appended the feature lists of the replies in order. *)
Lemma fetch_batches_ok url base tr tmo batches feats meta log
    feats' meta' log' :
  fetch_batches url base tr tmo batches feats meta log
  = (Ok (feats', meta'), log') ->
  exists reqs datas,
    log' = log ++ reqs /\ length reqs = length batches /\
    replies (length log) reqs datas /\
    feats' = feats ++ concat (spec.batch_features <$> datas).
Proof.
  revert feats meta log.
  induction batches as [|batch batches IH]; intros feats meta log.
  - cbn. intros [= <- <- <-]. exists [], []. rewrite !app_nil_r.
    auto using replies_nil.
  - cbn [fetch_batches]. unfold io_bind at 1, lift at 1.
    destruct (dict_of base) as [p|e]; [|discriminate].
    unfold io_bind at 1, requests_get_json at 1.
    set (req := {| req_url := url |}).
    destruct (server (length log) req) as [data|e] eqn:Hsrv; [|discriminate].
    unfold io_bind at 1, lift at 1.
    destruct (absorb data feats meta) as [st|e] eqn:Habs; [|discriminate].
    destruct (absorb_inv _ _ _ _ Habs) as [d ->].
    rewrite absorb_ok in Habs. injection Habs as <-. cbn [fst snd].
    intros Hrun. apply IH in Hrun as (reqs & datas & -> & Hlen & Hrep & ->).
    exists (req :: reqs), (d :: datas).
    rewrite <- !app_assoc. cbn [fmap list_fmap concat length].
    split; [done|]. split; [by rewrite Hlen|]. split; [|by rewrite app_assoc].
    rewrite length_app in Hrep. simpl in Hrep.
    replace (length log + 1)%nat with (S (length log)) in Hrep by lia.
    by apply (replies_cons _ _ _ _ _ Hsrv Hrep).
Qed.

(** The loop completes when every reply is a JSON object. *)
Lemma fetch_batches_total url base tr tmo batches feats meta log p :
  dict_of base = Ok p ->
  (forall (n : nat) req, exists d, server n req = Ok (JObj d)) ->
  exists st log',
    fetch_batches url base tr tmo batches feats meta log = (Ok st, log').
Proof.
  intros Hp Hsrv. revert feats meta log.
  induction batches as [|batch batches IH]; intros feats meta log.
  - cbn. eauto.
  - cbn [fetch_batches]. unfold io_bind at 1, lift at 1. rewrite Hp.
    unfold io_bind at 1, requests_get_json at 1.
    set (req := {| req_url := url |}).
    destruct (Hsrv (length log) req) as [d ->].
    unfold io_bind at 1, lift at 1. rewrite absorb_ok. apply IH.
Qed.

(** The entries that the combined result sets override those of the first
    reply. *)
Lemma combine_entries meta feats bs batches tr :
  dict_get "features" (combine meta feats bs batches tr) = Some (JArr feats)
  /\ dict_get "numberReturned" (combine meta feats bs batches tr)
     = Some (len feats)
  /\ dict_get "total_features" (combine meta feats bs batches tr)
     = Some (len feats)
  /\ dict_get "batch_size" (combine meta feats bs batches tr)
     = Some (JInt bs)
  /\ dict_get "batches" (combine meta feats bs batches tr)
     = Some (len batches)
  /\ dict_get "time_range" (combine meta feats bs batches tr)
     = Some (JStr tr).
Proof.
  unfold combine.
  repeat split;
    repeat (first [ apply dict_get_set_eq
                  | rewrite dict_get_set_ne by discriminate ]).
Qed.

(** C1. In every completed run the combined result lists the features of
    the batch replies in batch order, each reply's features in their own
    order; [numberReturned] and [total_features] are the length of that list
    and [batches] the number of requests sent, one per batch. A reply whose
    [features] entry is missing or is no list adds nothing and raises
    nothing, so the run completes whenever every reply is a JSON object. *)
Theorem aggregator_concatenates_batches (locations_json : json) :
  (forall combined log,
     fetch_daily_values_for_locations locations_json [] = (Ok combined, log) ->
     exists (s : settings) (datas : list dict) (cd : dict),
       prepare locations_json = Ok s /\ combined = JObj cd /\
       length log = length (batches s) /\
       replies 0 log datas /\
       let features := concat (spec.batch_features <$> datas) in
       dict_get "features" cd = Some (JArr features) /\
       dict_get "numberReturned" cd
       = Some (JInt (Z.of_nat (length features))) /\
       dict_get "total_features" cd
       = Some (JInt (Z.of_nat (length features))) /\
       dict_get "batches" cd = Some (JInt (Z.of_nat (length log))))
  /\
  (forall (d : dict) all_features meta,
     (forall l, dict_get "features" d <> Some (JArr l)) ->
     exists meta', absorb (JObj d) all_features meta = Ok (all_features, meta'))
  /\
  (forall s p,
     prepare locations_json = Ok s -> dict_of (dv_params_base s) = Ok p ->
     (forall (n : nat) req, exists d, server n req = Ok (JObj d)) ->
     exists combined log,
       fetch_daily_values_for_locations locations_json [] = (Ok combined, log)).
Proof.
  split; [|split].
  - intros combined log. unfold fetch_daily_values_for_locations.
    unfold io_bind at 1, lift at 1.
    destruct (prepare locations_json) as [s|e]; [|discriminate].
    unfold io_bind at 1.
    destruct (fetch_batches _ _ _ _ _ _ _ _)
      as [[[feats meta]|e] log0] eqn:Hrun; [|discriminate].
    unfold lift. intros [= <- <-].
    apply fetch_batches_ok in Hrun as (reqs & datas & -> & Hlen & Hrep & ->).
    simpl in *.
    destruct (combine_entries meta (concat (spec.batch_features <$> datas))
                (batch_size s) (batches s) (time_range s))
      as (Hf & Hn & Ht & _ & Hb & _).
    exists s, datas, (combine meta (concat (spec.batch_features <$> datas))
                (batch_size s) (batches s) (time_range s)).
    split; [done|]. split; [done|]. split; [done|]. split; [done|].
    split; [done|]. split; [done|]. split; [done|].
    rewrite Hb. unfold len. by rewrite Hlen.
  - intros d feats meta Hnot. rewrite absorb_ok. eexists.
    unfold spec.batch_features.
    destruct (dict_get "features" d) as [[]|] eqn:E;
      rewrite ?app_nil_r; try done.
    by destruct (Hnot l).
  - intros s p Hs Hp Hsrv. unfold fetch_daily_values_for_locations.
    unfold io_bind at 1, lift at 1. rewrite Hs. unfold io_bind at 1.
    destruct (fetch_batches_total (dv_base_url s) (dv_params_base s)
                (time_range s) (timeout s) (batches s) [] None [] p Hp Hsrv)
      as (st & log & ->).
    unfold lift. eauto.
Qed.

End Aggregator.

(** Two batches that return 3 and 2 features: the combined result has the 5
    features in batch order, [batches] is 2 and [total_features] is 5. *)
Example aggregator_three_and_two :
  fst (daily_values.fetch_daily_values_for_locations
         (W := demo.world "2" "90") demo.locations [])
  = Ok (JObj [("type", JStr "FeatureCollection");
              ("numberReturned", JInt 5);
              ("features",
               JArr [JStr "a"; JStr "b"; JStr "c"; JStr "d"; JStr "e"]);
              ("total_features", JInt 5);
              ("batch_size", JInt 2);
              ("batches", JInt 2);
              ("time_range",
               JStr "2023-08-16T22:13:20Z/2023-11-14T22:13:20Z")]).
Proof. vm_compute. reflexivity. Qed.

Lemma aggregator_concatenates_batches_witness :
  exists combined log cd,
    daily_values.fetch_daily_values_for_locations
      (W := demo.world "2" "90") demo.locations [] = (Ok combined, log)
    /\ combined = JObj cd
    /\ dict_get "batches" cd = Some (JInt (Z.of_nat (length log)))
    /\ exists meta',
         daily_values.absorb (JObj [("features", JStr "none")]) [JNull] None
         = Ok ([JNull], meta').
Proof.
  destruct (aggregator_concatenates_batches (W := demo.world "2" "90")
              demo.locations) as (Hrun & Hskip & Htotal).
  destruct (Htotal
    {| daily_values.dv_base_url := "https://api.example/daily";
       daily_values.dv_params_base := JObj [];
       daily_values.batch_size := 2;
       daily_values.timeout := 30;
       daily_values.ids := ["USGS-1"; "USGS-2"; "USGS-3"];
       daily_values.time_range := "2023-08-16T22:13:20Z/2023-11-14T22:13:20Z";
       daily_values.batches := [["USGS-1"; "USGS-2"]; ["USGS-3"]] |} [])
    as (combined & log & Hfetch).
  - vm_compute. reflexivity.
  - reflexivity.
  - intros n req. unfold daily_values.server, demo.world, demo.reply.
    destruct n as [|[|[|n]]]; eauto.
  - destruct (Hrun combined log Hfetch)
      as (s & datas & cd & _ & Hcd & _ & _ & _ & _ & _ & Hb).
    exists combined, log, cd.
    split; [exact Hfetch|]. split; [exact Hcd|]. split; [exact Hb|].
    apply Hskip. intros l. discriminate.
Defined.

(** ** Configuration errors *)

Section Configuration.
Context `{B : Builtins} `{W : !daily_values.World}.
Import daily_values.

Lemma chunk_list_ok_nonzero {A} (items : list A) (n : Z) chunks :
  chunk_list items n = Ok chunks -> n <> 0.
Proof.
  unfold chunk_list, py_range. destruct (Z.eqb_spec n 0); [discriminate|done].
Qed.

Lemma calculate_time_range_ok tr :
  calculate_time_range = Ok tr ->
  is_ok (int_of_env (getenv "DV_TIME_RANGE_DAYS")) = true.
Proof. unfold calculate_time_range. by destruct (int_of_env _). Qed.

(** What the settings are when the part before the loop completes. *)
Lemma prepare_ok_inv locations_json s :
  prepare locations_json = Ok s ->
  getenv "USGS_DV_BASE_URL" = Some (dv_base_url s) /\ dv_base_url s <> ""
  /\ (exists raw, getenv "DV_QUERY_PARAMS" = Some raw /\ raw <> ""
        /\ json_loads raw = Some (dv_params_base s))
  /\ int_of_env (getenv "DV_BATCH_SIZE") = Ok (batch_size s)
  /\ batch_size s <> 0
  /\ int_of_env (getenv "API_TIMEOUT_SECONDS") = Ok (timeout s)
  /\ is_ok (int_of_env (getenv "DV_TIME_RANGE_DAYS")) = true
  /\ extract_location_ids locations_json = Ok (ids s) /\ ids s <> []
  /\ chunk_list (ids s) (batch_size s) = Ok (batches s).
Proof.
  unfold prepare.
  destruct (getenv "USGS_DV_BASE_URL") as [[|c url]|]; try discriminate.
  destruct (getenv "DV_QUERY_PARAMS") as [[|c' raw]|]; try discriminate.
  destruct (json_loads _) as [base|] eqn:Hbase; try discriminate.
  intros H.
  apply bind_ok_inv in H as (bs & Hbs & H).
  apply bind_ok_inv in H as (tmo & Htmo & H).
  apply bind_ok_inv in H as (l & Hids & H).
  destruct l as [|x l]; [discriminate|].
  apply bind_ok_inv in H as (tr & Htr & H).
  apply bind_ok_inv in H as (chunks & Hchunks & H).
  injection H as <-. simpl.
  split; [done|]. split; [done|].
  split; [eexists; split; [done|]; split; [done|exact Hbase]|].
  split; [done|]. split; [by eapply chunk_list_ok_nonzero|].
  split; [done|]. split; [by eapply calculate_time_range_ok|].
  done.
Qed.

Lemma fetch_prepare_raises locations_json e :
  prepare locations_json = Raise e ->
  fetch_daily_values_for_locations locations_json [] = (Raise e, []).
Proof.
  intros H. unfold fetch_daily_values_for_locations, io_bind, lift.
  by rewrite H.
Qed.

(** C6, as the code has it. When the base URL or the parameter template is
    missing or empty, the template is no JSON, or the batch size, the
    timeout or the day count is missing or no integer, or the batch size is
    zero, [fetch_daily_values_for_locations] raises and has sent no request.
    That the three numbers are positive is not checked. *)
Theorem configuration_errors_precede_requests (locations_json : json) :
  getenv "USGS_DV_BASE_URL" = None
  \/ getenv "USGS_DV_BASE_URL" = Some ""
  \/ getenv "DV_QUERY_PARAMS" = None
  \/ getenv "DV_QUERY_PARAMS" = Some ""
  \/ (exists raw, getenv "DV_QUERY_PARAMS" = Some raw /\ json_loads raw = None)
  \/ getenv "DV_BATCH_SIZE" = None
  \/ getenv "API_TIMEOUT_SECONDS" = None
  \/ getenv "DV_TIME_RANGE_DAYS" = None
  \/ is_ok (int_of_env (getenv "DV_BATCH_SIZE")) = false
  \/ is_ok (int_of_env (getenv "API_TIMEOUT_SECONDS")) = false
  \/ is_ok (int_of_env (getenv "DV_TIME_RANGE_DAYS")) = false
  \/ int_of_env (getenv "DV_BATCH_SIZE") = Ok 0 ->
  exists e,
    fetch_daily_values_for_locations locations_json [] = (Raise e, []).
Proof.
  intros Hbad.
  destruct (prepare locations_json) as [s|e] eqn:Hprep;
    [|exists e; by apply fetch_prepare_raises].
  exfalso.
  apply prepare_ok_inv in Hprep
    as (Hurl & Hurl' & (raw & Hraw & Hraw' & Hjson) & Hbs & Hbs0 & Htmo
        & Hdays & _).
  destruct Hbad as [H|[H|[H|[H|[(raw' & H & H')|[H|[H|[H|[H|[H|[H|H]]]]]]]]]]].
  - congruence.
  - congruence.
  - congruence.
  - congruence.
  - congruence.
  - rewrite H in Hbs. discriminate.
  - rewrite H in Htmo. discriminate.
  - rewrite H in Hdays. discriminate.
  - rewrite Hbs in H. discriminate.
  - rewrite Htmo in H. discriminate.
  - congruence.
  - congruence.
Qed.

End Configuration.

Lemma configuration_errors_precede_requests_witness :
  exists e,
    daily_values.fetch_daily_values_for_locations
      (W := demo.world "" "90") demo.locations [] = (Raise e, []).
Proof.
  apply (configuration_errors_precede_requests (W := demo.world "" "90")).
  do 8 right. left. vm_compute. reflexivity.
Defined.

(** C6 as stated fails: a batch size of -5 and a day count of -1 are read
    without complaint. With the first the run ends without any request and
    returns an empty combined result; with the second it goes on to send its
    requests. *)
Lemma nonpositive_settings_are_accepted :
  (let run :=
     daily_values.fetch_daily_values_for_locations
       (W := demo.world "-5" "90") demo.locations [] in
   int_of_env (daily_values.getenv (W := demo.world "-5" "90") "DV_BATCH_SIZE")
   = Ok (-5)
   /\ run.1
      = Ok (JObj [("features", JArr []); ("numberReturned", JInt 0);
                  ("total_features", JInt 0); ("batch_size", JInt (-5));
                  ("batches", JInt 0);
                  ("time_range",
                   JStr "2023-08-16T22:13:20Z/2023-11-14T22:13:20Z")])
   /\ length run.2 = 0%nat)
  /\
  (let run :=
     daily_values.fetch_daily_values_for_locations
       (W := demo.world "2" "-1") demo.locations [] in
   int_of_env
     (daily_values.getenv (W := demo.world "2" "-1") "DV_TIME_RANGE_DAYS")
   = Ok (-1)
   /\ is_ok run.1 = true /\ length run.2 = 2%nat).
Proof.
  split; vm_compute; done.
Qed.

(** ** Tables: labels, rows and joins *)

(** *** Labels *)

Lemma last_char_app (c : string) (a : ascii) (s : string) :
  last_char (c +:+ String a s) = last_char (String a s).
Proof.
  induction c as [|b c IH]; [done|].
  change (String b c +:+ String a s) with (String b (c +:+ String a s)).
  cbn [last_char]. rewrite IH.
  destruct c; reflexivity.
Qed.

Lemma list_ascii_of_string_app (c s : string) :
  String.list_ascii_of_string (c +:+ s)
  = String.list_ascii_of_string c ++ String.list_ascii_of_string s.
Proof.
  induction c as [|b c IH]; [done|].
  change (String b c +:+ s) with (String b (c +:+ s)). simpl. by rewrite IH.
Qed.

Lemma string_app_inv_tail (c c' s : string) :
  c +:+ s = c' +:+ s -> c = c'.
Proof.
  intros H. apply (f_equal String.list_ascii_of_string) in H.
  rewrite !list_ascii_of_string_app in H. apply app_inv_tail in H.
  apply (f_equal String.string_of_list_ascii) in H.
  by rewrite !String.string_of_list_ascii_of_string in H.
Qed.

Lemma suffix_x_not_plain (c t : string) : plain t -> c +:+ "_x" <> t.
Proof. intros [Hx _] <-. apply Hx. by rewrite last_char_app. Qed.

Lemma suffix_y_not_plain (c t : string) : plain t -> c +:+ "_y" <> t.
Proof. intros [_ Hy] <-. apply Hy. by rewrite last_char_app. Qed.

Lemma elem_of_columns (c : string) (df : DataFrame) :
  c ∈ columns df <-> exists s, (c, s) ∈ cols df.
Proof.
  unfold columns. rewrite list_elem_of_fmap. split.
  - intros ([c' s] & -> & Hin). eauto.
  - intros [s Hin]. by exists (c, s).
Qed.

Lemma elem_of_named (c : string) (df : DataFrame) (nc : string * Series) :
  nc ∈ named c df <-> nc ∈ cols df /\ nc.1 = c.
Proof.
  unfold named. rewrite list_elem_of_filter, String.eqb_eq. tauto.
Qed.

Lemma named_nil (c : string) (df : DataFrame) :
  named c df = [] <-> c ∉ columns df.
Proof.
  split.
  - intros Hnil [s Hin]%elem_of_columns.
    assert (H : (c, s) ∈ named c df) by (by apply elem_of_named).
    rewrite Hnil in H. by apply elem_of_nil in H.
  - intros Hnot. destruct (named c df) as [|[c' s] l] eqn:E; [done|].
    assert (H : (c', s) ∈ named c df) by (rewrite E; left).
    apply elem_of_named in H as [Hin Hc]. simpl in Hc. subst c'.
    destruct Hnot. apply elem_of_columns. eauto.
Qed.

Lemma has_column_true (c : string) (df : DataFrame) :
  has_column c df = true <-> c ∈ columns df.
Proof. unfold has_column. apply bool_decide_eq_true. Qed.

Lemma has_column_false (c : string) (df : DataFrame) :
  has_column c df = false <-> c ∉ columns df.
Proof. unfold has_column. apply bool_decide_eq_false. Qed.

Lemma getitem_ok (df : DataFrame) (c : string) (e : exn) (s : Series) :
  getitem df c e = Ok s <-> exists c', named c df = [(c', s)].
Proof.
  unfold getitem. destruct (named c df) as [|[c' s'] [|? ?]]; split;
    try discriminate; try (intros [? [=]]; fail).
  - intros [= ->]. eauto.
  - intros [? [= -> ->]]. done.
Qed.

Lemma getitem_ok_columns (df : DataFrame) (c : string) (e : exn) (s : Series) :
  getitem df c e = Ok s -> c ∈ columns df.
Proof.
  intros [c' H]%getitem_ok. destruct (decide (c ∈ columns df)) as [|Hn]; [done|].
  apply named_nil in Hn. congruence.
Qed.

(** Whether [df[c]] is a Series depends on the labels only. *)
Lemma getitem_exn (df : DataFrame) (c : string) (e e' : exn) (s : Series) :
  getitem df c e = Ok s -> getitem df c e' = Ok s.
Proof. intros [c' H]%getitem_ok. apply getitem_ok. eauto. Qed.

Lemma first_missing_none (cs : list string) (df : DataFrame) :
  first_missing cs df = None <-> forall c, c ∈ cs -> c ∈ columns df.
Proof.
  induction cs as [|c cs IH]; simpl.
  - split; [|done]. intros _ c Hc. by apply elem_of_nil in Hc.
  - destruct (has_column c df) eqn:E.
    + apply has_column_true in E. rewrite IH. split.
      * intros H c' [->|Hc']%elem_of_cons; auto.
      * intros H c' Hc'. apply H. by right.
    + apply has_column_false in E. split; [done|].
      intros H. destruct E. apply H. left.
Qed.

Lemma first_missing_some (cs : list string) (df : DataFrame) (c : string) :
  first_missing cs df = Some c -> c ∈ cs /\ c ∉ columns df.
Proof.
  induction cs as [|c' cs IH]; simpl; [done|].
  destruct (has_column c' df) eqn:E.
  - intros [? ?]%IH. split; [by right|done].
  - intros [= ->]. apply has_column_false in E. split; [left|done].
Qed.

Lemma drop_columns_missing (df : DataFrame) (c : string) :
  c ∉ columns df -> drop_columns df [c] = Raise (KeyError c).
Proof.
  intros H. unfold drop_columns. simpl.
  apply has_column_false in H. by rewrite H.
Qed.

Lemma drop_columns_ok (df df' : DataFrame) (cs : list string) :
  drop_columns df cs = Ok df' ->
  (forall c, c ∈ cs -> c ∈ columns df)
  /\ df' = {| nrows := nrows df;
              cols := filter (fun nc : string * Series => nc.1 ∉ cs) (cols df) |}.
Proof.
  unfold drop_columns. destruct (first_missing cs df) eqn:E; [discriminate|].
  intros [= <-]. split; [by apply first_missing_none|done].
Qed.

Lemma getitem_list_ok (df df' : DataFrame) (cs : list string) :
  getitem_list df cs = Ok df' ->
  (forall c, c ∈ cs -> c ∈ columns df)
  /\ df' = {| nrows := nrows df;
              cols := concat ((fun c => named c df) <$> cs) |}.
Proof.
  unfold getitem_list. destruct (first_missing cs df) eqn:E; [discriminate|].
  intros [= <-]. split; [by apply first_missing_none|done].
Qed.

Lemma columns_take_rows (idx : list nat) (df : DataFrame) :
  columns (take_rows idx df) = columns df.
Proof.
  unfold columns, take_rows. simpl. rewrite <- list_fmap_compose.
  by apply list_fmap_ext.
Qed.

Lemma columns_setitem (df : DataFrame) (c : string) (s : Series) :
  c ∈ columns df -> columns (setitem df c s) = columns df.
Proof.
  intros H. unfold setitem. apply has_column_true in H. rewrite H.
  unfold columns. simpl. rewrite <- list_fmap_compose.
  apply list_fmap_ext. intros _ [c' s'] _. simpl.
  by destruct (String.eqb c' c).
Qed.

Lemma columns_rename (df : DataFrame) (m : list (string * string)) :
  columns (rename df m) = rename_label m <$> columns df.
Proof.
  unfold columns, rename. simpl. rewrite <- !list_fmap_compose.
  by apply list_fmap_ext.
Qed.

Lemma columns_drop_duplicates (df : DataFrame) :
  columns (drop_duplicates df) = columns df.
Proof. apply columns_take_rows. Qed.

Lemma dropna_ok (df df' : DataFrame) (c : string) :
  dropna df c = Ok df' ->
  exists s, getitem df c ValueError = Ok s
    /\ df' = take_rows (filter (fun i => isna (iloc s i) = false)
                          (seq 0 (nrows df))) df.
Proof.
  unfold dropna. intros (s & Hs & [= <-])%bind_ok_inv. eauto.
Qed.

Lemma elem_of_concat {A} (x : A) (ls : list (list A)) :
  x ∈ concat ls <-> exists l, x ∈ l /\ l ∈ ls.
Proof.
  rewrite list_elem_of_In, in_concat. split.
  - intros (l & Hl & Hx). exists l. by rewrite !list_elem_of_In.
  - intros (l & Hx & Hl). exists l. by rewrite <- !list_elem_of_In.
Qed.

Lemma elem_of_columns_getitem_list (df df' : DataFrame) (cs : list string) c :
  getitem_list df cs = Ok df' -> c ∈ columns df' <-> c ∈ cs.
Proof.
  intros [Hall ->]%getitem_list_ok. rewrite elem_of_columns. simpl. split.
  - intros [s Hin]. apply elem_of_concat in Hin as (l & Hin & Hl).
    apply list_elem_of_fmap in Hl as (c' & -> & Hc').
    apply elem_of_named in Hin as [_ Hc]. simpl in Hc. by subst.
  - intros Hc. destruct (proj1 (elem_of_columns c df) (Hall c Hc)) as [s Hs].
    exists s. apply elem_of_concat. exists (named c df). split.
    + by apply elem_of_named.
    + apply list_elem_of_fmap. eauto.
Qed.

Lemma elem_of_columns_drop (df df' : DataFrame) (cs : list string) c :
  drop_columns df cs = Ok df' -> c ∈ columns df' <-> c ∈ columns df /\ c ∉ cs.
Proof.
  intros [_ ->]%drop_columns_ok. rewrite !elem_of_columns. simpl. split.
  - intros [s [Hin Hc]%list_elem_of_filter]. eauto.
  - intros [[s Hin] Hc]. exists s. by apply list_elem_of_filter.
Qed.

(** *** Merges *)

Lemma items_overlap_ok (left right ll rl : list string) :
  items_overlap_with_suffix left right = Ok (ll, rl) ->
  ll = suffix (filter (fun c => c ∈ right) left) "_x" <$> left
  /\ rl = suffix (filter (fun c => c ∈ right) left) "_y" <$> right.
Proof.
  unfold items_overlap_with_suffix. intros H.
  destruct (filter (fun c => c ∈ right) left) as [|c ov'] eqn:E.
  - injection H as <- <-. unfold suffix. simpl.
    split; symmetry; apply list_fmap_id.
  - destruct (_ ++ _); [|discriminate]. by injection H as <- <-.
Qed.

Lemma elem_of_overlap (left right : list string) (c : string) :
  c ∈ filter (fun c => c ∈ right) left <-> c ∈ left /\ c ∈ right.
Proof. rewrite list_elem_of_filter. tauto. Qed.

Lemma zip_fmap_cols {A} (g : string -> string) (f : Series -> A)
    (l : list (string * Series)) :
  zip (g <$> l.*1) (f <$> l.*2) = (fun nc => (g nc.1, f nc.2)) <$> l.
Proof. induction l as [|[c s] l IH]; [done|]. simpl. f_equal. exact IH. Qed.

Lemma merge_left_ok (left right merged : DataFrame) (left_on right_on : string) :
  merge_left left right left_on right_on = Ok merged ->
  exists lkey rkey,
    getitem left left_on ValueError = Ok lkey
    /\ getitem right right_on ValueError = Ok rkey
    /\ merged = {| nrows := length (match_rows lkey rkey);
                   cols := merged_cols
                             (filter (fun c => c ∈ columns right) (columns left))
                             (match_rows lkey rkey) left right |}.
Proof.
  unfold merge_left.
  intros (rkey & Hr & H)%bind_ok_inv.
  apply bind_ok_inv in H as (lkey & Hl & H).
  apply bind_ok_inv in H as ([ll rl] & Hlab & H).
  injection H as <-. exists lkey, rkey. split; [done|]. split; [done|].
  apply items_overlap_ok in Hlab as [-> ->]. simpl.
  unfold merged_cols. unfold columns. by rewrite !zip_fmap_cols.
Qed.

(** *** Columns by label *)

Lemma filter_label_fmap (g : string -> string) (f : Series -> Series)
    (l : list (string * Series)) (c : string) :
  filter (fun nc : string * Series => String.eqb nc.1 c = true)
    ((fun nc : string * Series => (g nc.1, f nc.2)) <$> l)
  = (fun nc : string * Series => (g nc.1, f nc.2))
      <$> filter (fun nc : string * Series => String.eqb (g nc.1) c = true) l.
Proof.
  induction l as [|[c' s] l IH]; [done|].
  rewrite fmap_cons, !filter_cons. simpl.
  destruct (decide (String.eqb (g c') c = true)); by rewrite IH.
Qed.

Lemma filter_ext_in {A} (P Q : A -> Prop) `{!forall x, Decision (P x)}
    `{!forall x, Decision (Q x)} (l : list A) :
  (forall x, x ∈ l -> P x <-> Q x) -> filter P l = filter Q l.
Proof.
  induction l as [|x l IH]; intros Hext; [done|].
  rewrite !filter_cons.
  destruct (decide (P x)) as [HP|HP], (decide (Q x)) as [HQ|HQ].
  - f_equal. apply IH. intros y Hy. apply Hext. by right.
  - destruct HQ. apply Hext; [left|done].
  - destruct HP. apply Hext; [left|done].
  - apply IH. intros y Hy. apply Hext. by right.
Qed.

(** A table whose columns are those of [df], relabelled by [g] and mapped
    by [f]. *)
Lemma named_fmap (df : DataFrame) (n : nat) (g : string -> string)
    (f : Series -> Series) (c : string) :
  (forall c', c' ∈ columns df -> g c' = c <-> c' = c) ->
  named c {| nrows := n;
             cols := (fun nc : string * Series => (g nc.1, f nc.2)) <$> cols df |}
  = (fun nc : string * Series => (c, f nc.2)) <$> named c df.
Proof.
  intros Hg. unfold named. simpl.
  rewrite filter_label_fmap.
  rewrite (filter_ext_in _ (fun nc : string * Series => String.eqb nc.1 c = true)).
  - apply list_fmap_ext.
    intros _ [c' s] [Hin Hc]%list_elem_of_lookup_2%elem_of_named.
    simpl in *. f_equal. apply Hg; [|done]. apply elem_of_columns. eauto.
  - intros [c' s] Hin. simpl. rewrite !String.eqb_eq. apply Hg.
    apply elem_of_columns. eauto.
Qed.

Lemma getitem_fmap (df df' : DataFrame) (f : Series -> Series) (c : string)
    (e : exn) :
  named c df' = (fun nc : string * Series => (c, f nc.2)) <$> named c df ->
  getitem df' c e = map_result f (getitem df c e).
Proof.
  intros H. unfold getitem. rewrite H.
  by destruct (named c df) as [|[c' s] [|? ?]].
Qed.

Lemma named_take_rows (idx : list nat) (df : DataFrame) (c : string) :
  named c (take_rows idx df)
  = (fun nc : string * Series => (c, reindex (Some <$> idx) nc.2)) <$> named c df.
Proof.
  unfold take_rows.
  by apply (named_fmap df (length idx) id (reindex (Some <$> idx)) c).
Qed.

Lemma getitem_take_rows (idx : list nat) (df : DataFrame) (c : string) e :
  getitem (take_rows idx df) c e
  = map_result (reindex (Some <$> idx)) (getitem df c e).
Proof. apply getitem_fmap, named_take_rows. Qed.

Lemma named_setitem_ne (df : DataFrame) (c c' : string) (s : Series) :
  c' <> c -> c ∈ columns df -> named c' (setitem df c s) = named c' df.
Proof.
  intros Hne Hc. unfold setitem. apply has_column_true in Hc. rewrite Hc.
  unfold named. simpl. induction (cols df) as [|[c0 s0] l IH]; [done|].
  rewrite fmap_cons, !filter_cons. simpl.
  destruct (String.eqb c0 c) eqn:E; simpl.
  - apply String.eqb_eq in E as ->.
    rewrite !decide_False; [done| |];
      rewrite String.eqb_eq; congruence.
  - destruct (decide (String.eqb c0 c' = true)); by rewrite IH.
Qed.

Lemma getitem_setitem_ne (df : DataFrame) (c c' : string) (s : Series) e :
  c' <> c -> c ∈ columns df ->
  getitem (setitem df c s) c' e = getitem df c' e.
Proof. intros. unfold getitem. by rewrite named_setitem_ne. Qed.

Lemma named_setitem_eq (df : DataFrame) (c : string) (s : Series) :
  c ∈ columns df ->
  named c (setitem df c s) = (fun nc : string * Series => (c, s)) <$> named c df.
Proof.
  intros Hc. unfold setitem. apply has_column_true in Hc. rewrite Hc.
  unfold named. simpl. induction (cols df) as [|[c0 s0] l IH]; [done|].
  rewrite fmap_cons, !filter_cons. simpl.
  destruct (String.eqb c0 c) eqn:E; simpl.
  - rewrite E. rewrite !decide_True by done.
    f_equal; [by apply String.eqb_eq in E as ->|exact IH].
  - rewrite E. rewrite !decide_False by done. apply IH.
Qed.

Lemma getitem_setitem_eq (df : DataFrame) (c : string) (s s0 : Series) e e' :
  getitem df c e' = Ok s0 -> getitem (setitem df c s) c e = Ok s.
Proof.
  intros H. pose proof (getitem_ok_columns _ _ _ _ H) as Hc.
  apply getitem_ok in H as [c' H]. apply getitem_ok. exists c.
  by rewrite named_setitem_eq, H.
Qed.

Lemma named_drop_columns (df df' : DataFrame) (cs : list string) (c : string) :
  drop_columns df cs = Ok df' -> c ∉ cs -> named c df' = named c df.
Proof.
  intros [_ ->]%drop_columns_ok Hc. unfold named. simpl.
  rewrite list_filter_filter. apply filter_ext_in.
  intros [c' s] _. simpl. rewrite String.eqb_eq. split; [tauto|].
  intros ->. done.
Qed.

Lemma getitem_drop_columns (df df' : DataFrame) (cs : list string) c e :
  drop_columns df cs = Ok df' -> c ∉ cs -> getitem df' c e = getitem df c e.
Proof. intros ??. unfold getitem. by erewrite named_drop_columns. Qed.

Lemma named_named (df : DataFrame) (c c' : string) :
  filter (fun nc : string * Series => String.eqb nc.1 c = true) (named c' df)
  = if String.eqb c' c then named c df else [].
Proof.
  unfold named. rewrite list_filter_filter.
  destruct (String.eqb c' c) eqn:E.
  - apply String.eqb_eq in E as ->. apply filter_ext_in. intros; tauto.
  - apply String.eqb_neq in E. induction (cols df) as [|[c0 s0] l IH]; [done|].
    rewrite filter_cons. simpl. rewrite decide_False; [done|].
    rewrite !String.eqb_eq. intros [-> ->]. done.
Qed.

Lemma named_getitem_list (df df' : DataFrame) (cs : list string) (c : string) :
  getitem_list df cs = Ok df' -> NoDup cs -> c ∈ cs -> named c df' = named c df.
Proof.
  intros [_ ->]%getitem_list_ok Hnd Hc. unfold named at 1. simpl.
  induction cs as [|c0 cs IH]; [by apply elem_of_nil in Hc|].
  apply NoDup_cons in Hnd as [Hc0 Hnd].
  rewrite fmap_cons. simpl. rewrite filter_app, named_named.
  destruct (String.eqb c0 c) eqn:E.
  - apply String.eqb_eq in E as ->.
    assert (Hrest : filter (fun nc : string * Series => String.eqb nc.1 c = true)
                      (concat ((fun c => named c df) <$> cs)) = []).
    { clear IH Hc Hnd. induction cs as [|c1 cs IH]; [done|].
      apply not_elem_of_cons in Hc0 as [Hne Hc0].
      rewrite fmap_cons. simpl. rewrite filter_app, named_named.
      apply String.eqb_neq in Hne. rewrite String.eqb_sym, Hne. simpl. auto. }
    by rewrite Hrest, app_nil_r.
  - simpl. apply IH; [done|]. apply elem_of_cons in Hc as [->|Hc]; [|done].
    by rewrite String.eqb_refl in E.
Qed.

Lemma getitem_getitem_list (df df' : DataFrame) (cs : list string) c e :
  getitem_list df cs = Ok df' -> NoDup cs -> c ∈ cs ->
  getitem df' c e = getitem df c e.
Proof. intros ???. unfold getitem. by erewrite named_getitem_list. Qed.

Lemma named_rename (df : DataFrame) (m : list (string * string)) (c : string) :
  (forall c', c' ∈ columns df -> rename_label m c' = c <-> c' = c) ->
  named c (rename df m) = named c df.
Proof.
  intros H. unfold named, rename. simpl.
  rewrite (filter_label_fmap (rename_label m) id).
  rewrite (filter_ext_in _ (fun nc : string * Series => String.eqb nc.1 c = true)).
  - rewrite <- (list_fmap_id (filter _ (cols df))) at 2.
    apply list_fmap_ext.
    intros _ [c' s] [Hc Hin]%list_elem_of_lookup_2%list_elem_of_filter.
    simpl in *. apply String.eqb_eq in Hc as ->. f_equal.
    apply H; [|done]. apply elem_of_columns. eauto.
  - intros [c' s] Hin. simpl. rewrite !String.eqb_eq. apply H.
    apply elem_of_columns. eauto.
Qed.

Lemma getitem_rename (df : DataFrame) (m : list (string * string)) c e :
  (forall c', c' ∈ columns df -> rename_label m c' = c <-> c' = c) ->
  getitem (rename df m) c e = getitem df c e.
Proof. intros. unfold getitem. by rewrite named_rename. Qed.

(** *** Rows *)

Lemma length_reindex (idx : list (option nat)) (s : Series) :
  length (reindex idx s) = length idx.
Proof. unfold reindex. apply length_fmap. Qed.

Lemma iloc_fmap (f : cell -> cell) (s : Series) (i : nat) :
  f NA = NA -> iloc (f <$> s) i = f (iloc s i).
Proof.
  intros Hf. unfold iloc. rewrite list_lookup_fmap.
  by destruct (s !! i).
Qed.

Lemma iloc_reindex (idx : list (option nat)) (s : Series) (k : nat) :
  iloc (reindex idx s) k
  = match idx !! k with Some (Some i) => iloc s i | _ => NA end.
Proof.
  unfold iloc at 1, reindex. rewrite list_lookup_fmap.
  by destruct (idx !! k) as [[i|]|].
Qed.

Lemma reindex_series (idx : list nat) (s : Series) :
  reindex (Some <$> idx) s = (fun i => iloc s i) <$> idx.
Proof. unfold reindex. by rewrite <- list_fmap_compose. Qed.

(** Taking rows of taken rows. *)
Lemma reindex_reindex (a b : list nat) (s : Series) :
  Forall (fun k => (k < length b)%nat) a ->
  reindex (Some <$> a) (reindex (Some <$> b) s)
  = reindex (Some <$> ((fun k => default O (b !! k)) <$> a)) s.
Proof.
  intros Ha. rewrite !reindex_series, <- list_fmap_compose.
  apply Forall_fmap_ext_1. eapply Forall_impl; [exact Ha|].
  intros k Hk. simpl. rewrite <- reindex_series, iloc_reindex.
  rewrite list_lookup_fmap.
  destruct (lookup_lt_is_Some_2 b k Hk) as [i ->]. done.
Qed.

Lemma reindex_seq (s : Series) :
  reindex (Some <$> seq 0 (length s)) s = s.
Proof.
  rewrite reindex_series. apply list_eq. intros k.
  rewrite list_lookup_fmap. unfold iloc.
  destruct (s !! k) as [c|] eqn:E.
  - rewrite (lookup_seq_lt _ _ _ (lookup_lt_Some _ _ _ E)). simpl. by rewrite E.
  - rewrite lookup_seq_ge; [done|]. by apply lookup_ge_None.
Qed.

Lemma well_formed_take_rows (idx : list nat) (df : DataFrame) :
  well_formed (take_rows idx df).
Proof.
  unfold well_formed, take_rows. simpl. apply Forall_fmap, Forall_true.
  intros [c s]. simpl. by rewrite length_reindex, length_fmap.
Qed.

Lemma well_formed_drop_columns (df df' : DataFrame) (cs : list string) :
  drop_columns df cs = Ok df' -> well_formed df -> well_formed df'.
Proof.
  intros [_ ->]%drop_columns_ok. unfold well_formed. simpl.
  rewrite !Forall_forall. intros H x [_ Hx]%list_elem_of_filter. auto.
Qed.

Lemma well_formed_getitem (df : DataFrame) (c : string) (e : exn) (s : Series) :
  well_formed df -> getitem df c e = Ok s -> length s = nrows df.
Proof.
  intros Hwf [c' H]%getitem_ok.
  assert (Hin : (c', s) ∈ named c df) by (rewrite H; left).
  apply elem_of_named in Hin as [Hin _].
  unfold well_formed in Hwf. rewrite Forall_forall in Hwf.
  apply (Hwf _ Hin).
Qed.

(** *** The row pairs of a left join *)

Lemma cell_eqb_refl (a : cell) : cell_eqb a a = true.
Proof.
  destruct a; simpl; auto using String.eqb_refl, Z.eqb_refl.
  apply Qeq_bool_iff. reflexivity.
Qed.

Lemma cell_eqb_sym (a b : cell) : cell_eqb a b = cell_eqb b a.
Proof.
  destruct a, b; simpl; auto using String.eqb_sym, Z.eqb_sym.
  apply Bool.eq_iff_eq_true. rewrite !Qeq_bool_iff. split; intros H; by symmetry.
Qed.

Lemma cell_eqb_trans (a b c : cell) :
  cell_eqb a b = true -> cell_eqb b c = true -> cell_eqb a c = true.
Proof.
  destruct a, b, c; simpl; try discriminate; auto.
  - rewrite !String.eqb_eq. congruence.
  - rewrite !Qeq_bool_iff. intros H1 H2. by rewrite H1.
  - rewrite !Z.eqb_eq. congruence.
Qed.

Lemma imap_pair (s : Series) :
  imap pair s = (fun i => (i, iloc s i)) <$> seq 0 (length s).
Proof.
  apply list_eq. intros k. rewrite list_lookup_imap, list_lookup_fmap.
  unfold iloc. destruct (s !! k) as [c|] eqn:E; simpl.
  - rewrite (lookup_seq_lt _ _ _ (lookup_lt_Some _ _ _ E)). simpl. by rewrite E.
  - rewrite lookup_seq_ge; [done|]. by apply lookup_ge_None.
Qed.

Lemma filter_fmap_index {A} (P : A -> Prop) `{!forall x, Decision (P x)}
    (f : nat -> A) (l : list nat) :
  filter P (f <$> l) = f <$> filter (fun i => P (f i)) l.
Proof.
  induction l as [|i l IH]; [done|].
  rewrite fmap_cons, !filter_cons. destruct (decide (P (f i))); by rewrite IH.
Qed.

Lemma match_rows_pairs_of (lkey rkey : Series) :
  match_rows lkey rkey
  = flat_map (fun i => pairs_of rkey i (iloc lkey i)) (seq 0 (length lkey)).
Proof.
  unfold match_rows. rewrite (imap_pair lkey), flat_map_concat_map.
  rewrite flat_map_concat_map, <- list_fmap_compose. f_equal.
  apply list_fmap_ext. intros _ i _. simpl. unfold pairs_of, matches.
  rewrite (imap_pair rkey).
  rewrite (filter_fmap_index
             (fun jk : nat * cell => cell_eqb jk.2 (iloc lkey i) = true)).
  simpl. destruct (filter _ (seq 0 (length rkey))) as [|j ms]; [done|].
  rewrite fmap_cons. simpl. f_equal.
  change (list_fmap ?A ?B ?f ?l) with (f <$> l).
  by rewrite <- list_fmap_compose.
Qed.

Lemma elem_of_matches (rkey : Series) (k : cell) (j : nat) :
  j ∈ matches rkey k <-> (j < length rkey)%nat /\ cell_eqb (iloc rkey j) k = true.
Proof.
  unfold matches. rewrite list_elem_of_filter, elem_of_seq.
  split; (intros [? ?]; split; [first [done|lia]|first [done|lia]]).
Qed.

Lemma elem_of_flat_map {A C} (f : A -> list C) (l : list A) (y : C) :
  y ∈ flat_map f l <-> exists x, x ∈ l /\ y ∈ f x.
Proof.
  rewrite list_elem_of_In, in_flat_map. split.
  - intros (x & Hx & Hy). exists x. by rewrite !list_elem_of_In.
  - intros (x & Hx & Hy). exists x. by rewrite <- !list_elem_of_In.
Qed.

(** A pair of the join is a left row with a right row of the same key, or
    with none when no right row has its key. *)
Lemma elem_of_match_rows (lkey rkey : Series) (i : nat) (o : option nat) :
  (i, o) ∈ match_rows lkey rkey <->
  (i < length lkey)%nat /\
  match o with
  | Some j => (j < length rkey)%nat /\ cell_eqb (iloc rkey j) (iloc lkey i) = true
  | None => forall j, (j < length rkey)%nat ->
                      cell_eqb (iloc rkey j) (iloc lkey i) = false
  end.
Proof.
  rewrite match_rows_pairs_of, elem_of_flat_map. split.
  - intros (i' & Hi' & Hin). apply elem_of_seq in Hi'. unfold pairs_of in Hin.
    destruct (matches rkey (iloc lkey i')) as [|j ms] eqn:E.
    + apply list_elem_of_singleton in Hin as [= -> ->]. split; [lia|].
      intros j Hj. destruct (cell_eqb _ _) eqn:Heq; [|done].
      assert (Hm : j ∈ matches rkey (iloc lkey i')) by (by apply elem_of_matches).
      rewrite E in Hm. by apply elem_of_nil in Hm.
    + apply list_elem_of_fmap in Hin as (j' & [= -> ->] & Hj').
      rewrite <- E in Hj'. apply elem_of_matches in Hj'. split; [lia|done].
  - intros [Hi Ho]. exists i. split; [apply elem_of_seq; lia|].
    unfold pairs_of. destruct o as [j|].
    + assert (Hm : j ∈ matches rkey (iloc lkey i)) by (by apply elem_of_matches).
      destruct (matches rkey (iloc lkey i)) as [|j0 ms] eqn:E;
        [by apply elem_of_nil in Hm|].
      apply list_elem_of_fmap. eauto.
    + destruct (matches rkey (iloc lkey i)) as [|j0 ms] eqn:E; [left|].
      assert (Hm : j0 ∈ matches rkey (iloc lkey i)) by (rewrite E; left).
      apply elem_of_matches in Hm as [Hj Heq]. by rewrite Ho in Heq.
Qed.

(** Every left row is there, in order, once for each right row of its key
    and once when there is none. *)
Lemma fst_pairs_some (i : nat) (ms : list nat) :
  ((fun j => (i, Some j)) <$> ms).*1 = replicate (length ms) i.
Proof.
  induction ms as [|j ms IH]; [done|].
  rewrite !fmap_cons. simpl. f_equal. exact IH.
Qed.

Lemma match_rows_left (lkey rkey : Series) :
  (match_rows lkey rkey).*1
  = flat_map
      (fun i => replicate (Nat.max 1 (length (matches rkey (iloc lkey i)))) i)
      (seq 0 (length lkey)).
Proof.
  rewrite match_rows_pairs_of.
  induction (seq 0 (length lkey)) as [|i l IH]; [done|].
  simpl. rewrite fmap_app, IH. f_equal. unfold pairs_of.
  destruct (matches rkey (iloc lkey i)) as [|j ms]; [done|].
  by rewrite fst_pairs_some.
Qed.

Lemma flat_map_singletons (l : list nat) (m : nat -> nat) :
  (forall i, i ∈ l -> m i = 1%nat) ->
  flat_map (fun i => replicate (m i) i) l = l.
Proof.
  induction l as [|i l IH]; intros H; [done|]. simpl.
  rewrite (H i) by left. simpl. f_equal. apply IH. intros j Hj. apply H. by right.
Qed.

Lemma length_filter_le_1 {A} (P : A -> Prop) `{!forall x, Decision (P x)}
    (l : list A) :
  NoDup l -> (forall x y, x ∈ l -> y ∈ l -> P x -> P y -> x = y) ->
  (length (filter P l) <= 1)%nat.
Proof.
  induction l as [|x l IH]; intros Hnd Huniq; [simpl; lia|].
  apply NoDup_cons in Hnd as [Hx Hnd]. rewrite filter_cons.
  destruct (decide (P x)) as [HP|HP].
  - assert (Hnone : filter P l = []).
    { destruct (filter P l) as [|y l'] eqn:E; [done|].
      assert (Hy : y ∈ filter P l) by (rewrite E; left).
      apply list_elem_of_filter in Hy as [HPy Hy].
      destruct Hx. rewrite (Huniq x y); [done|left|by right|done|done]. }
    rewrite Hnone. simpl. lia.
  - apply IH; [done|]. intros y z Hy Hz. apply Huniq; by right.
Qed.

Lemma matches_unique (rkey : Series) (k : cell) :
  distinct_keys rkey -> (length (matches rkey k) <= 1)%nat.
Proof.
  intros Hu. unfold matches. apply length_filter_le_1; [apply NoDup_seq|].
  intros j1 j2 Hj1%elem_of_seq Hj2%elem_of_seq H1 H2.
  apply Hu; [lia|lia|].
  eapply cell_eqb_trans; [exact H1|]. by rewrite cell_eqb_sym.
Qed.

(** With keys that occur once on the right, a left join has the rows of
    the left table. *)
Lemma match_rows_unique (lkey rkey : Series) :
  distinct_keys rkey -> (match_rows lkey rkey).*1 = seq 0 (length lkey).
Proof.
  intros Hu. rewrite match_rows_left. apply flat_map_singletons.
  intros i _. pose proof (matches_unique rkey (iloc lkey i) Hu). lia.
Qed.

Lemma match_rows_lt (lkey rkey : Series) :
  Forall (fun i => (i < length lkey)%nat) (match_rows lkey rkey).*1.
Proof.
  apply Forall_forall. intros i ([i' o] & -> & Hin)%list_elem_of_fmap.
  by apply elem_of_match_rows in Hin as [? _].
Qed.

Lemma filter_none {A} (P : A -> Prop) `{!forall x, Decision (P x)} (l : list A) :
  (forall x, x ∈ l -> ~ P x) -> filter P l = [].
Proof.
  induction l as [|x l IH]; intros Hn; [done|].
  rewrite filter_cons, decide_False by (apply Hn; left).
  apply IH. intros y Hy. apply Hn. by right.
Qed.

Lemma suffix_plain (ov : list string) (sfx c c' : string) :
  sfx = "_x" \/ sfx = "_y" -> plain c -> c ∉ ov ->
  suffix ov sfx c' = c <-> c' = c.
Proof.
  intros Hsfx Hplain Hov. unfold suffix. case_bool_decide as Hc'.
  - split.
    + intros H. destruct Hsfx as [-> | ->];
        [by apply suffix_x_not_plain in H|by apply suffix_y_not_plain in H].
    + intros ->. done.
  - done.
Qed.

(** A column of the left table whose label is plain and is no label of the
    right table goes through a merge under its label, with the rows of the
    pairs. *)
Lemma named_merged_left (left right : DataFrame) (ov : list string)
    (pairs : list (nat * option nat)) (n : nat) (c : string) :
  plain c -> c ∉ ov -> c ∉ columns right ->
  named c {| nrows := n; cols := merged_cols ov pairs left right |}
  = (fun nc : string * Series => (c, reindex (Some <$> pairs.*1) nc.2))
      <$> named c left.
Proof.
  intros Hplain Hov Hright. unfold named, merged_cols. simpl.
  rewrite filter_app, !filter_label_fmap.
  rewrite (filter_none _ (cols right)), fmap_nil, app_nil_r.
  - rewrite (filter_ext_in _
               (fun nc : string * Series => String.eqb nc.1 c = true)).
    + apply list_fmap_ext.
      intros _ [c' s] [Hc _]%list_elem_of_lookup_2%list_elem_of_filter.
      simpl in *. apply String.eqb_eq in Hc as ->.
      f_equal. by apply suffix_plain; auto.
    + intros [c' s] _. simpl. rewrite !String.eqb_eq.
      apply suffix_plain; auto.
  - intros [c' s] Hin. simpl. rewrite String.eqb_eq.
    rewrite suffix_plain by auto. intros ->.
    apply Hright, elem_of_columns. eauto.
Qed.

Lemma well_formed_merged (left right : DataFrame) (ov : list string)
    (pairs : list (nat * option nat)) :
  well_formed {| nrows := length pairs; cols := merged_cols ov pairs left right |}.
Proof.
  unfold well_formed, merged_cols. simpl. apply Forall_app. split;
    apply Forall_fmap, Forall_true; intros [c s]; simpl;
    by rewrite length_reindex, ?length_fmap.
Qed.

Lemma columns_merged (left right : DataFrame) (ov : list string)
    (pairs : list (nat * option nat)) (n : nat) :
  columns {| nrows := n; cols := merged_cols ov pairs left right |}
  = (suffix ov "_x" <$> columns left) ++ (suffix ov "_y" <$> columns right).
Proof.
  unfold columns, merged_cols. simpl.
  rewrite fmap_app, <- !list_fmap_compose. done.
Qed.

(** After a merge with a table that has an [id] column, a column labelled
    [id] is that one: the left table had none. *)
Lemma merged_id (left right : DataFrame) (pairs : list (nat * option nat))
    (n : nat) :
  let ov := filter (fun c => c ∈ columns right) (columns left) in
  "id" ∈ columns right ->
  "id" ∈ columns {| nrows := n; cols := merged_cols ov pairs left right |} ->
  "id" ∉ columns left.
Proof.
  intros ov Hright Hin Hleft.
  assert (Hov : "id" ∈ ov) by (by apply elem_of_overlap).
  assert (Hplain : plain "id") by (split; discriminate).
  rewrite columns_merged, elem_of_app, !list_elem_of_fmap in Hin.
  destruct Hin as [(c & Hc & _)|(c & Hc & _)]; symmetry in Hc;
    unfold suffix in Hc; case_bool_decide as Hcov.
  - by apply suffix_x_not_plain in Hc.
  - by subst c.
  - by apply suffix_y_not_plain in Hc.
  - by subst c.
Qed.

Section Trace.
Context `{C : Conversions}.
Import eda.

Lemma clean_ok joined_df param_df stat_df out :
  clean_and_transform_data joined_df param_df stat_df = Ok out ->
  cleaning joined_df param_df stat_df out.
Proof.
  unfold clean_and_transform_data. intros H.
  apply bind_ok_inv in H as (time & Htime & H).
  apply bind_ok_inv in H as (lm & Hlm & H).
  apply bind_ok_inv in H as (value & Hvalue & H).
  apply bind_ok_inv in H as (df1 & Hdf1 & H).
  apply bind_ok_inv in H as (df2 & Hdf2 & H).
  apply bind_ok_inv in H as (psel & Hpsel & H).
  apply bind_ok_inv in H as (df3 & Hdf3 & H).
  apply bind_ok_inv in H as (df4 & Hdf4 & H).
  apply bind_ok_inv in H as (ssel & Hssel & H).
  apply bind_ok_inv in H as (df5 & Hdf5 & H).
  apply bind_ok_inv in H as (df6 & Hdf6 & H).
  assert (Htime_in : "time" ∈ columns joined_df)
    by (by eapply getitem_ok_columns).
  rewrite getitem_setitem_ne in Hlm by done.
  assert (Hlm_in : "last_modified" ∈ columns joined_df)
    by (by eapply getitem_ok_columns).
  rewrite !getitem_setitem_ne in Hvalue
    by (rewrite ?columns_setitem; done).
  by econstructor.
Qed.
End Trace.

Section Idempotence.
Context `{C : Conversions}.
Import eda.

Lemma columns_typed joined_df time last_modified value e1 e2 e3 :
  getitem joined_df "time" e1 = Ok time ->
  getitem joined_df "last_modified" e2 = Ok last_modified ->
  getitem joined_df "value" e3 = Ok value ->
  columns (typed joined_df time last_modified value) = columns joined_df.
Proof.
  intros H1%getitem_ok_columns H2%getitem_ok_columns H3%getitem_ok_columns.
  unfold typed.
  rewrite (columns_setitem _ "value"); rewrite (columns_setitem _ "last_modified");
    rewrite ?(columns_setitem _ "time"); done.
Qed.

Lemma columns_dropna df df' c :
  dropna df c = Ok df' -> columns df' = columns df.
Proof. intros (s & _ & ->)%dropna_ok. apply columns_take_rows. Qed.

Lemma trimmed_columns (df df' : DataFrame) (c : string) :
  (if has_column "qualifier" df then drop_columns df ["qualifier"] else Ok df)
  = Ok df' ->
  c <> "qualifier" -> c ∈ columns df' <-> c ∈ columns df.
Proof.
  destruct (has_column "qualifier" df).
  - intros H Hc. rewrite (elem_of_columns_drop _ _ _ _ H).
    rewrite list_elem_of_singleton. tauto.
  - by intros [= ->].
Qed.

(** A table that already has an [id] column cannot be cleaned: the lookup's
    own [id] comes out of the join as [id_y], and dropping [id] fails. *)
Lemma clean_rejects_id (df param_df stat_df : DataFrame) :
  "id" ∈ columns df ->
  exists e, clean_and_transform_data df param_df stat_df = Raise e.
Proof.
  intros Hid.
  destruct (clean_and_transform_data df param_df stat_df) as [out|e] eqn:Hrun;
    [exfalso|by eauto].
  apply clean_ok in Hrun as [].
  apply merge_left_ok in Hwith_param as (lkey & rkey & _ & _ & ->).
  apply drop_columns_ok in Hparam_dropped as [Hdrop _].
  apply (merged_id trimmed (drop_duplicates param_small) _ _) in Hdrop.
  - apply Hdrop. rewrite (trimmed_columns _ _ _ Hqualifier) by done.
    rewrite (columns_dropna _ _ _ Hdropna).
    by rewrite (columns_typed _ _ _ _ _ _ _ Htime Hlast_modified Hvalue).
  - rewrite columns_drop_duplicates.
    apply (elem_of_columns_getitem_list _ _ _ _ Hparam_small). left.
  - left.
Qed.

Lemma clean_out_has_id joined_df param_df stat_df out :
  clean_and_transform_data joined_df param_df stat_df = Ok out ->
  "id" ∈ columns out.
Proof.
  intros [] %clean_ok.
  apply (elem_of_columns_getitem_list _ _ _ _ Hselect). left.
Qed.

(** C5, as the code has it: the Cleaner cannot be run on its own output. *)
Theorem cleaner_rejects_its_output joined_df param_df stat_df out :
  clean_and_transform_data joined_df param_df stat_df = Ok out ->
  forall param_df' stat_df',
    exists e, clean_and_transform_data out param_df' stat_df' = Raise e.
Proof.
  intros Hrun p s. apply clean_rejects_id. by eapply clean_out_has_id.
Qed.
End Idempotence.

Lemma named_merged_left_gen (left right : DataFrame) (ov : list string)
    (pairs : list (nat * option nat)) (n : nat) (c : string) :
  (forall c', c' ∈ columns left -> suffix ov "_x" c' = c <-> c' = c) ->
  (forall c', c' ∈ columns right -> suffix ov "_y" c' <> c) ->
  named c {| nrows := n; cols := merged_cols ov pairs left right |}
  = (fun nc : string * Series => (c, reindex (Some <$> pairs.*1) nc.2))
      <$> named c left.
Proof.
  intros Hleft Hright. unfold named, merged_cols. simpl.
  rewrite filter_app, !filter_label_fmap.
  rewrite (filter_none _ (cols right)), fmap_nil, app_nil_r.
  - rewrite (filter_ext_in _
               (fun nc : string * Series => String.eqb nc.1 c = true)).
    + apply list_fmap_ext.
      intros _ [c' s] [Hc Hin]%list_elem_of_lookup_2%list_elem_of_filter.
      simpl in *. apply String.eqb_eq in Hc as ->.
      f_equal. apply Hleft; [|done]. apply elem_of_columns. eauto.
    + intros [c' s] Hin. simpl. rewrite !String.eqb_eq.
      apply Hleft, elem_of_columns. eauto.
  - intros [c' s] Hin. simpl. rewrite String.eqb_eq.
    apply Hright, elem_of_columns. eauto.
Qed.

Lemma passes_left (left : DataFrame) (ov : list string) (c c' : string) :
  passes c -> c ∉ ov -> "id" ∉ columns left -> c' ∈ columns left ->
  suffix ov "_x" c' = c <-> c' = c.
Proof.
  intros [Hplain| ->] Hov Hid Hc'.
  - by apply suffix_plain; auto.
  - unfold suffix. case_bool_decide as Hin; [|done]. split.
    + intros H. apply (string_app_inv_tail c' "id" "_x") in H. by subst.
    + by intros ->.
Qed.

Lemma passes_right (ov : list string) (c c' : string) :
  passes c -> c' <> c -> suffix ov "_y" c' <> c.
Proof.
  intros Hc Hne. unfold suffix. case_bool_decide as Hin; [|done].
  destruct Hc as [Hplain| ->]; [by apply suffix_y_not_plain|].
  intros Heq. apply (f_equal last_char) in Heq.
  by rewrite last_char_app in Heq.
Qed.

(** One lookup join of the Cleaner: the lookup reduced to its [id] and one
    description column and de-duplicated, merged on, and its [id] dropped. *)
Lemma lookup_join (left lookup small merged dropped : DataFrame)
    (label left_on : string) :
  getitem_list lookup ["id"; label] = Ok small ->
  merge_left left (drop_duplicates small) left_on "id" = Ok merged ->
  drop_columns merged ["id"] = Ok dropped ->
  exists lkey rkey,
    getitem left left_on ValueError = Ok lkey
    /\ getitem (drop_duplicates small) "id" ValueError = Ok rkey
    /\ nrows dropped = length (match_rows lkey rkey)
    /\ well_formed dropped
    /\ ("id" ∉ columns left)
    /\ ("id" ∉ columns dropped)
    /\ forall c, passes c -> c <> "id" -> c <> label ->
         named c dropped
         = (fun nc : string * Series =>
              (c, reindex (Some <$> (match_rows lkey rkey).*1) nc.2))
             <$> named c left.
Proof.
  intros Hsmall Hmerge Hdrop.
  apply merge_left_ok in Hmerge as (lkey & rkey & Hlkey & Hrkey & ->).
  exists lkey, rkey.
  assert (Hlabels : forall c, c ∈ columns (drop_duplicates small)
                              <-> c = "id" \/ c = label).
  { intros c. rewrite columns_drop_duplicates.
    rewrite (elem_of_columns_getitem_list _ _ _ _ Hsmall).
    rewrite elem_of_cons, list_elem_of_singleton. done. }
  pose proof (drop_columns_ok _ _ _ Hdrop) as [Hid Hdropped].
  assert (Hleft_id : "id" ∉ columns left).
  { eapply merged_id; [|apply Hid; left]. apply Hlabels. by left. }
  split; [done|]. split; [done|]. split; [by subst dropped|].
  split; [eapply well_formed_drop_columns; [done|apply well_formed_merged]|].
  split; [done|].
  split.
  { rewrite (elem_of_columns_drop _ _ _ _ Hdrop), list_elem_of_singleton. tauto. }
  intros c Hpass Hc_id Hc_label.
  rewrite (named_drop_columns _ _ _ _ Hdrop)
    by (by rewrite list_elem_of_singleton).
  assert (Hright : c ∉ columns (drop_duplicates small)).
  { rewrite Hlabels. tauto. }
  apply named_merged_left_gen.
  - intros c' Hc'. apply (passes_left left); auto.
    rewrite elem_of_overlap. tauto.
  - intros c' Hc'. apply passes_right; [done|]. by intros ->.
Qed.

Lemma length_rows_of (a b : list nat) : length (rows_of a b) = length a.
Proof. apply length_fmap. Qed.

Lemma reindex_rows_of (a b : list nat) (s : Series) :
  Forall (fun k => (k < length b)%nat) a ->
  reindex (Some <$> a) (reindex (Some <$> b) s)
  = reindex (Some <$> rows_of a b) s.
Proof. apply reindex_reindex. Qed.

Lemma rows_of_seq (b : list nat) : rows_of (seq 0 (length b)) b = b.
Proof.
  unfold rows_of. apply list_eq. intros k. rewrite list_lookup_fmap.
  destruct (b !! k) as [x|] eqn:E.
  - rewrite (lookup_seq_lt _ _ _ (lookup_lt_Some _ _ _ E)). simpl. by rewrite E.
  - rewrite lookup_seq_ge; [done|]. by apply lookup_ge_None.
Qed.

Lemma elem_of_rows_of (a b : list nat) (x : nat) :
  Forall (fun k => (k < length b)%nat) a ->
  (forall k, (k < length b)%nat -> k ∈ a) ->
  x ∈ rows_of a b <-> x ∈ b.
Proof.
  intros Hlt Hcover. unfold rows_of. rewrite list_elem_of_fmap. split.
  - intros (k & -> & Hk). rewrite Forall_forall in Hlt.
    destruct (lookup_lt_is_Some_2 b k (Hlt k Hk)) as [y Hy].
    rewrite Hy. simpl. by eapply list_elem_of_lookup_2.
  - intros [k Hk]%list_elem_of_lookup. exists k. rewrite Hk. split; [done|].
    apply Hcover. by eapply lookup_lt_Some.
Qed.

Lemma match_rows_covers (lkey rkey : Series) (i : nat) :
  (i < length lkey)%nat -> i ∈ (match_rows lkey rkey).*1.
Proof.
  intros Hi. rewrite match_rows_left, elem_of_flat_map. exists i.
  split; [apply elem_of_seq; lia|].
  destruct (Nat.max 1 _) as [|n] eqn:E; [lia|]. left.
Qed.

Lemma nrows_setitem (df : DataFrame) (c : string) (s : Series) :
  nrows (setitem df c s) = nrows df.
Proof. unfold setitem. by destruct (has_column c df). Qed.

(** A table whose columns are those of [df], relabelled by [g] and mapped
    by [f]: the columns labelled [c'] are those that [df] labels [c]. *)
Lemma named_relabel (df : DataFrame) (n : nat) (g : string -> string)
    (f : Series -> Series) (c c' : string) :
  (forall c0, c0 ∈ columns df -> g c0 = c' <-> c0 = c) ->
  named c' {| nrows := n;
              cols := (fun nc : string * Series => (g nc.1, f nc.2)) <$> cols df |}
  = (fun nc : string * Series => (c', f nc.2)) <$> named c df.
Proof.
  intros Hg. unfold named. simpl. rewrite filter_label_fmap.
  rewrite (filter_ext_in _ (fun nc : string * Series => String.eqb nc.1 c = true)).
  - apply list_fmap_ext.
    intros _ [c0 s] [Hc Hin]%list_elem_of_lookup_2%list_elem_of_filter.
    simpl in *. apply String.eqb_eq in Hc as ->. f_equal.
    apply Hg; [|done]. apply elem_of_columns. eauto.
  - intros [c0 s] Hin. simpl. rewrite !String.eqb_eq. apply Hg.
    apply elem_of_columns. eauto.
Qed.

Lemma elem_of_columns_setitem (df : DataFrame) (c c' : string) (s : Series) :
  c' ∈ columns df -> c' ∈ columns (setitem df c s).
Proof.
  intros H. destruct (decide (c ∈ columns df)) as [Hc|Hc].
  - by rewrite columns_setitem.
  - unfold setitem. apply has_column_false in Hc. rewrite Hc.
    unfold columns. simpl. rewrite fmap_app. apply elem_of_app. by left.
Qed.

Lemma rename_label_single (k v c : string) :
  rename_label [(k, v)] c = if String.eqb k c then v else c.
Proof.
  unfold rename_label. cbn [find fst snd].
  by destruct (String.eqb k c).
Qed.

Section Rows.
Context `{C : Conversions}.
Import eda.

Lemma nrows_typed joined_df time last_modified value :
  nrows (typed joined_df time last_modified value) = nrows joined_df.
Proof. unfold typed. by rewrite !nrows_setitem. Qed.

Lemma named_typed joined_df time last_modified value (c : string) :
  "time" ∈ columns joined_df -> "last_modified" ∈ columns joined_df ->
  "value" ∈ columns joined_df ->
  c <> "time" -> c <> "last_modified" -> c <> "value" ->
  named c (typed joined_df time last_modified value) = named c joined_df.
Proof.
  intros Ht Hl Hv ? ? ?. unfold typed.
  rewrite !named_setitem_ne by auto using elem_of_columns_setitem.
  done.
Qed.

Lemma getitem_typed_value joined_df time last_modified value e e' :
  "time" ∈ columns joined_df -> "last_modified" ∈ columns joined_df ->
  getitem joined_df "value" e' = Ok value ->
  getitem (typed joined_df time last_modified value) "value" e
  = Ok (to_numeric <$> value).
Proof.
  intros Ht Hl H. unfold typed. eapply getitem_setitem_eq.
  rewrite !getitem_setitem_ne by auto using elem_of_columns_setitem.
  exact H.
Qed.

Lemma getitem_typed_time joined_df time last_modified value e e' e'' e3 :
  getitem joined_df "time" e' = Ok time ->
  getitem joined_df "last_modified" e'' = Ok last_modified ->
  getitem joined_df "value" e3 = Ok value ->
  getitem (typed joined_df time last_modified value) "time" e
  = Ok (to_datetime ((fun c => str_strip (astype_str c)) <$> time)).
Proof.
  intros Ht Hl Hv. unfold typed.
  pose proof (getitem_ok_columns _ _ _ _ Ht).
  pose proof (getitem_ok_columns _ _ _ _ Hl).
  pose proof (getitem_ok_columns _ _ _ _ Hv).
  rewrite !getitem_setitem_ne by auto using elem_of_columns_setitem.
  by eapply getitem_setitem_eq.
Qed.

Lemma survivors_typed (value : Series) (n : nat) :
  filter (fun i => isna (iloc (to_numeric <$> value) i) = false) (seq 0 n)
  = survivors value n.
Proof.
  unfold survivors. apply filter_ext_in. intros i _.
  by rewrite iloc_fmap.
Qed.

Lemma trimmed_named (df df' : DataFrame) (c : string) :
  (if has_column "qualifier" df then drop_columns df ["qualifier"] else Ok df)
  = Ok df' ->
  c <> "qualifier" -> named c df' = named c df.
Proof.
  destruct (has_column "qualifier" df).
  - intros H Hc. apply (named_drop_columns _ _ _ _ H).
    by rewrite list_elem_of_singleton.
  - by intros [= ->].
Qed.

Lemma trimmed_rows (df df' : DataFrame) :
  (if has_column "qualifier" df then drop_columns df ["qualifier"] else Ok df)
  = Ok df' ->
  nrows df' = nrows df /\ (well_formed df -> well_formed df').
Proof.
  destruct (has_column "qualifier" df).
  - intros H. split; [|by apply (well_formed_drop_columns _ _ _ H)].
    by apply drop_columns_ok in H as [_ ->].
  - by intros [= ->].
Qed.

(** What a completed run of the Cleaner keeps: the rows [idx] of the input,
    which are its rows with a numeric value, each at least once and in the
    input order of the lookup joins; the columns that come from the joined
    table hold the converted cells of those rows. *)
Lemma cleaning_rows joined_df param_df stat_df out :
  cleaning joined_df param_df stat_df out ->
  exists (time last_modified value : Series) (idx : list nat),
    getitem joined_df "time" AttributeError = Ok time
    /\ getitem joined_df "last_modified" ValueError = Ok last_modified
    /\ getitem joined_df "value" TypeError = Ok value
    /\ nrows out = length idx
    /\ (forall i, i ∈ idx <-> i ∈ survivors value (nrows joined_df))
    /\ (forall c, final_plain c ->
          named c out
          = (fun nc : string * Series => (c, reindex (Some <$> idx) nc.2))
              <$> named c (typed joined_df time last_modified value))
    /\ named "id" out
       = (fun nc : string * Series => ("id", reindex (Some <$> idx) nc.2))
           <$> named "id_x" joined_df
    /\ ("id" ∉ columns joined_df)
    /\ (forall psmall ssmall prkey srkey,
          getitem_list param_df ["id"; "parameter_name"] = Ok psmall ->
          getitem_list stat_df ["id"; "statistic_description"] = Ok ssmall ->
          getitem (drop_duplicates psmall) "id" ValueError = Ok prkey ->
          getitem (drop_duplicates ssmall) "id" ValueError = Ok srkey ->
          distinct_keys prkey -> distinct_keys srkey ->
          idx = survivors value (nrows joined_df)).
Proof.
  intros [].
  pose proof (getitem_ok_columns _ _ _ _ Htime) as Htime_in.
  pose proof (getitem_ok_columns _ _ _ _ Hlast_modified) as Hlm_in.
  pose proof (getitem_ok_columns _ _ _ _ Hvalue) as Hvalue_in.
  (* the row filter *)
  apply dropna_ok in Hdropna as (s & Hs & Hfiltered).
  rewrite (getitem_typed_value _ _ _ _ _ _ Htime_in Hlm_in Hvalue) in Hs.
  injection Hs as <-.
  rewrite nrows_typed, survivors_typed in Hfiltered.
  set (tdf := typed joined_df time last_modified value) in *.
  set (idx1 := survivors value (nrows joined_df)) in *.
  subst filtered.
  pose proof (well_formed_take_rows idx1 tdf) as Hwf1.
  destruct (trimmed_rows _ _ Hqualifier) as [Hn2 Hwf2]. specialize (Hwf2 Hwf1).
  (* the two lookup joins *)
  destruct (lookup_join _ _ _ _ _ _ _ Hparam_small Hwith_param Hparam_dropped)
    as (lkey1 & rkey1 & Hlkey1 & Hrkey1 & Hn3 & Hwf3 & Hid2 & Hid3 & Hcols3).
  destruct (lookup_join _ _ _ _ _ _ _ Hstat_small Hwith_stat Hstat_dropped)
    as (lkey2 & rkey2 & Hlkey2 & Hrkey2 & Hn4 & Hwf4 & _ & Hid4 & Hcols4).
  set (p1 := (match_rows lkey1 rkey1).*1) in *.
  set (p2 := (match_rows lkey2 rkey2).*1) in *.
  assert (Hlen1 : length lkey1 = length idx1).
  { rewrite (well_formed_getitem _ _ _ _ Hwf2 Hlkey1), Hn2. done. }
  assert (Hlen2 : length lkey2 = length p1).
  { rewrite (well_formed_getitem _ _ _ _ Hwf3 Hlkey2), Hn3.
    unfold p1. by rewrite length_fmap. }
  assert (Hp1 : Forall (fun k => (k < length idx1)%nat) p1).
  { rewrite <- Hlen1. apply match_rows_lt. }
  assert (Hp2 : Forall (fun k => (k < length (rows_of p1 idx1))%nat) p2).
  { rewrite length_rows_of, <- Hlen2. apply match_rows_lt. }
  set (idx := rows_of p2 (rows_of p1 idx1)).
  assert (Hout : out = {| nrows := nrows stat_dropped;
                          cols := concat ((fun c => named c (rename stat_dropped [("id_x", "id")]))
                                             <$> final_cols) |}).
  { by apply getitem_list_ok in Hselect as [_ ->]. }
  assert (Hnd : NoDup final_cols).
  { apply (bool_decide_unpack (NoDup final_cols)). vm_compute. exact I. }
  assert (Hcompose : forall s0 : Series,
            reindex (Some <$> p2) (reindex (Some <$> p1) (reindex (Some <$> idx1) s0))
            = reindex (Some <$> idx) s0).
  { intros s0. rewrite (reindex_rows_of p1 idx1) by done.
    by rewrite (reindex_rows_of p2 (rows_of p1 idx1)). }
  assert (Hthrough : forall c, passes c -> c <> "id" -> c <> "parameter_name" ->
            c <> "statistic_description" -> c <> "qualifier" ->
            named c stat_dropped
            = (fun nc : string * Series => (c, reindex (Some <$> idx) nc.2))
                <$> named c tdf).
  { intros c Hpass ? ? ? ?.
    rewrite Hcols4, Hcols3 by done.
    rewrite (trimmed_named _ _ _ Hqualifier) by done.
    rewrite named_take_rows, <- !list_fmap_compose.
    apply list_fmap_ext. intros _ [c0 s0] _. simpl. f_equal.
    by apply Hcompose. }
  exists time, last_modified, value, idx.
  split; [done|]. split; [done|]. split; [done|].
  split.
  { rewrite Hout. simpl. rewrite Hn4. unfold idx.
    rewrite length_rows_of. unfold p2. by rewrite length_fmap. }
  split.
  { intros i. unfold idx.
    rewrite elem_of_rows_of; [|done|].
    - rewrite elem_of_rows_of; [done|done|].
      intros k Hk. apply match_rows_covers. lia.
    - intros k Hk. apply match_rows_covers.
      rewrite length_rows_of in Hk. lia. }
  split.
  { intros c (Hfinal & Hplain & ? & ? & ?).
    assert (Hq : c <> "qualifier").
    { intros ->. revert Hfinal. unfold final_cols.
      rewrite !elem_of_cons, elem_of_nil. intros H'.
      repeat (destruct H' as [H'|H']; [discriminate H'|]). done. }
    rewrite (named_getitem_list _ _ _ _ Hselect) by done.
    rewrite named_rename.
    - apply Hthrough; try done. by left.
    - intros c' _. rewrite rename_label_single.
      destruct (String.eqb_spec "id_x" c') as [<-|Hne].
      + split; [by intros <-|]. intros <-. destruct Hplain as [Hx _].
        by destruct Hx.
      + done. }
  split.
  { rewrite (named_getitem_list _ _ _ _ Hselect) by (done || left).
    unfold rename.
    rewrite (named_relabel stat_dropped _ (rename_label [("id_x", "id")]) id
               "id_x" "id").
    - rewrite Hthrough; [|by right|done..].
      rewrite <- list_fmap_compose. unfold tdf.
      rewrite (named_typed _ _ _ _ _ Htime_in Hlm_in Hvalue_in) by done.
      done.
    - intros c' Hc'. rewrite rename_label_single.
      destruct (String.eqb_spec "id_x" c') as [<-|Hne]; [done|].
      split; [|by intros ->]. intros ->. done. }
  split.
  { intros Hid. apply Hid2.
    rewrite (trimmed_columns _ _ _ Hqualifier) by done.
    rewrite columns_take_rows. unfold tdf.
    by rewrite (columns_typed _ _ _ _ _ _ _ Htime Hlast_modified Hvalue). }
  intros psmall ssmall prkey srkey Hps Hss Hpr Hsr Hup Hus.
  rewrite Hparam_small in Hps. injection Hps as <-.
  rewrite Hstat_small in Hss. injection Hss as <-.
  rewrite Hrkey1 in Hpr. injection Hpr as <-.
  rewrite Hrkey2 in Hsr. injection Hsr as <-.
  unfold idx, p1, p2.
  rewrite (match_rows_unique lkey1 rkey1 Hup), Hlen1, rows_of_seq.
  rewrite (match_rows_unique lkey2 rkey2 Hus).
  fold p1. rewrite Hlen2. unfold p1.
  rewrite (match_rows_unique lkey1 rkey1 Hup), Hlen1.
  rewrite length_seq. by rewrite rows_of_seq.
Qed.
End Rows.

Lemma elem_of_kept (df : DataFrame) (i : nat) :
  i ∈ kept df <->
  (i < nrows df)%nat /\
  forall j, (j < i)%nat -> row_eqb (row df j) (row df i) = false.
Proof.
  unfold kept. rewrite list_elem_of_filter, elem_of_seq, forallb_forall.
  split.
  - intros [Hall Hi]. split; [lia|]. intros j Hj.
    apply negb_true_iff, Hall, in_seq. lia.
  - intros [Hi Hall]. split; [|lia]. intros j Hj%in_seq.
    apply negb_true_iff, Hall. lia.
Qed.

Lemma NoDup_kept (df : DataFrame) : NoDup (kept df).
Proof. apply NoDup_filter, NoDup_seq. Qed.

(** After the reduction to code and description and the removal of
    duplicate rows, a lookup in which every code has one description has
    every code once. *)
Lemma dedup_distinct_keys (lookup small : DataFrame) (label : string)
    (codes descriptions rkey : Series) :
  "id" <> label ->
  getitem_list lookup ["id"; label] = Ok small ->
  getitem lookup "id" ValueError = Ok codes ->
  getitem lookup label ValueError = Ok descriptions ->
  one_description_per_code (nrows lookup) codes descriptions ->
  getitem (drop_duplicates small) "id" ValueError = Ok rkey ->
  distinct_keys rkey.
Proof.
  intros Hne Hsmall Hcodes Hdescr Hone Hrkey.
  apply getitem_list_ok in Hsmall as [_ ->].
  apply getitem_ok in Hcodes as [c1 Hc1]. apply getitem_ok in Hdescr as [c2 Hc2].
  set (small := {| nrows := nrows lookup; cols := _ |}) in *.
  assert (Hcols : cols small = [(c1, codes); (c2, descriptions)]).
  { unfold small. cbn [cols]. rewrite !fmap_cons, fmap_nil. cbn [concat].
    rewrite Hc1, Hc2. reflexivity. }
  assert (Hrow : forall i, row small i = [iloc codes i; iloc descriptions i]).
  { intros i. unfold row. by rewrite Hcols. }
  assert (Hid : getitem small "id" ValueError = Ok codes).
  { apply getitem_ok. exists c1. unfold named. rewrite Hcols.
    assert (Hc1' : c1 = "id").
    { assert (Hin : (c1, codes) ∈ named "id" lookup) by (rewrite Hc1; left).
      by apply elem_of_named in Hin as [_ ?]. }
    assert (Hc2' : c2 = label).
    { assert (Hin : (c2, descriptions) ∈ named label lookup) by (rewrite Hc2; left).
      by apply elem_of_named in Hin as [_ ?]. }
    subst c1 c2. rewrite !filter_cons, filter_nil. cbn [fst].
    rewrite decide_True by apply String.eqb_refl.
    rewrite decide_False; [done|]. rewrite String.eqb_eq. congruence. }
  unfold drop_duplicates in Hrkey.
  rewrite getitem_take_rows, Hid in Hrkey. simpl in Hrkey.
  injection Hrkey as <-.
  intros j1 j2 Hj1 Hj2 Heq.
  rewrite length_reindex, length_fmap in Hj1, Hj2.
  rewrite !iloc_reindex, !list_lookup_fmap in Heq.
  destruct (lookup_lt_is_Some_2 _ _ Hj1) as [k1 Hk1].
  destruct (lookup_lt_is_Some_2 _ _ Hj2) as [k2 Hk2].
  rewrite Hk1, Hk2 in Heq. simpl in Heq.
  destruct (decide (k1 = k2)) as [->|Hk].
  { by eapply NoDup_lookup; [apply NoDup_kept|..]. }
  exfalso.
  pose proof (list_elem_of_lookup_2 _ _ _ Hk1) as [Hn1 Hall1]%elem_of_kept.
  pose proof (list_elem_of_lookup_2 _ _ _ Hk2) as [Hn2 Hall2]%elem_of_kept.
  assert (Hrows : forall a b, (a < nrows lookup)%nat -> (b < nrows lookup)%nat ->
            cell_eqb (iloc codes a) (iloc codes b) = true ->
            row_eqb (row small a) (row small b) = true).
  { intros a b Ha Hb Hab. rewrite !Hrow. simpl.
    rewrite Hab, (Hone a b Ha Hb Hab). done. }
  destruct (Nat.lt_total k1 k2) as [Hlt|[?|Hlt]]; [|done|].
  - pose proof (Hall2 k1 Hlt) as Hno. by rewrite Hrows in Hno.
  - rewrite cell_eqb_sym in Heq. pose proof (Hall1 k2 Hlt) as Hno.
    by rewrite Hrows in Hno.
Qed.

Section Cleaner.
Context `{C : Conversions}.
Import eda.

Lemma to_numeric_cases (c : cell) :
  to_numeric c = NA \/ exists q, to_numeric c = Num q.
Proof.
  destruct c as [|s|q|t]; simpl; eauto.
  destruct (parse_float s); eauto.
Qed.

Lemma to_numeric_notna (c : cell) :
  isna (to_numeric c) = false <-> exists q, to_numeric c = Num q.
Proof.
  destruct (to_numeric_cases c) as [-> | [q ->]]; simpl.
  - split; [done|]. by intros [? ?].
  - split; eauto.
Qed.

Lemma elem_of_survivors (value : Series) (n i : nat) :
  i ∈ survivors value n <->
  (i < n)%nat /\ exists q, to_numeric (iloc value i) = Num q.
Proof.
  unfold survivors.
  rewrite list_elem_of_filter, elem_of_seq, to_numeric_notna.
  split; (intros [? ?]; split; [first [done|lia]|first [done|lia]]).
Qed.

Lemma final_plain_value : final_plain "value".
Proof.
  unfold final_plain, plain. split; [|repeat split; discriminate].
  unfold final_cols. do 8 right. left.
Qed.

Lemma final_plain_time : final_plain "time".
Proof.
  unfold final_plain, plain. split; [|repeat split; discriminate].
  unfold final_cols. do 4 right. left.
Qed.

(** C4, as the code has it. After the Cleaner has run, every row has a
    [value] that is a number, and the rows are the input rows whose value
    [to_numeric] could read: a row whose value it could not read is gone, a
    row whose value it could read is there. The [time] of a row is a
    timestamp or null: a row whose time could not be parsed is kept. *)
Theorem cleaner_keeps_rows_with_a_value joined_df param_df stat_df out :
  clean_and_transform_data joined_df param_df stat_df = Ok out ->
  exists (time value : Series) (idx : list nat),
    getitem joined_df "time" AttributeError = Ok time
    /\ getitem joined_df "value" TypeError = Ok value
    /\ nrows out = length idx
    /\ (forall i, i ∈ idx <->
          (i < nrows joined_df)%nat
          /\ exists q, to_numeric (iloc value i) = Num q)
    /\ getitem out "value" TypeError
       = Ok ((fun i => to_numeric (iloc value i)) <$> idx)
    /\ Forall (fun c => exists q, c = Num q)
         ((fun i => to_numeric (iloc value i)) <$> idx)
    /\ (exists times,
          getitem out "time" AttributeError = Ok times
          /\ length times = nrows out
          /\ Forall (fun c => c = NA \/ exists t, c = Time t) times)
    /\ (forall i, (i < nrows joined_df)%nat ->
          iloc value i = Str "not_a_number" ->
          parse_float "not_a_number" = None -> i ∉ idx)
    /\ (forall i, (i < nrows joined_df)%nat ->
          iloc value i = Str "3.5" ->
          parse_float "3.5" = Some (7 # 2)%Q ->
          i ∈ idx /\ to_numeric (iloc value i) = Num (7 # 2)).
Proof.
  intros Hrun.
  destruct (cleaning_rows _ _ _ _ (clean_ok _ _ _ _ Hrun))
    as (time & lm & value & idx & Htime & Hlm & Hvalue & Hn & Hidx & Hcols & _).
  pose proof (getitem_ok_columns _ _ _ _ Htime) as Htime_in.
  pose proof (getitem_ok_columns _ _ _ _ Hlm) as Hlm_in.
  assert (Hidx' : forall i, i ∈ idx <->
            (i < nrows joined_df)%nat
            /\ exists q, to_numeric (iloc value i) = Num q).
  { intros i. by rewrite Hidx, elem_of_survivors. }
  exists time, value, idx.
  split; [done|]. split; [done|]. split; [done|]. split; [done|].
  split.
  { rewrite (getitem_fmap _ _ _ _ _ (Hcols "value" final_plain_value)).
    rewrite (getitem_typed_value _ _ _ _ _ _ Htime_in Hlm_in Hvalue). simpl.
    rewrite reindex_series. f_equal. apply list_fmap_ext.
    intros _ i _. by rewrite iloc_fmap. }
  split.
  { apply Forall_fmap, Forall_forall. intros i Hi. simpl.
    by apply Hidx' in Hi as [_ ?]. }
  split.
  { eexists. split; [|split].
    - rewrite (getitem_fmap _ _ _ _ _ (Hcols "time" final_plain_time)).
      rewrite (getitem_typed_time _ _ _ _ _ _ _ _ Htime Hlm Hvalue). simpl.
      reflexivity.
    - by rewrite length_reindex, length_fmap.
    - rewrite reindex_series. apply Forall_fmap, Forall_forall.
      intros i _. simpl. unfold iloc.
      destruct (_ !! i) as [c|] eqn:E; simpl; [|by left].
      pose proof (to_datetime_cells ((fun c => str_strip (astype_str c)) <$> time))
        as Hcells.
      rewrite Forall_forall in Hcells. apply Hcells.
      by eapply list_elem_of_lookup_2. }
  split.
  { intros i Hi Hval Hparse [_ [q Hq]]%Hidx'.
    rewrite Hval in Hq. simpl in Hq. by rewrite Hparse in Hq. }
  intros i Hi Hval Hparse.
  assert (Hnum : to_numeric (iloc value i) = Num (7 # 2)).
  { rewrite Hval. simpl. by rewrite Hparse. }
  split; [|done]. apply Hidx'. eauto.
Qed.

(** C7, as the code has it. Each lookup table is reduced to its code and
    description columns and rows that repeat are removed. When every code
    of each lookup has one description, the two joins add no row: the
    cleaned table has as many rows as the joined table has rows with a
    numeric value. *)
Theorem lookup_joins_keep_row_count joined_df param_df stat_df out
    (pcodes pnames scodes sdescriptions : Series) :
  clean_and_transform_data joined_df param_df stat_df = Ok out ->
  getitem param_df "id" ValueError = Ok pcodes ->
  getitem param_df "parameter_name" ValueError = Ok pnames ->
  one_description_per_code (nrows param_df) pcodes pnames ->
  getitem stat_df "id" ValueError = Ok scodes ->
  getitem stat_df "statistic_description" ValueError = Ok sdescriptions ->
  one_description_per_code (nrows stat_df) scodes sdescriptions ->
  exists value,
    getitem joined_df "value" TypeError = Ok value
    /\ nrows out = length (survivors value (nrows joined_df)).
Proof.
  intros Hrun Hpc Hpn Hp Hsc Hsd Hs.
  pose proof (clean_ok _ _ _ _ Hrun) as Htrace.
  destruct (cleaning_rows _ _ _ _ Htrace)
    as (time & lm & value & idx & _ & _ & Hvalue & Hn & _ & _ & _ & _ & Huniq).
  exists value. split; [done|]. rewrite Hn. f_equal.
  destruct Htrace.
  apply merge_left_ok in Hwith_param as (lkey1 & rkey1 & _ & Hrkey1 & _).
  apply merge_left_ok in Hwith_stat as (lkey2 & rkey2 & _ & Hrkey2 & _).
  eapply (Huniq param_small stat_small rkey1 rkey2); try done.
  - by eapply (dedup_distinct_keys param_df param_small "parameter_name").
  - by eapply (dedup_distinct_keys stat_df stat_small "statistic_description").
Qed.

End Cleaner.

Lemma merged_cols_data (left right : DataFrame) (ov : list string)
    (pairs : list (nat * option nat)) :
  (merged_cols ov pairs left right).*2
  = (reindex (Some <$> pairs.*1) <$> (cols left).*2)
    ++ (reindex pairs.*2 <$> (cols right).*2).
Proof.
  unfold merged_cols. rewrite fmap_app, <- !list_fmap_compose. done.
Qed.

(** C8, as the code has it. The Joiner is a left join: every daily-values
    row is in the result, in order, once for each location row of its
    identifier and once when there is none, and then every joined location
    column is null in that row. When no two location rows have the same
    identifier the rows of the result are the daily-values rows. *)
Theorem joiner_is_a_left_join (dv_df loc_df out : DataFrame) :
  data_loader.join_daily_values_with_locations dv_df loc_df = Ok out ->
  exists (loc_filtered : DataFrame) (lkey rkey : Series)
         (pairs : list (nat * option nat)),
    getitem_list loc_df data_loader.loc_keep = Ok loc_filtered
    /\ getitem dv_df "monitoring_location_id" ValueError = Ok lkey
    /\ getitem loc_filtered "id" ValueError = Ok rkey
    /\ nrows out = length pairs
    /\ (cols out).*2
       = (reindex (Some <$> pairs.*1) <$> (cols dv_df).*2)
         ++ (reindex pairs.*2 <$> (cols loc_filtered).*2)
    /\ pairs.*1
       = flat_map
           (fun i =>
              replicate (Nat.max 1 (length (matches rkey (iloc lkey i)))) i)
           (seq 0 (length lkey))
    /\ (forall i o, (i, o) ∈ pairs <->
          (i < length lkey)%nat /\
          match o with
          | Some j => (j < length rkey)%nat
                      /\ cell_eqb (iloc rkey j) (iloc lkey i) = true
          | None => forall j, (j < length rkey)%nat ->
                              cell_eqb (iloc rkey j) (iloc lkey i) = false
          end)
    /\ (forall k i, pairs !! k = Some (i, None) ->
          Forall (fun s => iloc s k = NA)
            (reindex pairs.*2 <$> (cols loc_filtered).*2))
    /\ (distinct_keys rkey -> well_formed dv_df ->
          nrows out = nrows dv_df
          /\ reindex (Some <$> pairs.*1) <$> (cols dv_df).*2 = (cols dv_df).*2).
Proof.
  unfold data_loader.join_daily_values_with_locations.
  intros (loc_filtered & Hloc & Hmerge)%bind_ok_inv.
  apply merge_left_ok in Hmerge as (lkey & rkey & Hlkey & Hrkey & ->).
  exists loc_filtered, lkey, rkey, (match_rows lkey rkey).
  split; [done|]. split; [done|]. split; [done|]. split; [done|].
  split; [apply merged_cols_data|].
  split; [apply match_rows_left|].
  split; [apply elem_of_match_rows|].
  split.
  { intros k i Hk. apply Forall_fmap, Forall_true. intros s. simpl.
    rewrite iloc_reindex, list_lookup_fmap, Hk. done. }
  intros Hdistinct Hwf. simpl.
  pose proof (well_formed_getitem _ _ _ _ Hwf Hlkey) as Hlen.
  split.
  { rewrite <- (length_fmap fst), (match_rows_unique _ _ Hdistinct).
    by rewrite length_seq. }
  rewrite (match_rows_unique _ _ Hdistinct).
  rewrite <- (list_fmap_id (cols dv_df).*2) at 2.
  apply Forall_fmap_ext_1, Forall_fmap.
  eapply Forall_impl; [exact Hwf|]. intros [c s] Hs. simpl in *.
  rewrite Hlen, <- Hs. apply reindex_seq.
Qed.

Lemma getitem_relabel (df df' : DataFrame) (f : Series -> Series)
    (c c' : string) (e : exn) (s : Series) :
  named c' df' = (fun nc : string * Series => (c', f nc.2)) <$> named c df ->
  getitem df c e = Ok s -> getitem df' c' e = Ok (f s).
Proof.
  intros H [c0 Hs]%getitem_ok. apply getitem_ok. exists c'.
  by rewrite H, Hs.
Qed.

Lemma loc_keep_plain (c : string) : c ∈ data_loader.loc_keep -> plain c.
Proof.
  unfold data_loader.loc_keep. rewrite !elem_of_cons, elem_of_nil.
  intros H. repeat (destruct H as [->|H]; [split; discriminate|]). done.
Qed.

(** ** The pipeline on three daily values *)

Example join_three_daily_values :
  data_loader.join_daily_values_with_locations demo.dv_df demo.loc_df
  = Ok demo.joined_df.
Proof. vm_compute. reflexivity. Qed.

Example clean_three_daily_values :
  eda.clean_and_transform_data (C := demo.conversions) demo.joined_df
    demo.param_df demo.stat_df
  = Ok demo.cleaned_df.
Proof. vm_compute. reflexivity. Qed.

Lemma cleaner_keeps_rows_with_a_value_witness :
  exists (value : Series) (idx : list nat),
    getitem demo.joined_df "value" TypeError = Ok value
    /\ nrows demo.cleaned_df = length idx
    /\ getitem demo.cleaned_df "value" TypeError
       = Ok ((fun i => to_numeric (C := demo.conversions) (iloc value i))
               <$> idx).
Proof.
  destruct (cleaner_keeps_rows_with_a_value (C := demo.conversions)
              demo.joined_df demo.param_df demo.stat_df demo.cleaned_df)
    as (time & value & idx & _ & Hvalue & Hn & _ & Hout & _).
  - vm_compute. reflexivity.
  - exists value, idx. split; [exact Hvalue|]. split; [exact Hn|exact Hout].
Defined.

(** C4 as stated fails: the third daily value has a time that cannot be
    parsed and a value that can. The Cleaner keeps it, with a null time. *)
Lemma unparseable_time_survives :
  getitem demo.joined_df "time" AttributeError
  = Ok [Str "2024-01-15"; Str "2024-01-16"; Str "garbage"]
  /\ getitem demo.joined_df "value" TypeError
     = Ok [Str "3.5"; Str "not_a_number"; Str "1.0"]
  /\ exists out,
       eda.clean_and_transform_data (C := demo.conversions) demo.joined_df
         demo.param_df demo.stat_df = Ok out
       /\ getitem out "id" ValueError = Ok [Str "dv-1"; Str "dv-3"]
       /\ getitem out "value" TypeError = Ok [Num (7 # 2); Num 1]
       /\ getitem out "time" AttributeError
          = Ok [Time 1705276800000000000; NA].
Proof.
  split; [vm_compute; reflexivity|]. split; [vm_compute; reflexivity|].
  exists demo.cleaned_df. repeat split; vm_compute; reflexivity.
Qed.

Lemma cleaner_rejects_its_output_witness :
  exists e,
    eda.clean_and_transform_data (C := demo.conversions) demo.cleaned_df
      demo.param_df demo.stat_df = Raise e.
Proof.
  apply (cleaner_rejects_its_output (C := demo.conversions) demo.joined_df
           demo.param_df demo.stat_df demo.cleaned_df).
  vm_compute. reflexivity.
Defined.

(** C5 as stated fails: the Cleaner run on its own output raises
    [KeyError] for [id]. *)
Lemma cleaner_is_not_idempotent :
  eda.clean_and_transform_data (C := demo.conversions) demo.joined_df
    demo.param_df demo.stat_df = Ok demo.cleaned_df
  /\ eda.clean_and_transform_data (C := demo.conversions) demo.cleaned_df
       demo.param_df demo.stat_df = Raise (KeyError "id").
Proof. split; vm_compute; reflexivity. Qed.

Lemma lookup_joins_keep_row_count_witness :
  exists value,
    getitem demo.joined_df "value" TypeError = Ok value
    /\ nrows demo.cleaned_df
       = length (eda.survivors (C := demo.conversions) value
                   (nrows demo.joined_df)).
Proof.
  apply (lookup_joins_keep_row_count (C := demo.conversions) demo.joined_df
           demo.param_df demo.stat_df demo.cleaned_df
           [Str "00060"; Str "00010"]
           [Str "Discharge"; Str "Temperature, water"]
           [Str "00003"] [Str "MEAN"]).
  - vm_compute. reflexivity.
  - vm_compute. reflexivity.
  - vm_compute. reflexivity.
  - intros [|[|i]] [|[|j]] Hi Hj; simpl in Hi, Hj; try lia;
      vm_compute; intros H; first [reflexivity|discriminate H].
  - vm_compute. reflexivity.
  - vm_compute. reflexivity.
  - intros [|i] [|j] Hi Hj; simpl in Hi, Hj; try lia;
      vm_compute; intros H; first [reflexivity|discriminate H].
Defined.

(** C7 as stated fails: with a parameter lookup that gives two names to
    one code, each of the two rows with a numeric value comes out twice. *)
Lemma second_name_for_a_code_doubles_rows :
  getitem demo.param_df_two_names "id" ValueError
  = Ok [Str "00060"; Str "00060"]
  /\ eda.survivors (C := demo.conversions)
       [Str "3.5"; Str "not_a_number"; Str "1.0"] (nrows demo.joined_df)
     = [0; 2]%nat
  /\ exists out,
       eda.clean_and_transform_data (C := demo.conversions) demo.joined_df
         demo.param_df_two_names demo.stat_df = Ok out
       /\ nrows out = 4%nat
       /\ getitem out "id" ValueError
          = Ok [Str "dv-1"; Str "dv-1"; Str "dv-3"; Str "dv-3"].
Proof.
  split; [vm_compute; reflexivity|]. split; [vm_compute; reflexivity|].
  eexists. split; [vm_compute; reflexivity|].
  split; vm_compute; reflexivity.
Qed.

Lemma joiner_is_a_left_join_witness :
  exists (pairs : list (nat * option nat)),
    nrows demo.joined_df = length pairs
    /\ pairs.*1 = [0; 1; 2]%nat.
Proof.
  destruct (joiner_is_a_left_join demo.dv_df demo.loc_df demo.joined_df)
    as (loc_filtered & lkey & rkey & pairs & Hloc & Hlkey & Hrkey & Hn & _
        & Hleft & _).
  - vm_compute. reflexivity.
  - exists pairs. split; [exact Hn|]. rewrite Hleft.
    assert (Hl : lkey = [Str "USGS-1"; Str "USGS-1"; Str "USGS-9"]).
    { assert (H : Ok lkey = Ok [Str "USGS-1"; Str "USGS-1"; Str "USGS-9"])
        by (rewrite <- Hlkey; vm_compute; reflexivity).
      congruence. }
    assert (Hf : Ok loc_filtered
                 = getitem_list demo.loc_df data_loader.loc_keep)
      by (by rewrite Hloc).
    assert (Hr : rkey = [Str "USGS-1"]).
    { assert (H : Ok rkey = Ok [Str "USGS-1"]).
      { rewrite <- Hrkey. vm_compute in Hf. injection Hf as ->.
        vm_compute. reflexivity. }
      congruence. }
    subst lkey rkey. vm_compute. reflexivity.
Defined.

(** C8 as stated fails: with a location table that lists a site twice, the
    two daily values of that site come out twice each. *)
Lemma repeated_location_adds_rows :
  nrows demo.dv_df = 3%nat
  /\ getitem demo.loc_df_repeated "id" ValueError
     = Ok [Str "USGS-1"; Str "USGS-1"]
  /\ exists out,
       data_loader.join_daily_values_with_locations demo.dv_df
         demo.loc_df_repeated = Ok out
       /\ nrows out = 5%nat
       /\ getitem out "id_x" ValueError
          = Ok [Str "dv-1"; Str "dv-1"; Str "dv-2"; Str "dv-2"; Str "dv-3"].
Proof.
  split; [reflexivity|]. split; [vm_compute; reflexivity|].
  eexists. split; [vm_compute; reflexivity|].
  split; vm_compute; reflexivity.
Qed.

(** ** The Summarizer *)

(** *** Sorting *)

Section Sorting.
Import eda.
Context {A : Type} (leb : A -> A -> bool).
Hypothesis leb_total : forall a b, leb a b = true \/ leb b a = true.
Hypothesis leb_trans :
  forall a b c, leb a b = true -> leb b c = true -> leb a c = true.

Lemma insert_sorted_elem (x : A) (l : list A) (y : A) :
  y ∈ insert_sorted leb x l <-> y = x \/ y ∈ l.
Proof.
  induction l as [|z l IH]; simpl.
  - rewrite list_elem_of_singleton, elem_of_nil. tauto.
  - destruct (leb x z); rewrite !elem_of_cons; [tauto|].
    rewrite IH. tauto.
Qed.

Lemma sort_by_elem (l : list A) (y : A) : y ∈ sort_by leb l <-> y ∈ l.
Proof.
  unfold sort_by. induction l as [|x l IH]; simpl; [done|].
  rewrite insert_sorted_elem, elem_of_cons, IH. done.
Qed.

Lemma insert_sorted_sorted (x : A) (l : list A) :
  StronglySorted (fun a b => leb a b = true) l ->
  StronglySorted (fun a b => leb a b = true) (insert_sorted leb x l).
Proof.
  induction 1 as [|z l Hl IH Hz]; simpl.
  - constructor; [constructor|constructor].
  - destruct (leb x z) eqn:Hxz.
    + constructor; [by constructor|].
      constructor; [done|].
      eapply Forall_impl; [exact Hz|]. intros b Hb. by eapply leb_trans.
    + constructor; [done|].
      apply Forall_forall. intros b Hb%insert_sorted_elem.
      destruct Hb as [->|Hb].
      * destruct (leb_total x z) as [H|H]; [congruence|done].
      * by eapply Forall_forall in Hz.
Qed.

Lemma sort_by_sorted (l : list A) :
  StronglySorted (fun a b => leb a b = true) (sort_by leb l).
Proof.
  unfold sort_by. induction l as [|x l IH]; simpl; [constructor|].
  by apply insert_sorted_sorted.
Qed.

Lemma insert_sorted_head (x : A) (l : list A) :
  Forall (fun b => leb x b = true) l -> insert_sorted leb x l = x :: l.
Proof. destruct 1 as [|z l Hz _]; simpl; [done|]. by rewrite Hz. Qed.

Lemma filter_insert_sorted (p : A -> bool) (x : A) (l : list A) :
  StronglySorted (fun a b => leb a b = true) l ->
  filter (fun a => p a = true) (insert_sorted leb x l)
  = if p x then insert_sorted leb x (filter (fun a => p a = true) l)
    else filter (fun a => p a = true) l.
Proof.
  induction 1 as [|z l Hl IH Hz]; simpl.
  - rewrite filter_cons. destruct (p x) eqn:Hx.
    + rewrite decide_True by done. done.
    + rewrite decide_False by congruence. done.
  - destruct (leb x z) eqn:Hxz.
    + rewrite (filter_cons _ x). destruct (p x) eqn:Hx.
      * rewrite decide_True by done. symmetry. apply insert_sorted_head.
        apply Forall_forall. intros b Hb%list_elem_of_filter.
        destruct Hb as [_ Hb]. apply elem_of_cons in Hb as [->|Hb]; [done|].
        eapply leb_trans; [exact Hxz|]. by eapply Forall_forall in Hz.
      * rewrite decide_False by congruence. done.
    + rewrite !(filter_cons _ z). destruct (decide (p z = true)) as [Hpz|Hpz].
      * rewrite IH. destruct (p x); [|done]. simpl. by rewrite Hxz.
      * rewrite IH. done.
Qed.

(** Selecting rows and sorting them can be done in either order. *)
Lemma filter_sort_by (p : A -> bool) (l : list A) :
  filter (fun a => p a = true) (sort_by leb l)
  = sort_by leb (filter (fun a => p a = true) l).
Proof.
  induction l as [|x l IH]; [done|].
  change (sort_by leb (x :: l)) with (insert_sorted leb x (sort_by leb l)).
  rewrite filter_insert_sorted by apply sort_by_sorted.
  rewrite filter_cons. destruct (p x) eqn:Hx.
  - rewrite decide_True by done. rewrite IH. done.
  - rewrite decide_False by congruence. done.
Qed.

Lemma last_insert_sorted (x : A) (l : list A) :
  last (insert_sorted leb x l)
  = if existsb (leb x) l then last l else Some x.
Proof.
  induction l as [|z l IH]; [done|].
  cbn [insert_sorted existsb]. destruct (leb x z) eqn:Hxz; cbn [orb].
  - done.
  - assert (insert_sorted leb x l <> []) as Hne.
    { intros E. assert (x ∈ insert_sorted leb x l) as Hin
        by (apply insert_sorted_elem; by left).
      rewrite E in Hin. by apply elem_of_nil in Hin. }
    transitivity (last (insert_sorted leb x l)).
    { by destruct (insert_sorted leb x l). }
    rewrite IH. by destruct l.
Qed.

(** The last element of the sorted list: nothing before it in the input is
    greater, everything after it is smaller. *)
Lemma last_sort_by (l : list A) :
  l <> [] ->
  exists l1 o l2,
    l = l1 ++ o :: l2
    /\ last (sort_by leb l) = Some o
    /\ Forall (fun x => leb x o = true) l1
    /\ Forall (fun x => leb o x = false) l2.
Proof.
  induction l as [|x l IH]; [done|]. intros _.
  change (sort_by leb (x :: l)) with (insert_sorted leb x (sort_by leb l)).
  rewrite last_insert_sorted.
  destruct (decide (l = [])) as [->|Hne].
  { exists [], x, []. simpl. repeat split; constructor. }
  destruct (IH Hne) as (l1 & o & l2 & Hl & Hlast & H1 & H2).
  destruct (existsb (leb x) (sort_by leb l)) eqn:Hex.
  - apply existsb_exists in Hex as (z & Hz & Hxz).
    apply list_elem_of_In, (proj1 (sort_by_elem _ _)) in Hz.
    rewrite Hl in Hz.
    assert (leb x o = true) as Hxo.
    { apply elem_of_app in Hz as [Hz|Hz].
      - eapply leb_trans; [exact Hxz|]. by eapply Forall_forall in H1.
      - apply elem_of_cons in Hz as [->|Hz]; [done|].
        eapply Forall_forall in H2; [|exact Hz].
        eapply leb_trans; [exact Hxz|].
        destruct (leb_total z o) as [H|H]; [done|congruence]. }
    exists (x :: l1), o, l2. split; [by rewrite Hl|].
    split; [done|]. split; [by constructor|done].
  - exists [], x, l. repeat split; [constructor|].
    apply Forall_forall. intros z Hz.
    destruct (leb x z) eqn:Hxz; [|done].
    assert (existsb (leb x) (sort_by leb l) = true) as Hex'.
    { apply existsb_exists. exists z. split; [|done].
      apply list_elem_of_In. by apply sort_by_elem. }
    congruence.
Qed.

End Sorting.

Section Times.
Import eda.

Lemma time_leb_total (a b : cell) : time_leb a b = true \/ time_leb b a = true.
Proof.
  destruct a, b; simpl; auto. destruct (Z.leb_spec t t0); [by left|].
  right. apply Z.leb_le. lia.
Qed.

Lemma time_leb_trans (a b c : cell) :
  time_leb a b = true -> time_leb b c = true -> time_leb a c = true.
Proof.
  destruct a, b, c; simpl; try done.
  rewrite !Z.leb_le. lia.
Qed.

End Times.

(** *** Aggregates *)

Section Aggregates.
Import eda.

Lemma foldl_Qmin_spec (x : Q) (l : list Q) :
  foldl Qmin x l ∈ x :: l
  /\ Forall (fun q => (foldl Qmin x l <= q)%Q) (x :: l).
Proof.
  revert x. induction l as [|y l IH]; intros x; simpl.
  - split; [apply elem_of_cons; by left|].
    constructor; [apply Qle_refl|constructor].
  - destruct (IH (Qmin x y)) as [Hin Hall].
    assert ((Qmin x y <= x)%Q /\ (Qmin x y <= y)%Q /\
            (Qmin x y = x \/ Qmin x y = y)) as (Hx & Hy & Hxy).
    { unfold Qmin. destruct (Qle_bool x y) eqn:E.
      - apply Qle_bool_iff in E. split; [apply Qle_refl|]. split; [done|].
        by left.
      - split; [|split; [apply Qle_refl|by right]].
        destruct (Qlt_le_dec y x) as [H|H]; [by apply Qlt_le_weak|].
        apply Qle_bool_iff in H. congruence. }
    split.
    + apply elem_of_cons in Hin as [Hin|Hin].
      * rewrite Hin, !elem_of_cons. destruct Hxy as [->| ->]; auto.
      * rewrite !elem_of_cons. auto.
    + inversion Hall as [|? ? Hm Hl]; subst.
      constructor; [by eapply Qle_trans|].
      constructor; [by eapply Qle_trans|done].
Qed.

Lemma foldl_Qmax_spec (x : Q) (l : list Q) :
  foldl Qmax x l ∈ x :: l
  /\ Forall (fun q => (q <= foldl Qmax x l)%Q) (x :: l).
Proof.
  revert x. induction l as [|y l IH]; intros x; simpl.
  - split; [apply elem_of_cons; by left|].
    constructor; [apply Qle_refl|constructor].
  - destruct (IH (Qmax x y)) as [Hin Hall].
    assert ((x <= Qmax x y)%Q /\ (y <= Qmax x y)%Q /\
            (Qmax x y = x \/ Qmax x y = y)) as (Hx & Hy & Hxy).
    { unfold Qmax. destruct (Qle_bool x y) eqn:E.
      - apply Qle_bool_iff in E. split; [done|]. split; [apply Qle_refl|].
        by right.
      - split; [apply Qle_refl|]. split; [|by left].
        destruct (Qlt_le_dec y x) as [H|H]; [by apply Qlt_le_weak|].
        apply Qle_bool_iff in H. congruence. }
    split.
    + apply elem_of_cons in Hin as [Hin|Hin].
      * rewrite Hin, !elem_of_cons. destruct Hxy as [->| ->]; auto.
      * rewrite !elem_of_cons. auto.
    + inversion Hall as [|? ? Hm Hl]; subst.
      constructor; [by eapply Qle_trans|].
      constructor; [by eapply Qle_trans|done].
Qed.

Lemma foldl_Zmax_spec (x : Z) (l : list Z) :
  foldl Z.max x l ∈ x :: l
  /\ Forall (fun t => t <= foldl Z.max x l) (x :: l).
Proof.
  revert x. induction l as [|y l IH]; intros x; simpl.
  - split; [apply elem_of_cons; by left|]. constructor; [lia|constructor].
  - destruct (IH (Z.max x y)) as [Hin Hall]. split.
    + apply elem_of_cons in Hin as [Hin|Hin];
        [|rewrite !elem_of_cons; by auto].
      rewrite Hin, !elem_of_cons.
      destruct (Z.max_spec x y) as [[_ ->]|[_ ->]]; auto.
    + inversion Hall as [|? ? Hm Hl]; subst.
      constructor; [lia|]. constructor; [lia|done].
Qed.

Lemma agg_mean_spec (l : list Q) :
  l <> [] ->
  exists mean, agg_mean l = Num mean
    /\ (mean * inject_Z (Z.of_nat (length l)) == foldl Qplus 0 l)%Q.
Proof.
  intros Hne. destruct l as [|x l]; [done|].
  eexists. split; [reflexivity|].
  rewrite Qred_correct.
  set (n := inject_Z (Z.of_nat (length (x :: l)))).
  assert (~ (n == 0)%Q) as Hn.
  { unfold n, Qeq, inject_Z. simpl. lia. }
  field. exact Hn.
Qed.

End Aggregates.

(** *** The lines of the report *)

Section Groups.
Import eda.

Lemma key_eqb_eq (k1 k2 : string * string) : key_eqb k1 k2 = true <-> k1 = k2.
Proof.
  destruct k1 as [a b], k2 as [c d]. unfold key_eqb. simpl.
  rewrite andb_true_iff, !String.eqb_eq. split; [intros [-> ->]|]; [done|].
  by intros [= -> ->].
Qed.

Lemma unique_keys_elem ks k : k ∈ unique_keys ks <-> k ∈ ks.
Proof.
  induction ks as [|k0 ks IH]; simpl; [done|].
  rewrite !elem_of_cons, list_elem_of_filter, IH.
  destruct (decide (k = k0)) as [->|Hne]; [tauto|].
  split; [tauto|]. intros [?|?]; [done|]. right. split; [|done].
  destruct (key_eqb k k0) eqn:E; [|done]. by apply key_eqb_eq in E.
Qed.

Lemma unique_keys_NoDup ks : NoDup (unique_keys ks).
Proof.
  induction ks as [|k0 ks IH]; simpl; [constructor|].
  constructor; [|by apply NoDup_filter].
  intros [Hne _]%list_elem_of_filter.
  rewrite (proj2 (key_eqb_eq k0 k0)) in Hne; done.
Qed.

Lemma insert_sorted_perm {A} (leb : A -> A -> bool) x (l : list A) :
  insert_sorted leb x l ≡ₚ x :: l.
Proof.
  induction l as [|y l IH]; simpl; [done|].
  destruct (leb x y); [done|]. rewrite IH. apply Permutation_swap.
Qed.

Lemma sort_by_perm {A} (leb : A -> A -> bool) (l : list A) :
  sort_by leb l ≡ₚ l.
Proof.
  unfold sort_by. induction l as [|x l IH]; simpl; [done|].
  by rewrite insert_sorted_perm, IH.
Qed.

Lemma timestamps_elem (g : list observation) (t : Z) :
  t ∈ timestamps g <-> exists x, x ∈ g /\ o_time x = Time t.
Proof.
  unfold timestamps. rewrite list_elem_of_omap. split.
  - intros (x & Hx & Ht). exists x. split; [done|].
    destruct (o_time x); try done. by injection Ht as ->.
  - intros (x & Hx & Ht). exists x. split; [done|]. by rewrite Ht.
Qed.

Lemma last_in_order_of_sorted (g : list observation) :
  g <> [] ->
  exists o,
    last (sort_by (fun a b => time_leb (o_time a) (o_time b)) g) = Some o
    /\ last_in_order o g.
Proof.
  intros Hne.
  destruct (last_sort_by (fun a b => time_leb (o_time a) (o_time b))) with (l := g)
    as (l1 & o & l2 & Hg & Hlast & H1 & H2); [| |done|].
  - intros a b. apply time_leb_total.
  - intros a b c. apply time_leb_trans.
  - exists o. split; [done|]. by exists l1, l2.
Qed.

(** The row that the stable sort puts last is one that every sort can put
    last. *)
Lemma last_in_order_most_recent (o : observation) (g : list observation) :
  last_in_order o g -> most_recent o g.
Proof.
  intros (l1 & l2 & Hg & H1 & H2). split; [|split].
  - rewrite Hg, elem_of_app, elem_of_cons. auto.
  - rewrite Hg. apply Forall_app. split; [done|]. constructor.
    + destruct (time_leb_total (o_time o) (o_time o)); done.
    + eapply Forall_impl; [exact H2|]. intros x Hx. cbn in Hx.
      destruct (time_leb_total (o_time x) (o_time o)) as [?|E]; [done|].
      by rewrite E in Hx.
  - intros Hundated. exists l1, l2. split; [done|].
    eapply Forall_impl; [exact H2|]. intros x Hx. cbn in Hx.
    destruct (o_time x) as [| | |t] eqn:Ex; [| | |by exists t];
      exfalso; destruct (o_time o) as [| | |t'] eqn:Eo; try discriminate;
      apply Hundated; by exists t'.
Qed.

Lemma greatest_time (g : list observation) :
  timestamps g <> [] ->
  exists t,
    agg_max_time (timestamps g) = Time t
    /\ t ∈ timestamps g
    /\ Forall (fun t' => t' <= t) (timestamps g).
Proof.
  intros Hne. unfold agg_max_time.
  destruct (timestamps g) as [|t0 ts]; [done|].
  destruct (foldl_Zmax_spec t0 ts) as [Hin Hall]. eauto.
Qed.

End Groups.

Section Summarizer.
Context `{C : Conversions}.
Import eda.

Lemma summary_line (rows : list observation) (k : string * string) :
  k ∈ key <$> rows ->
  let sorted := sort_by (fun a b => time_leb (o_time a) (o_time b)) rows in
  let group := filter (fun o => key_eqb (key o) k = true) rows in
  let recent := last (filter (fun o => key_eqb (key o) k = true) sorted) in
  line_of k (group_of k rows)
    {| site := str_remove ", NM" k.1;
       parameter := k.2;
       unit_of_measure := default NA (o_unit <$> recent);
       observations :=
         length (filter (fun o => isna (o_value o) = false) group);
       min_value := round2 (agg_min (numbers group));
       max_value := round2 (agg_max (numbers group));
       avg_value := round2 (agg_mean (numbers group));
       most_recent_value := round2 (default NA (o_value <$> recent));
       most_recent_time := format_date (agg_max_time (timestamps group)) |}.
Proof.
  intros Hk sorted group recent.
  assert (group_of k rows <> []) as Hne.
  { apply list_elem_of_fmap in Hk as (o & Hko & Ho).
    intros E. assert (o ∈ group_of k rows) as Hin.
    { apply list_elem_of_filter. split; [by apply key_eqb_eq|done]. }
    rewrite E in Hin. by apply elem_of_nil in Hin. }
  change group with (group_of k rows) in *.
  unfold line_of. cbn [site parameter unit_of_measure observations min_value
    max_value avg_value most_recent_value most_recent_time].
  split; [done|]. split; [done|]. split; [done|]. split; [|split].
  - intros Hnum. destruct (numbers (group_of k rows)) as [|x l] eqn:E; [done|].
    destruct (foldl_Qmin_spec x l) as [Hlo Hlo'].
    destruct (foldl_Qmax_spec x l) as [Hhi Hhi'].
    exists (foldl Qmin x l), (foldl Qmax x l).
    split; [done|]. split; [done|]. split; [done|]. split; [done|].
    apply Forall_forall. intros q Hq. split.
    + by eapply Forall_forall in Hlo'.
    + by eapply Forall_forall in Hhi'.
  - intros Htimes.
    destruct (greatest_time _ Htimes) as (t & -> & Hin & Hall).
    by exists t.
  - destruct (last_in_order_of_sorted (group_of k rows) Hne)
      as (o & Hlast & Hrec).
    assert (recent = Some o) as ->.
    { unfold recent, sorted.
      rewrite (filter_sort_by (fun a b => time_leb (o_time a) (o_time b))
                 (fun a b => time_leb_total _ _)
                 (fun a b c => time_leb_trans _ _ _)
                 (fun o => key_eqb (key o) k)).
      exact Hlast. }
    exists o. split; [by apply last_in_order_most_recent|]. done.
Qed.

(** X16. For a table whose values are numbers or null and whose times are
    timestamps or null, the report has one line for each pair of site and
    parameter names in the table. The line counts the values of the group
    and gives the least and the greatest of them, rounded by the library,
    and the day of the greatest time. The most recent value and the unit
    are those of one row of the group: the last row without a time if the
    group has one, and else a row with the greatest time. *)
Theorem summary_by_site_and_parameter (cleaned_df : DataFrame)
    (summary : list summary_row) :
  (forall values, getitem cleaned_df "value" ValueError = Ok values ->
     Forall number_or_null values) ->
  (forall times, getitem cleaned_df "time" ValueError = Ok times ->
     Forall time_or_null times) ->
  produce_summary_by_site cleaned_df = Ok summary ->
  exists (sites params values times units : Series)
         (rows : list observation) (keys : list (string * string)),
    getitem cleaned_df "monitoring_location_name" ValueError = Ok sites
    /\ getitem cleaned_df "parameter_name" ValueError = Ok params
    /\ getitem cleaned_df "value" ValueError = Ok values
    /\ getitem cleaned_df "time" ValueError = Ok times
    /\ getitem cleaned_df "unit_of_measure" ValueError = Ok units
    /\ grouped_rows sites params values times units
         (seq 0 (nrows cleaned_df)) = Ok rows
    /\ NoDup keys
    /\ (forall k, k ∈ keys <-> k ∈ key <$> rows)
    /\ Forall2 (fun k line => line_of k (group_of k rows) line) keys summary.
Proof.
  intros _ _. unfold produce_summary_by_site. intros Hrun.
  destruct (getitem cleaned_df "monitoring_location_name" ValueError)
    as [sites|] eqn:Hsites; [|done].
  destruct (getitem cleaned_df "parameter_name" ValueError)
    as [params|] eqn:Hparams; [|done].
  destruct (getitem cleaned_df "value" ValueError)
    as [values|] eqn:Hvalues; [|done].
  destruct (getitem cleaned_df "time" ValueError)
    as [times|] eqn:Htimes; [|done].
  destruct (getitem cleaned_df "unit_of_measure" ValueError)
    as [units|] eqn:Hunits; [|done].
  cbn [bind] in Hrun.
  destruct (grouped_rows sites params values times units
              (seq 0 (nrows cleaned_df))) as [rows|] eqn:Hrows; [|done].
  cbn [bind] in Hrun. injection Hrun as <-.
  exists sites, params, values, times, units, rows,
    (sort_by key_leb (unique_keys (key <$> rows))).
  do 6 (split; [done|]).
  assert (forall k, k ∈ sort_by key_leb (unique_keys (key <$> rows))
                    <-> k ∈ key <$> rows) as Hkeys.
  { intros k. by rewrite (sort_by_perm key_leb), unique_keys_elem. }
  split; [rewrite (sort_by_perm key_leb); apply unique_keys_NoDup|].
  split; [done|].
  apply Forall2_fmap_r, Forall_Forall2_diag, Forall_forall.
  intros k Hk%Hkeys. by apply summary_line.
Qed.

End Summarizer.

Lemma summary_by_site_and_parameter_witness :
  exists (summary : list eda.summary_row) (rows : list eda.observation)
         (keys : list (string * string)),
    eda.produce_summary_by_site (C := demo.conversions) demo.cleaned_df
    = Ok summary
    /\ NoDup keys
    /\ Forall2 (fun k line => eda.line_of (C := demo.conversions) k
                                (eda.group_of k rows) line) keys summary.
Proof.
  destruct (eda.produce_summary_by_site (C := demo.conversions)
              demo.cleaned_df) as [summary|e] eqn:Hrun.
  - destruct (summary_by_site_and_parameter (C := demo.conversions)
                demo.cleaned_df summary)
      as (sites & params & values & times & units & rows & keys & _ & _ & _
          & _ & _ & _ & Hnd & _ & Hlines).
    + intros values Hvalues. vm_compute in Hvalues.
      injection Hvalues as <-.
      repeat (apply List.Forall_cons;
              [first [by left|right; by eexists]|]).
      apply List.Forall_nil.
    + intros times Htimes. vm_compute in Htimes.
      injection Htimes as <-.
      repeat (apply List.Forall_cons;
              [first [by left|right; by eexists]|]).
      apply List.Forall_nil.
    + exact Hrun.
    + exists summary, rows, keys. split; [reflexivity|]. split; [exact Hnd|].
      exact Hlines.
  - exfalso. vm_compute in Hrun. discriminate Hrun.
Defined.

(** *** Two reports *)

(** Two observations of one site and parameter, 1.0 and then 3.0 a day
    later: min 1, max 3, mean 2, most recent value 3 at the second day. *)
Example summary_of_two_days :
  exists cleaned,
    eda.clean_and_transform_data (C := demo.conversions) demo.two_days
      demo.param_df demo.stat_df = Ok cleaned
    /\ getitem cleaned "value" ValueError = Ok [Num 1; Num 3]
    /\ getitem cleaned "time" ValueError
       = Ok [Time 1705276800000000000; Time 1705363200000000000]
    /\ eda.produce_summary_by_site (C := demo.conversions) cleaned
       = Ok [{| eda.site := "RIO GRANDE AT EMBUDO";
                eda.parameter := "Discharge";
                eda.unit_of_measure := Str "ft^3/s";
                eda.observations := 2;
                eda.min_value := Num 1;
                eda.max_value := Num 3;
                eda.avg_value := Num 2;
                eda.most_recent_value := Num 3;
                eda.most_recent_time := Str "2024-01-16" |}].
Proof.
  eexists. split; [vm_compute; reflexivity|].
  repeat split; vm_compute; reflexivity.
Qed.

(** C9 at a group with a null time. The table is what the Cleaner returns
    for two daily values of one site and parameter, 1.0 on 2024-01-15 and
    5.0 with a time that cannot be parsed. The report gives 2024-01-15 as
    the most recent time and 5, the value of the row without a time, as the
    most recent value. *)
Theorem summary_takes_value_of_undated_row :
  exists cleaned,
    eda.clean_and_transform_data (C := demo.conversions) demo.one_undated
      demo.param_df demo.stat_df = Ok cleaned
    /\ getitem cleaned "value" ValueError = Ok [Num 1; Num 5]
    /\ getitem cleaned "time" ValueError = Ok [Time 1705276800000000000; NA]
    /\ eda.produce_summary_by_site (C := demo.conversions) cleaned
       = Ok [{| eda.site := "RIO GRANDE AT EMBUDO";
                eda.parameter := "Discharge";
                eda.unit_of_measure := Str "ft^3/s";
                eda.observations := 2;
                eda.min_value := Num 1;
                eda.max_value := Num 5;
                eda.avg_value := Num 3;
                eda.most_recent_value := Num 5;
                eda.most_recent_time := Str "2024-01-15" |}].
Proof.
  eexists. split; [vm_compute; reflexivity|].
  repeat split; vm_compute; reflexivity.
Qed.

(** * Further properties *)

(** ** Batches *)

Section Batches.
Context {A : Type}.
Implicit Types (items : list A) (chunk_size : Z).

(** For a positive chunk size the chunks are the windows of the list. *)
Lemma chunk_list_windows items chunk_size :
  0 < chunk_size ->
  daily_values.chunk_list items chunk_size
  = Ok ((fun i : nat =>
           take (Z.to_nat chunk_size) (drop (i * Z.to_nat chunk_size) items))
          <$> seq 0 (Z.to_nat (range_len 0 (Z.of_nat (length items))
                                 chunk_size))).
Proof.
  intros Hk. unfold daily_values.chunk_list, py_range.
  destruct (Z.eqb_spec chunk_size 0); [lia|]. simpl. f_equal.
  rewrite <- list_fmap_compose. apply list_fmap_ext.
  intros _ i _. simpl. by apply py_slice_window.
Qed.

Lemma range_len_ceil (n k : Z) :
  0 < k -> 0 <= n -> range_len 0 n k = (n + k - 1) / k.
Proof.
  intros Hk Hn. unfold range_len.
  destruct (Z.ltb_spec 0 k); [|lia].
  destruct (Z.ltb_spec 0 n).
  - replace (n + k - 1) with (n - 0 - 1 + 1 * k) by lia.
    by rewrite Z.div_add by lia.
  - replace n with 0 by lia. symmetry. apply Z.div_small. lia.
Qed.

(** X1. For a positive chunk size, [chunk_list] returns as many chunks as
    the length of the list divided by the chunk size, rounded up, and every
    chunk but the last has exactly [chunk_size] items. *)
Theorem chunk_list_count items chunk_size :
  0 < chunk_size ->
  exists chunks : list (list A),
    daily_values.chunk_list items chunk_size = Ok chunks
    /\ Z.of_nat (length chunks)
       = (Z.of_nat (length items) + chunk_size - 1) / chunk_size
    /\ forall (i : nat) c,
         chunks !! i = Some c -> (S i < length chunks)%nat ->
         Z.of_nat (length c) = chunk_size.
Proof.
  intros Hk. eexists. split; [by apply chunk_list_windows|].
  set (n := Z.of_nat (length items)).
  destruct (range_len_pos n chunk_size Hk ltac:(lia))
    as (Hm0 & Hcover & Hlast & Hnil).
  rewrite length_fmap, length_seq. split.
  - rewrite Z2Nat.id by done. apply range_len_ceil; lia.
  - intros i c Hi Hlt.
    apply list_lookup_fmap_Some in Hi as (j & -> & Hj).
    apply lookup_seq in Hj as [-> Hj]. simpl in *.
    rewrite length_take, length_drop. subst n. nia.
Qed.

(** A chunk size below zero gives no chunk at all, whatever the list. *)
Lemma chunk_list_negative items chunk_size :
  chunk_size < 0 -> daily_values.chunk_list items chunk_size = Ok [].
Proof.
  intros Hk. unfold daily_values.chunk_list, py_range, range_len.
  destruct (Z.eqb_spec chunk_size 0); [lia|].
  destruct (Z.ltb_spec 0 chunk_size); [lia|].
  destruct (Z.ltb_spec (Z.of_nat (length items)) 0); [lia|].
  done.
Qed.

End Batches.

Lemma chunk_list_count_witness :
  exists chunks : list (list nat),
    daily_values.chunk_list (seq 0 250) 100 = Ok chunks
    /\ Z.of_nat (length chunks) = 3.
Proof.
  destruct (chunk_list_count (seq 0 250) 100 ltac:(lia))
    as (chunks & Hc & Hn & _).
  exists chunks. split; [exact Hc|]. rewrite Hn. reflexivity.
Defined.

(** ** Identifiers *)

Section Identifiers.
Context `{B : Builtins}.
Import daily_values.

Lemma collect_ids_app (fs1 fs2 : list json) (ids : list string) :
  collect_ids (fs1 ++ fs2) ids
  = bind (collect_ids fs1 ids) (collect_ids fs2).
Proof.
  revert ids. induction fs1 as [|f fs1 IH]; intros ids; [done|].
  cbn [app collect_ids]. destruct (feature_id f) as [[s|]|e]; cbn [bind]; auto.
Qed.

Lemma feature_id_raises (f : json) :
  (forall fd, f <> JObj fd) -> feature_id f = Raise AttributeError.
Proof. destruct f; try done. intros H. by destruct (H items). Qed.

Lemma collect_ids_raises (features : list json) (ids : list string) :
  ~ Forall (fun f => exists fd, f = JObj fd) features ->
  collect_ids features ids = Raise AttributeError.
Proof.
  revert ids. induction features as [|f features IH]; intros ids Hnot.
  - destruct Hnot. constructor.
  - cbn [collect_ids].
    destruct f; try (cbn; done).
    rewrite feature_id_identifier. cbn [bind].
    assert (~ Forall (fun f => exists fd, f = JObj fd) features) as Hrest.
    { intros Hall. apply Hnot. constructor; [eauto|done]. }
    destruct (py_str <$> spec.identifier (JObj items)); by apply IH.
Qed.

Lemma all_objects_or_not (features : list json) :
  Forall (fun f => exists fd, f = JObj fd) features
  \/ ~ Forall (fun f => exists fd, f = JObj fd) features.
Proof.
  induction features as [|f features [IH|IH]].
  - left. constructor.
  - destruct f; try (right; intros H; inversion H as [|? ? [fd Hfd] ?];
                     discriminate).
    left. constructor; [eauto|done].
  - right. intros H. inversion H. auto.
Qed.

(** What the extractor returns is what its second loop returns: a list
    without repetitions. *)
Lemma extract_location_ids_NoDup (locations_json : json) (ids : list string) :
  extract_location_ids locations_json = Ok ids -> NoDup ids.
Proof.
  unfold extract_location_ids. destruct locations_json; try discriminate.
  intros H. apply bind_ok_inv in H as (features & _ & H).
  apply bind_ok_inv in H as (l & _ & H). injection H as <-.
  rewrite dedupe_spec. apply first_occurrences_NoDup.
Qed.

(** X2. What [extract_location_ids] does with input that is no Feature
    Collection. Anything but a JSON object raises [AttributeError]; an
    object without [features] gives no identifier; a [features] entry that
    is null, a number or a truth value raises [TypeError]; and with a list
    of features the call completes exactly when every feature is a JSON
    object, and raises [AttributeError] otherwise. *)
Theorem extract_location_ids_malformed :
  (forall locations_json,
     (forall d, locations_json <> JObj d) ->
     extract_location_ids locations_json = Raise AttributeError)
  /\ (forall d,
        dict_get "features" d = None -> extract_location_ids (JObj d) = Ok [])
  /\ (forall d v,
        dict_get "features" d = Some v ->
        match v with
        | JNull | JBool _ | JInt _ | JFloat _ => True
        | _ => False
        end ->
        extract_location_ids (JObj d) = Raise TypeError)
  /\ (forall d features,
        dict_get "features" d = Some (JArr features) ->
        (is_ok (extract_location_ids (JObj d)) = true
         <-> Forall (fun f => exists fd, f = JObj fd) features)
        /\ (is_ok (extract_location_ids (JObj d)) = false ->
            extract_location_ids (JObj d) = Raise AttributeError)).
Proof.
  split; [|split; [|split]].
  - intros j Hj. destruct j; try done. by destruct (Hj items).
  - intros d Hd. unfold extract_location_ids. rewrite Hd. reflexivity.
  - intros d v Hd Hv. unfold extract_location_ids. rewrite Hd.
    destruct v; done.
  - intros d features Hd.
    assert (extract_location_ids (JObj d)
            = bind (collect_ids features []) (fun ids => Ok (dedupe ids ∅ [])))
      as ->.
    { unfold extract_location_ids. by rewrite Hd. }
    destruct (all_objects_or_not features) as [Hall|Hnot].
    + rewrite collect_ids_objects by done. cbn [bind is_ok]. done.
    + rewrite collect_ids_raises by done. cbn [bind is_ok]. split; [|done].
      split; [done|]. intros Hall. by destruct Hnot.
Qed.

End Identifiers.

Lemma extract_location_ids_malformed_witness :
  daily_values.extract_location_ids (B := demo.builtins)
    (JObj [("features", JArr [JStr "USGS-1"])])
  = Raise AttributeError.
Proof.
  destruct (extract_location_ids_malformed (B := demo.builtins))
    as (_ & _ & _ & H).
  destruct (H [("features", JArr [JStr "USGS-1"])] [JStr "USGS-1"]) as [_ H'];
    [reflexivity|].
  apply H'. reflexivity.
Defined.

(** ** Requests *)

Section Requests.
Context `{B : Builtins} `{W : !daily_values.World}.
Import daily_values.

Lemma fetch_run_eq locations_json s :
  prepare locations_json = Ok s ->
  fetch_daily_values_for_locations locations_json []
  = (let run := fetch_batches (dv_base_url s) (dv_params_base s)
                  (time_range s) (timeout s) (batches s) [] None [] in
     (map_result (fun st => JObj (combine st.2 st.1 (batch_size s)
                                    (batches s) (time_range s))) run.1,
      run.2)).
Proof.
  intros Hs. unfold fetch_daily_values_for_locations.
  unfold io_bind at 1, lift at 1. rewrite Hs. unfold io_bind, lift.
  by destruct (fetch_batches _ _ _ _ _ _ _ _) as [[st|e] log].
Qed.

(** X3. A batch size below zero is accepted: the identifiers are cut into
    no batch at all, no request is sent, and the result is a combined
    collection without features. *)
Theorem negative_batch_size_requests_nothing (locations_json : json)
    (s : settings) :
  prepare locations_json = Ok s ->
  batch_size s < 0 ->
  fetch_daily_values_for_locations locations_json []
  = (Ok (JObj [("features", JArr []); ("numberReturned", JInt 0);
               ("total_features", JInt 0);
               ("batch_size", JInt (batch_size s)); ("batches", JInt 0);
               ("time_range", JStr (time_range s))]),
     []).
Proof.
  intros Hs Hneg. rewrite (fetch_run_eq _ _ Hs).
  apply prepare_ok_inv in Hs as (_ & _ & _ & _ & _ & _ & _ & _ & _ & Hchunks).
  rewrite chunk_list_negative in Hchunks by done. injection Hchunks as <-.
  reflexivity.
Qed.

(** X4. With the settings in place, a locations document that yields no
    identifier makes the fetch raise its [RuntimeError] before the day count
    is read and before any request. *)
Theorem no_identifiers_no_requests (locations_json : json)
    (url raw : string) (base : json) :
  getenv "USGS_DV_BASE_URL" = Some url -> url <> "" ->
  getenv "DV_QUERY_PARAMS" = Some raw -> raw <> "" ->
  json_loads raw = Some base ->
  is_ok (int_of_env (getenv "DV_BATCH_SIZE")) = true ->
  is_ok (int_of_env (getenv "API_TIMEOUT_SECONDS")) = true ->
  extract_location_ids locations_json = Ok [] ->
  fetch_daily_values_for_locations locations_json []
  = (Raise (RuntimeError "No monitoring location IDs found in locations JSON"),
     []).
Proof.
  intros Hurl Hurl' Hraw Hraw' Hbase Hbs Htmo Hids.
  apply fetch_prepare_raises. unfold prepare.
  rewrite Hurl. destruct url as [|c url]; [done|].
  rewrite Hraw. destruct raw as [|c' raw]; [done|].
  rewrite Hbase.
  destruct (int_of_env (getenv "DV_BATCH_SIZE")); [|done].
  destruct (int_of_env (getenv "API_TIMEOUT_SECONDS")); [|done].
  cbn [bind]. rewrite Hids. reflexivity.
Qed.

(** The log of the loop, whether it completes or not: one request for each
    batch it came to, in order. *)
Lemma fetch_batches_log url base tr tmo p batches feats meta log r log' :
  dict_of base = Ok p ->
  fetch_batches url base tr tmo batches feats meta log = (r, log') ->
  exists n : nat,
    (n <= length batches)%nat
    /\ log' = log ++ ((fun batch =>
                         {| req_url := url;
                            req_params :=
                              set_param
                                (set_param p "monitoring_location_id"
                                   (str_join "," batch))
                                "time" tr;
                            req_timeout := tmo |}) <$> take n batches)
    /\ (is_ok r = true -> n = length batches).
Proof.
  intros Hp. revert feats meta log.
  induction batches as [|batch batches IH]; intros feats meta log.
  - cbn. intros [= <- <-]. exists 0%nat. by rewrite app_nil_r.
  - cbn [fetch_batches]. unfold io_bind at 1, lift at 1. rewrite Hp.
    unfold io_bind at 1, requests_get_json at 1.
    set (req := {| req_url := url |}).
    destruct (server (length log) req) as [data|e] eqn:Hsrv.
    + unfold io_bind at 1, lift at 1.
      destruct (absorb data feats meta) as [st|e] eqn:Habs.
      * intros Hrun. apply IH in Hrun as (n & Hn & -> & Hok).
        exists (S n). split; [simpl; lia|]. split.
        -- by rewrite <- app_assoc.
        -- intros H. by rewrite Hok.
      * intros [= <- <-]. exists 1%nat. split; [simpl; lia|].
        split; [reflexivity|done].
    + intros [= <- <-]. exists 1%nat. split; [simpl; lia|].
      split; [reflexivity|done].
Qed.

(** X5. The requests of a run are those for the batches, in the order of
    the batches: each carries the base URL, the timeout, and the template
    with the identifiers of its batch joined by commas and one and the same
    time range. A run that stops early has sent the requests for the first
    batches only; a run that completes has sent them all. *)
Theorem requests_follow_batches (locations_json : json) (s : settings)
    (p : params) (r : result json) (log : list request) :
  prepare locations_json = Ok s ->
  dict_of (dv_params_base s) = Ok p ->
  fetch_daily_values_for_locations locations_json [] = (r, log) ->
  exists n : nat,
    (n <= length (batches s))%nat
    /\ log = request_for s p <$> take n (batches s)
    /\ (is_ok r = true -> log = request_for s p <$> batches s).
Proof.
  intros Hs Hp. rewrite (fetch_run_eq _ _ Hs).
  destruct (fetch_batches _ _ _ _ _ _ _ _) as [r0 log0] eqn:Hrun.
  cbn [fst snd]. intros [= <- <-].
  apply (fetch_batches_log _ _ _ _ p) in Hrun as (n & Hn & -> & Hok); [|done].
  exists n. split; [done|]. split; [done|].
  intros H. rewrite Hok; [by rewrite firstn_all|]. by destruct r0.
Qed.

(** The loop up to the first reply that it cannot use. *)
Lemma fetch_batches_stops url base tr tmo p batches feats meta log (i : nat)
    (batch : list string) :
  let mk := fun batch =>
    {| req_url := url;
       req_params :=
         set_param (set_param p "monitoring_location_id" (str_join "," batch))
           "time" tr;
       req_timeout := tmo |} in
  dict_of base = Ok p ->
  batches !! i = Some batch ->
  (forall (j : nat) b, (j < i)%nat -> batches !! j = Some b ->
     exists d, server (length log + j) (mk b) = Ok (JObj d)) ->
  unusable (server (length log + i) (mk batch)) ->
  fetch_batches url base tr tmo batches feats meta log
  = (Raise (failure (server (length log + i) (mk batch))),
     log ++ (mk <$> take (S i) batches)).
Proof.
  intros mk Hp. revert batches feats meta log.
  induction i as [|i IH]; intros batches feats meta log Hi Hbefore Hbad.
  - destruct batches as [|b batches]; [done|]. injection Hi as ->.
    cbn [fetch_batches]. unfold io_bind at 1, lift at 1. rewrite Hp.
    unfold io_bind at 1, requests_get_json at 1.
    rewrite Nat.add_0_r in Hbad |- *. fold (mk batch).
    destruct (server (length log) (mk batch)) as [data|e] eqn:Hsrv.
    + unfold io_bind at 1, lift at 1.
      destruct data; try (cbn; by rewrite take_0).
      by destruct (Hbad items).
    + cbn. by rewrite take_0.
  - destruct batches as [|b batches]; [done|]. simpl in Hi.
    cbn [fetch_batches]. unfold io_bind at 1, lift at 1. rewrite Hp.
    unfold io_bind at 1, requests_get_json at 1. fold (mk b).
    destruct (Hbefore 0%nat b ltac:(lia) eq_refl) as [d Hd].
    rewrite Nat.add_0_r in Hd. rewrite Hd.
    unfold io_bind at 1, lift at 1. rewrite absorb_ok. cbn [fst snd].
    rewrite (IH batches); [| done | |].
    + rewrite length_app. cbn [length].
      replace (length log + 1 + i)%nat with (length log + S i)%nat by lia.
      by rewrite <- app_assoc.
    + intros j b' Hj Hb'. rewrite length_app. cbn [length].
      replace (length log + 1 + j)%nat with (length log + S j)%nat by lia.
      apply Hbefore; [lia|done].
    + rewrite length_app. cbn [length].
      by replace (length log + 1 + i)%nat with (length log + S i)%nat by lia.
Qed.

(** X6. The first reply that cannot be used ends the run: when the request
    for batch [i] fails, or its body is no JSON object, after the earlier
    replies were JSON objects, the fetch raises that failure. It has sent
    the requests for the batches up to [i], each once, and no other; the
    features of the earlier replies are not returned. *)
Theorem first_failure_ends_run (locations_json : json) (s : settings)
    (p : params) (i : nat) (batch : list string) :
  prepare locations_json = Ok s ->
  dict_of (dv_params_base s) = Ok p ->
  batches s !! i = Some batch ->
  (forall (j : nat) b, (j < i)%nat -> batches s !! j = Some b ->
     exists d, server j (request_for s p b) = Ok (JObj d)) ->
  unusable (server i (request_for s p batch)) ->
  fetch_daily_values_for_locations locations_json []
  = (Raise (failure (server i (request_for s p batch))),
     request_for s p <$> take (S i) (batches s)).
Proof.
  intros Hs Hp Hi Hbefore Hbad. rewrite (fetch_run_eq _ _ Hs).
  rewrite (fetch_batches_stops _ _ _ _ p _ _ _ _ i batch); try done.
Qed.

(** The metadata that a completed loop keeps are those of the first
    reply. *)
Lemma fetch_batches_meta url base tr tmo batches feats meta log
    feats' meta' log' :
  fetch_batches url base tr tmo batches feats meta log
  = (Ok (feats', meta'), log') ->
  exists reqs datas,
    log' = log ++ reqs
    /\ replies (length log) reqs datas
    /\ meta' = match meta with
               | Some m => Some m
               | None => without_features <$> head datas
               end.
Proof.
  revert feats meta log.
  induction batches as [|batch batches IH]; intros feats meta log.
  - cbn. intros [= <- <- <-]. exists [], []. rewrite !app_nil_r.
    split; [done|]. split; [apply replies_nil|]. by destruct meta.
  - cbn [fetch_batches]. unfold io_bind at 1, lift at 1.
    destruct (dict_of base) as [p|e]; [|discriminate].
    unfold io_bind at 1, requests_get_json at 1.
    set (req := {| req_url := url |}).
    destruct (server (length log) req) as [data|e] eqn:Hsrv; [|discriminate].
    unfold io_bind at 1, lift at 1.
    destruct (absorb data feats meta) as [st|e] eqn:Habs; [|discriminate].
    destruct (absorb_inv _ _ _ _ Habs) as [d ->].
    rewrite absorb_ok in Habs. injection Habs as <-. cbn [fst snd].
    intros Hrun. apply IH in Hrun as (reqs & datas & -> & Hrep & ->).
    exists (req :: reqs), (d :: datas). rewrite <- !app_assoc.
    split; [done|]. split.
    + rewrite length_app in Hrep. simpl in Hrep.
      replace (length log + 1)%nat with (S (length log)) in Hrep by lia.
      by apply (replies_cons _ _ _ _ _ Hsrv Hrep).
    + by destruct meta.
Qed.

Lemma dict_get_without_features (k : string) (d : dict) :
  k <> "features" -> dict_get k (without_features d) = dict_get k d.
Proof.
  intros Hk. unfold without_features, dict in *.
  induction d as [|[k' v] d IH]; [done|].
  rewrite filter_cons. cbn [fst dict_get].
  destruct (String.eqb_spec k' "features") as [->|Hne].
  - rewrite decide_False by (cbn; auto).
    apply String.eqb_neq in Hk as ->. exact IH.
  - rewrite decide_True by done. cbn [dict_get]. by rewrite IH.
Qed.

Lemma combine_other meta feats bs batches tr (k : string) :
  k ∉ computed_keys ->
  dict_get k (combine meta feats bs batches tr)
  = dict_get k (default [] meta).
Proof.
  unfold computed_keys. rewrite !not_elem_of_cons. intros (?&?&?&?&?&?&_).
  unfold combine. by rewrite !dict_get_set_ne.
Qed.

(** X7. The combined result of a completed run keeps the metadata of the
    first reply only: every entry other than the six that the fetch
    computes itself is the entry of the first reply, whatever the later
    replies hold; [batch_size] and [time_range] are the settings of the
    run. *)
Theorem combined_metadata_is_first_reply (locations_json : json)
    (combined : json) (log : list request) :
  fetch_daily_values_for_locations locations_json [] = (Ok combined, log) ->
  exists (s : settings) (datas : list dict) (cd : dict),
    prepare locations_json = Ok s
    /\ combined = JObj cd
    /\ replies 0 log datas
    /\ dict_get "batch_size" cd = Some (JInt (batch_size s))
    /\ dict_get "time_range" cd = Some (JStr (time_range s))
    /\ forall k, k ∉ computed_keys ->
         dict_get k cd = head datas ≫= dict_get k.
Proof.
  intros Hrun.
  destruct (prepare locations_json) as [s|e] eqn:Hs.
  2:{ rewrite (fetch_prepare_raises _ _ Hs) in Hrun. discriminate. }
  rewrite (fetch_run_eq _ _ Hs) in Hrun.
  destruct (fetch_batches _ _ _ _ _ _ _ _) as [[[feats meta]|e] log0] eqn:Hloop;
    [|discriminate].
  cbn in Hrun. injection Hrun as <- <-.
  apply fetch_batches_meta in Hloop as (reqs & datas & -> & Hrep & ->).
  destruct (combine_entries (without_features <$> head datas) feats
              (batch_size s) (batches s) (time_range s))
    as (_ & _ & _ & Hbs & _ & Htr).
  exists s, datas, (combine (without_features <$> head datas) feats
                      (batch_size s) (batches s) (time_range s)).
  split; [done|]. split; [done|]. split; [done|]. split; [done|].
  split; [done|].
  intros k Hk. rewrite combine_other by done.
  destruct datas as [|d datas]; [done|]. cbn.
  apply dict_get_without_features.
  intros ->. apply Hk. unfold computed_keys. left.
Qed.

(** X8. When the part before the loop completes with a positive batch
    size, the batches hold every extracted identifier exactly once: the
    identifiers are pairwise different, the batches in order make up the
    list of identifiers, and no batch is empty or longer than the batch
    size. *)
Theorem every_identifier_in_one_batch (locations_json : json) (s : settings) :
  prepare locations_json = Ok s ->
  0 < batch_size s ->
  NoDup (ids s)
  /\ concat (batches s) = ids s
  /\ Forall (fun b => b <> [] /\ Z.of_nat (length b) <= batch_size s)
       (batches s).
Proof.
  intros Hs Hpos.
  apply prepare_ok_inv in Hs
    as (_ & _ & _ & _ & _ & _ & _ & Hids & Hne & Hchunks).
  split; [by eapply extract_location_ids_NoDup|].
  rewrite chunk_list_windows in Hchunks by done. injection Hchunks as <-.
  set (k := Z.to_nat (batch_size s)).
  set (n := Z.of_nat (length (ids s))).
  destruct (range_len_pos n (batch_size s) Hpos ltac:(lia))
    as (Hm0 & Hcover & Hlast & Hnil).
  set (m := Z.to_nat (range_len 0 n (batch_size s))) in *.
  split.
  - rewrite concat_windows. apply take_ge. subst m k n. nia.
  - apply Forall_fmap, Forall_forall. intros i Hi%elem_of_seq. simpl. split.
    + intros Hempty. apply (f_equal length) in Hempty.
      rewrite length_take, length_drop in Hempty. simpl in Hempty.
      subst m k n. nia.
    + rewrite length_take. subst k. lia.
Qed.

End Requests.

Lemma negative_batch_size_requests_nothing_witness :
  daily_values.fetch_daily_values_for_locations
    (W := demo.world "-5" "90") demo.locations []
  = (Ok (JObj [("features", JArr []); ("numberReturned", JInt 0);
               ("total_features", JInt 0); ("batch_size", JInt (-5));
               ("batches", JInt 0);
               ("time_range",
                JStr "2023-08-16T22:13:20Z/2023-11-14T22:13:20Z")]),
     []).
Proof.
  apply (negative_batch_size_requests_nothing (W := demo.world "-5" "90")
           demo.locations
           {| daily_values.dv_base_url := "https://api.example/daily";
              daily_values.dv_params_base := JObj [];
              daily_values.batch_size := -5;
              daily_values.timeout := 30;
              daily_values.ids := ["USGS-1"; "USGS-2"; "USGS-3"];
              daily_values.time_range :=
                "2023-08-16T22:13:20Z/2023-11-14T22:13:20Z";
              daily_values.batches := [] |}).
  - vm_compute. reflexivity.
  - simpl. lia.
Defined.

Lemma no_identifiers_no_requests_witness :
  daily_values.fetch_daily_values_for_locations
    (W := demo.world "2" "90") (JObj [("type", JStr "FeatureCollection")]) []
  = (Raise (RuntimeError "No monitoring location IDs found in locations JSON"),
     []).
Proof.
  apply (no_identifiers_no_requests (W := demo.world "2" "90") _
           "https://api.example/daily" "{}" (JObj []));
    solve [vm_compute; reflexivity | discriminate].
Defined.

Lemma requests_follow_batches_witness :
  (daily_values.fetch_daily_values_for_locations
     (W := demo.world "2" "90") demo.locations []).2
  = daily_values.request_for (B := demo.builtins) demo.run_settings []
      <$> [["USGS-1"; "USGS-2"]; ["USGS-3"]].
Proof.
  destruct (daily_values.fetch_daily_values_for_locations
              (W := demo.world "2" "90") demo.locations []) as [r log] eqn:Hrun.
  destruct (requests_follow_batches (W := demo.world "2" "90") demo.locations
              demo.run_settings [] r log) as (n & _ & _ & Hall).
  - vm_compute. reflexivity.
  - reflexivity.
  - exact Hrun.
  - apply Hall.
    assert (is_ok (daily_values.fetch_daily_values_for_locations
                     (W := demo.world "2" "90") demo.locations []).1 = true)
      as Hok by (vm_compute; reflexivity).
    by rewrite Hrun in Hok.
Defined.

Lemma first_failure_ends_run_witness :
  daily_values.fetch_daily_values_for_locations
    (W := demo.world_failing "2" "90") demo.locations []
  = (Raise (RequestException "503 Server Error"),
     daily_values.request_for (B := demo.builtins) demo.run_settings []
       <$> [["USGS-1"; "USGS-2"]; ["USGS-3"]]).
Proof.
  apply (first_failure_ends_run (W := demo.world_failing "2" "90")
           demo.locations demo.run_settings [] 1 ["USGS-3"]).
  - vm_compute. reflexivity.
  - reflexivity.
  - reflexivity.
  - intros [|j] b Hj Hb; [|lia]. eexists. reflexivity.
  - intros d. discriminate.
Defined.

Lemma combined_metadata_is_first_reply_witness :
  exists cd,
    (daily_values.fetch_daily_values_for_locations
       (W := demo.world "2" "90") demo.locations []).1 = Ok (JObj cd)
    /\ dict_get "type" cd = Some (JStr "FeatureCollection").
Proof.
  destruct (daily_values.fetch_daily_values_for_locations
              (W := demo.world "2" "90") demo.locations [])
    as [[combined|e] log] eqn:Hrun.
  2:{ exfalso.
      assert (is_ok (daily_values.fetch_daily_values_for_locations
                       (W := demo.world "2" "90") demo.locations []).1 = true)
        as Hok by (vm_compute; reflexivity).
      rewrite Hrun in Hok. discriminate. }
  destruct (combined_metadata_is_first_reply (W := demo.world "2" "90")
              demo.locations combined log Hrun)
    as (s & datas & cd & _ & -> & [Hlen Hrep] & _ & _ & Hmeta).
  exists cd. split; [reflexivity|].
  rewrite Hmeta
    by (apply (bool_decide_unpack ("type" ∉ daily_values.computed_keys));
        vm_compute; exact I).
  assert (exists req, log !! 0%nat = Some req) as [req Hreq].
  { apply lookup_lt_is_Some_2.
    assert (length (daily_values.fetch_daily_values_for_locations
                      (W := demo.world "2" "90") demo.locations []).2 = 2%nat)
      as Hlog by (vm_compute; reflexivity).
    rewrite Hrun in Hlog. simpl in Hlog. lia. }
  destruct (Hrep 0%nat req Hreq) as (d & Hd & Hsrv).
  destruct datas as [|d0 datas]; [discriminate|]. injection Hd as ->.
  simpl in Hsrv. injection Hsrv as <-. reflexivity.
Defined.

Lemma every_identifier_in_one_batch_witness :
  NoDup ["USGS-1"; "USGS-2"; "USGS-3"]
  /\ concat [["USGS-1"; "USGS-2"]; ["USGS-3"]] = ["USGS-1"; "USGS-2"; "USGS-3"].
Proof.
  destruct (every_identifier_in_one_batch (W := demo.world "2" "90")
              demo.locations demo.run_settings) as (Hnd & Hcat & _).
  - vm_compute. reflexivity.
  - simpl. lia.
  - split; [exact Hnd|exact Hcat].
Defined.

(** ** The Joiner and the Cleaner: columns *)

Lemma first_missing_cases (cs : list string) (df : DataFrame) :
  (forall c, c ∈ cs -> c ∈ columns df)
  \/ exists c, first_missing cs df = Some c /\ c ∈ cs /\ (c ∉ columns df).
Proof.
  destruct (first_missing cs df) as [c|] eqn:E.
  - right. exists c. split; [done|]. by apply first_missing_some.
  - left. by apply first_missing_none.
Qed.

(** X9. The Joiner raises when it lacks a column or finds its key twice.
    If the location table lacks one of the seven columns it selects, the
    [KeyError] names a missing one. If it has the seven, with one column
    labelled [id], and the daily-values table lacks its key, the
    [KeyError] is for [monitoring_location_id], as for a table without any
    column. If it has the seven, with more than one column labelled [id],
    and the daily-values table has its key, the Joiner raises a
    [ValueError]. *)
Theorem joiner_missing_column (dv_df loc_df : DataFrame) :
  (~ (forall c, c ∈ data_loader.loc_keep -> c ∈ columns loc_df) ->
   exists c, c ∈ data_loader.loc_keep /\ (c ∉ columns loc_df)
     /\ data_loader.join_daily_values_with_locations dv_df loc_df
        = Raise (KeyError c))
  /\ ((forall c, c ∈ data_loader.loc_keep -> c ∈ columns loc_df) ->
      (length (named "id" loc_df) = 1%nat ->
       "monitoring_location_id" ∉ columns dv_df ->
       data_loader.join_daily_values_with_locations dv_df loc_df
       = Raise (KeyError "monitoring_location_id"))
      /\ ((1 < length (named "id" loc_df))%nat ->
          "monitoring_location_id" ∈ columns dv_df ->
          data_loader.join_daily_values_with_locations dv_df loc_df
          = Raise ValueError)).
Proof.
  assert (Hnd : NoDup data_loader.loc_keep).
  { apply (bool_decide_unpack (NoDup _)). vm_compute. exact I. }
  unfold data_loader.join_daily_values_with_locations. split.
  - intros Hnot. unfold getitem_list.
    destruct (first_missing_cases data_loader.loc_keep loc_df)
      as [Hall|(c & Hc & Hin & Hnin)]; [done|].
    exists c. rewrite Hc. done.
  - intros Hall.
    destruct (getitem_list loc_df data_loader.loc_keep) as [lf|e] eqn:Hlf.
    2:{ exfalso. unfold getitem_list in Hlf.
        by rewrite (proj2 (first_missing_none _ _) Hall) in Hlf. }
    cbn [bind]. unfold merge_left.
    rewrite (getitem_getitem_list _ _ _ "id" ValueError Hlf Hnd) by by left.
    split.
    + intros Hone Hkey. unfold getitem at 1.
      destruct (named "id" loc_df) as [|[c s] [|? ?]]; try discriminate.
      cbn [bind]. unfold getitem.
      by rewrite (proj2 (named_nil _ _) Hkey).
    + intros Hmany Hkey. unfold getitem at 1.
      destruct (named "id" loc_df) as [|[c s] [|? ?]]; cbn in Hmany;
        try lia. done.
Qed.

Lemma joiner_missing_column_witness :
  data_loader.join_daily_values_with_locations
    {| nrows := 0; cols := [] |} demo.loc_df
  = Raise (KeyError "monitoring_location_id").
Proof.
  apply (joiner_missing_column {| nrows := 0; cols := [] |} demo.loc_df).
  - apply Forall_forall.
    apply (bool_decide_unpack
             (Forall (fun c => c ∈ columns demo.loc_df) data_loader.loc_keep)).
    vm_compute. exact I.
  - reflexivity.
  - apply not_elem_of_nil.
Defined.

(** *** Labels through a lookup join *)

Lemma suffix_overlap (ov : list string) (sfx c c' : string) :
  sfx = "_x" \/ sfx = "_y" -> plain c -> c ∈ ov -> suffix ov sfx c' <> c.
Proof.
  intros Hsfx Hplain Hov. unfold suffix. case_bool_decide as Hin.
  - destruct Hsfx as [-> | ->];
      [by apply suffix_x_not_plain|by apply suffix_y_not_plain].
  - by intros ->.
Qed.

Lemma elem_of_columns_rename_id (df : DataFrame) (c : string) :
  c <> "id" -> c <> "id_x" ->
  c ∈ columns (rename df [("id_x", "id")]) <-> c ∈ columns df.
Proof.
  intros Hid Hidx. rewrite columns_rename, list_elem_of_fmap. split.
  - intros (c' & Hc' & Hin). rewrite rename_label_single in Hc'.
    destruct (String.eqb_spec "id_x" c'); by subst.
  - intros Hin. exists c. split; [|done]. rewrite rename_label_single.
    destruct (String.eqb_spec "id_x" c); [by subst|done].
Qed.

(** The labels other than [id] after one lookup join: those of the table,
    and the description label if the table did not have it. *)
Lemma lookup_join_columns (left lookup small merged dropped : DataFrame)
    (label left_on c : string) :
  getitem_list lookup ["id"; label] = Ok small ->
  merge_left left (drop_duplicates small) left_on "id" = Ok merged ->
  drop_columns merged ["id"] = Ok dropped ->
  plain label -> plain c -> c <> "id" ->
  c ∈ columns dropped <->
  if decide (c = label) then c ∉ columns left else c ∈ columns left.
Proof.
  intros Hsmall Hmerge Hdrop Hlabel Hplain Hid.
  apply merge_left_ok in Hmerge as (lkey & rkey & _ & _ & ->).
  rewrite (elem_of_columns_drop _ _ _ _ Hdrop), list_elem_of_singleton.
  rewrite columns_merged, elem_of_app, !list_elem_of_fmap.
  set (ov := filter _ _).
  assert (Hright : forall c', c' ∈ columns (drop_duplicates small)
                              <-> c' = "id" \/ c' = label).
  { intros c'. rewrite columns_drop_duplicates.
    rewrite (elem_of_columns_getitem_list _ _ _ _ Hsmall).
    rewrite elem_of_cons, list_elem_of_singleton. done. }
  assert (Hov : c ∈ ov <-> c ∈ columns left /\ c = label).
  { unfold ov. rewrite elem_of_overlap, Hright. split; [|tauto].
    intros [? [?|?]]; done. }
  destruct (decide (c = label)) as [->|Hne].
  - split.
    + intros [[(c' & Hc' & Hin)|(c' & Hc' & Hin)] _] Hleft.
      * symmetry in Hc'. revert Hc'. apply suffix_overlap; auto. by apply Hov.
      * symmetry in Hc'. revert Hc'. apply suffix_overlap; auto. by apply Hov.
    + intros Hleft. split; [|done]. right. exists label. split.
      * symmetry. apply suffix_plain; auto. rewrite Hov. tauto.
      * apply Hright. by right.
  - split.
    + intros [[(c' & Hc' & Hin)|(c' & Hc' & Hin)] _].
      * symmetry in Hc'. apply suffix_plain in Hc'; [by subst|auto|done|].
        rewrite Hov. tauto.
      * symmetry in Hc'. apply suffix_plain in Hc'; [|auto|done|].
        -- subst c'. apply Hright in Hin as [?|?]; done.
        -- rewrite Hov. tauto.
    + intros Hleft. split; [|done]. left. exists c. split; [|done].
      symmetry. apply suffix_plain; auto. rewrite Hov. tauto.
Qed.

(** The description column after one lookup join, for a table that did not
    have the description label: the column of the lookup at the rows that
    the join pairs the rows of the table with. *)
Lemma lookup_join_right (left lookup small merged dropped : DataFrame)
    (label left_on : string) :
  getitem_list lookup ["id"; label] = Ok small ->
  merge_left left (drop_duplicates small) left_on "id" = Ok merged ->
  drop_columns merged ["id"] = Ok dropped ->
  plain label -> label <> "id" -> label ∉ columns left ->
  exists lkey rkey,
    getitem left left_on ValueError = Ok lkey
    /\ getitem (drop_duplicates small) "id" ValueError = Ok rkey
    /\ named label dropped
       = (fun nc : string * Series =>
            (label, reindex (match_rows lkey rkey).*2 nc.2))
           <$> named label (drop_duplicates small).
Proof.
  intros Hsmall Hmerge Hdrop Hplain Hid Hleft.
  apply merge_left_ok in Hmerge as (lkey & rkey & Hlkey & Hrkey & ->).
  exists lkey, rkey. split; [done|]. split; [done|].
  rewrite (named_drop_columns _ _ _ _ Hdrop)
    by (by rewrite list_elem_of_singleton).
  set (ov := filter _ _).
  assert (Hov : label ∉ ov).
  { unfold ov. rewrite elem_of_overlap. tauto. }
  unfold named, merged_cols. cbn [cols].
  rewrite filter_app, !filter_label_fmap.
  rewrite (filter_none _ (cols left)).
  2:{ intros [c' s] Hin. cbn [fst]. rewrite String.eqb_eq.
      rewrite (suffix_plain ov "_x" label c') by auto.
      intros ->. apply Hleft, elem_of_columns. eauto. }
  rewrite fmap_nil, app_nil_l.
  rewrite (filter_ext_in _
             (fun nc : string * Series => String.eqb nc.1 label = true)).
  - apply list_fmap_ext.
    intros _ [c' s] [Hc Hin]%list_elem_of_lookup_2%list_elem_of_filter.
    cbn [fst snd] in *. apply String.eqb_eq in Hc as ->.
    f_equal. by apply suffix_plain; auto.
  - intros [c' s] Hin. cbn [fst]. rewrite !String.eqb_eq.
    by apply suffix_plain; auto.
Qed.

Lemma length_named_le_1 (df : DataFrame) (c : string) :
  NoDup (columns df) -> (length (named c df) <= 1)%nat.
Proof.
  unfold columns, named. induction (cols df) as [|[c' s] l IH]; [simpl; lia|].
  rewrite fmap_cons, NoDup_cons. intros [Hc' Hnd]. rewrite filter_cons.
  cbn [fst] in *. destruct (decide (String.eqb c' c = true)) as [E|E].
  - apply String.eqb_eq in E as ->.
    rewrite (filter_none _ l); [simpl; lia|].
    intros [c0 s0] Hin. cbn [fst]. rewrite String.eqb_eq. intros ->.
    apply Hc', list_elem_of_fmap. by exists (c, s0).
  - by apply IH.
Qed.


Lemma named_not_nil (df : DataFrame) (c : string) :
  named c df <> [] <-> c ∈ columns df.
Proof.
  rewrite named_nil. destruct (decide (c ∈ columns df)); tauto.
Qed.

(** *** The columns of the cleaned table *)

Ltac final_plain_label :=
  split;
    [apply (bool_decide_unpack (_ ∈ eda.final_cols)); vm_compute; exact I
    |split; [split; discriminate|repeat split; discriminate]].

Section CleanedColumns.
Context `{C : Conversions}.
Import eda.

Lemma required_columns_cases (c : string) :
  c ∈ required_columns -> c = "id_x" \/ final_plain c.
Proof.
  revert c. apply Forall_forall. unfold required_columns.
  constructor; [by left|].
  repeat (constructor; [right; final_plain_label|]). constructor.
Qed.

Lemma copied_columns_cases (c : string) :
  c ∈ copied_columns ->
  final_plain c /\ c <> "time" /\ c <> "last_modified" /\ c <> "value".
Proof.
  revert c. apply Forall_forall. unfold copied_columns.
  repeat (constructor;
          [split; [final_plain_label|repeat split; discriminate]|]).
  constructor.
Qed.

Lemma final_cols_elem (c : string) :
  c ∈ final_cols <->
  c = "id" \/ c = "parameter_name" \/ c = "statistic_description"
  \/ final_plain c.
Proof.
  split.
  - revert c. apply Forall_forall. unfold final_cols.
    constructor; [by left|].
    repeat (constructor;
            [first [ right; left; reflexivity
                   | right; right; left; reflexivity
                   | right; right; right; final_plain_label ]|]).
    constructor.
  - intros [->|[->|[->|[H _]]]]; [| | |done];
      apply (bool_decide_unpack (_ ∈ final_cols)); vm_compute; exact I.
Qed.

(** The labels of the table before the lookup joins are those of the joined
    table, [qualifier] apart. *)
Lemma cleaning_trimmed_columns joined_df time last_modified value filtered
    trimmed (c : string) :
  getitem joined_df "time" AttributeError = Ok time ->
  getitem joined_df "last_modified" ValueError = Ok last_modified ->
  getitem joined_df "value" TypeError = Ok value ->
  dropna (typed joined_df time last_modified value) "value" = Ok filtered ->
  (if has_column "qualifier" filtered
   then drop_columns filtered ["qualifier"] else Ok filtered) = Ok trimmed ->
  c <> "qualifier" -> c ∈ columns trimmed <-> c ∈ columns joined_df.
Proof.
  intros Ht Hl Hv Hd Hq Hc.
  rewrite (trimmed_columns _ _ _ Hq) by done.
  rewrite (columns_dropna _ _ _ Hd).
  by rewrite (columns_typed _ _ _ _ _ _ _ Ht Hl Hv).
Qed.


(** A final column that comes from the joined table is in the joined
    table. *)
Lemma cleaning_has_final_plain joined_df param_df stat_df out (c : string) :
  clean_and_transform_data joined_df param_df stat_df = Ok out ->
  final_plain c -> c ∈ columns joined_df.
Proof.
  intros Hrun Hc. pose proof (clean_ok _ _ _ _ Hrun) as Hsteps.
  destruct (cleaning_rows _ _ _ _ Hsteps)
    as (time & lm & value & idx & Htime & Hlm & Hvalue & _ & _ & Hplain & _).
  destruct Hsteps.
  assert (c ∈ columns out) as Hout.
  { apply (elem_of_columns_getitem_list _ _ _ _ Hselect). by destruct Hc. }
  rewrite <- (columns_typed joined_df time lm value
                AttributeError ValueError TypeError) by done.
  apply named_not_nil. intros E.
  apply (proj2 (named_not_nil out c)); [done|].
  by rewrite (Hplain c), E.
Qed.

Lemma cleaner_requires_columns_aux joined_df param_df stat_df out :
  clean_and_transform_data joined_df param_df stat_df = Ok out ->
  ("parameter_name" ∉ columns joined_df)
  /\ ("statistic_description" ∉ columns joined_df).
Proof.
  intros Hrun. pose proof (clean_ok _ _ _ _ Hrun) as Hsteps.
  destruct Hsteps.
  assert (Hsel : forall c, c ∈ final_cols ->
            c ∈ columns (rename stat_dropped [("id_x", "id")])).
  { by apply getitem_list_ok in Hselect as [? _]. }
  assert (Htrim : forall c, c <> "qualifier" ->
            c ∈ columns trimmed <-> c ∈ columns joined_df).
  { intros c Hc. eapply cleaning_trimmed_columns; eassumption. }
  assert (Hpn : plain "parameter_name") by (split; discriminate).
  assert (Hsd : plain "statistic_description") by (split; discriminate).
  split.
  - intros Hin.
    assert ("parameter_name" ∈ columns stat_dropped) as H1.
    { apply (elem_of_columns_rename_id _ "parameter_name"); [done..|].
      apply Hsel, final_cols_elem. tauto. }
    apply (lookup_join_columns _ _ _ _ _ _ _ _ Hstat_small Hwith_stat
             Hstat_dropped Hsd Hpn) in H1; [|done].
    rewrite decide_False in H1 by done.
    apply (lookup_join_columns _ _ _ _ _ _ _ _ Hparam_small Hwith_param
             Hparam_dropped Hpn Hpn) in H1; [|done].
    rewrite decide_True in H1 by done.
    apply H1, Htrim; done.
  - intros Hin.
    assert ("statistic_description" ∈ columns stat_dropped) as H1.
    { apply (elem_of_columns_rename_id _ "statistic_description"); [done..|].
      apply Hsel, final_cols_elem. tauto. }
    apply (lookup_join_columns _ _ _ _ _ _ _ _ Hstat_small Hwith_stat
             Hstat_dropped Hsd Hsd) in H1; [|done].
    rewrite decide_True in H1 by done.
    apply H1.
    apply (lookup_join_columns _ _ _ _ _ _ _ _ Hparam_small Hwith_param
             Hparam_dropped Hpn Hsd); [done|].
    rewrite decide_False by done. apply Htrim; done.
Qed.

(** X10. What the Cleaner needs to complete. The joined table has the
    fourteen columns that the Cleaner reads, among them [id_x], and none
    labelled [id], [parameter_name] or [statistic_description]; each lookup
    table has its [id] and its description column. *)
Theorem cleaner_requires_columns joined_df param_df stat_df out :
  clean_and_transform_data joined_df param_df stat_df = Ok out ->
  (forall c, c ∈ required_columns -> c ∈ columns joined_df)
  /\ ("id" ∉ columns joined_df)
  /\ ("parameter_name" ∉ columns joined_df)
  /\ ("statistic_description" ∉ columns joined_df)
  /\ "id" ∈ columns param_df /\ "parameter_name" ∈ columns param_df
  /\ "id" ∈ columns stat_df /\ "statistic_description" ∈ columns stat_df.
Proof.
  intros Hrun. pose proof (clean_ok _ _ _ _ Hrun) as Hsteps.
  pose proof (cleaner_requires_columns_aux _ _ _ _ Hrun) as Haux.
  pose proof (clean_out_has_id _ _ _ _ Hrun) as Hid_out.
  pose proof (cleaning_rows _ _ _ _ Hsteps) as Hrows.
  destruct Hsteps.
  destruct Hrows
    as (time' & lm' & value' & idx & Htime' & Hlm' & Hvalue' & _ & _ & Hplain
        & Hid & Hnoid & _).
  rewrite Htime in Htime'. injection Htime' as <-.
  rewrite Hlast_modified in Hlm'. injection Hlm' as <-.
  rewrite Hvalue in Hvalue'. injection Hvalue' as <-.
  assert (Hsel : forall c, c ∈ final_cols ->
            c ∈ columns (rename stat_dropped [("id_x", "id")])).
  { by apply getitem_list_ok in Hselect as [? _]. }
  assert (Htrim : forall c, c <> "qualifier" ->
            c ∈ columns trimmed <-> c ∈ columns joined_df).
  { intros c Hc. eapply cleaning_trimmed_columns; eassumption. }
  assert (Hpn : plain "parameter_name") by (split; discriminate).
  assert (Hsd : plain "statistic_description") by (split; discriminate).
  split; [|split; [done|split; [|split]]].
  - intros c Hc. apply required_columns_cases in Hc as [->|Hc].
    + apply named_not_nil. intros E. rewrite E in Hid.
      by apply (proj2 (named_not_nil out "id")) in Hid.
    + destruct Hc as (Hfinal & ? & ? & ? & ?).
      assert (c ∈ columns out) as Hout
        by (by apply (elem_of_columns_getitem_list _ _ _ _ Hselect)).
      rewrite <- (columns_typed joined_df time last_modified value
                    AttributeError ValueError TypeError) by done.
      apply named_not_nil. intros E.
      apply (proj2 (named_not_nil out c)); [done|].
      by rewrite (Hplain c), E.
  - exact (proj1 Haux).
  - exact (proj2 Haux).
  - apply getitem_list_ok in Hparam_small as [Hp _].
    apply getitem_list_ok in Hstat_small as [Hs _].
    split; [apply Hp; left|]. split; [apply Hp; right; left|].
    split; [apply Hs; left|apply Hs; right; left].
Qed.

End CleanedColumns.

Lemma cleaner_requires_columns_witness :
  "id_x" ∈ columns demo.joined_df /\ ("id" ∉ columns demo.joined_df).
Proof.
  destruct (cleaner_requires_columns (C := demo.conversions) demo.joined_df
              demo.param_df demo.stat_df demo.cleaned_df)
    as (Hreq & Hid & _).
  - vm_compute. reflexivity.
  - split; [|exact Hid]. apply Hreq. left.
Defined.

(** *** Rows of the cleaned table *)

Section CleanedRows.
Context `{C : Conversions}.
Import eda.

Lemma named_typed_length joined_df time last_modified value e1 e2 e3 c :
  getitem joined_df "time" e1 = Ok time ->
  getitem joined_df "last_modified" e2 = Ok last_modified ->
  getitem joined_df "value" e3 = Ok value ->
  length (named c (typed joined_df time last_modified value))
  = length (named c joined_df).
Proof.
  intros Ht Hl Hv.
  pose proof (getitem_ok_columns _ _ _ _ Ht) as Ht'.
  pose proof (getitem_ok_columns _ _ _ _ Hl) as Hl'.
  pose proof (getitem_ok_columns _ _ _ _ Hv) as Hv'.
  assert (Hstep : forall df c' s, c' ∈ columns df ->
            length (named c (setitem df c' s)) = length (named c df)).
  { intros df c' s Hc'. destruct (decide (c = c')) as [->|Hne].
    - by rewrite named_setitem_eq, length_fmap.
    - by rewrite named_setitem_ne. }
  unfold typed. rewrite !Hstep; auto using elem_of_columns_setitem.
Qed.

(** The rows and the columns that a completed run of the Cleaner keeps. *)
Lemma cleaning_keeps_rows joined_df param_df stat_df out :
  clean_and_transform_data joined_df param_df stat_df = Ok out ->
  exists (time last_modified value : Series) (idx : list nat),
    getitem joined_df "time" AttributeError = Ok time
    /\ getitem joined_df "last_modified" ValueError = Ok last_modified
    /\ getitem joined_df "value" TypeError = Ok value
    /\ nrows out = length idx
    /\ (forall i, i ∈ idx <->
          (i < nrows joined_df)%nat
          /\ exists q, to_numeric (iloc value i) = Num q)
    /\ (forall c e s, c ∈ copied_columns -> getitem joined_df c e = Ok s ->
          getitem out c e = Ok ((fun i => iloc s i) <$> idx))
    /\ (forall e s, getitem joined_df "id_x" e = Ok s ->
          getitem out "id" e = Ok ((fun i => iloc s i) <$> idx))
    /\ (forall e, getitem out "value" e
                  = Ok ((fun i => to_numeric (iloc value i)) <$> idx))
    /\ (forall e,
          getitem out "time" e
          = Ok ((fun i =>
                   iloc (to_datetime
                           ((fun c => str_strip (astype_str c)) <$> time)) i)
                  <$> idx))
    /\ (forall e, getitem out "last_modified" e
                  = Ok ((fun i => iloc (to_datetime_utc last_modified) i)
                          <$> idx)).
Proof.
  intros Hrun. pose proof (clean_ok _ _ _ _ Hrun) as Hsteps.
  destruct (cleaning_rows _ _ _ _ Hsteps)
    as (time & lm & value & idx & Htime & Hlm & Hvalue & Hn & Hidx & Hplain
        & Hid & _ & _).
  pose proof (getitem_ok_columns _ _ _ _ Htime) as Htime_in.
  pose proof (getitem_ok_columns _ _ _ _ Hlm) as Hlm_in.
  pose proof (getitem_ok_columns _ _ _ _ Hvalue) as Hvalue_in.
  exists time, lm, value, idx.
  split; [done|]. split; [done|]. split; [done|]. split; [done|].
  split.
  { intros i. by rewrite Hidx, elem_of_survivors. }
  assert (Hget : forall c e, final_plain c ->
            getitem out c e
            = map_result (reindex (Some <$> idx))
                (getitem (typed joined_df time lm value) c e)).
  { intros c e Hc. apply getitem_fmap. by apply Hplain. }
  split.
  { intros c e s (Hc & ? & ? & ?)%copied_columns_cases Hs.
    rewrite Hget by done. unfold getitem.
    rewrite (named_typed _ _ _ _ _ Htime_in Hlm_in Hvalue_in) by done.
    fold (getitem joined_df c e). rewrite Hs. cbn [map_result].
    by rewrite reindex_series. }
  split.
  { intros e s Hs. rewrite (getitem_relabel _ _ _ _ _ _ _ Hid Hs).
    by rewrite reindex_series. }
  split.
  { intros e. rewrite Hget by apply final_plain_value.
    rewrite (getitem_typed_value _ _ _ _ _ _ Htime_in Hlm_in Hvalue).
    cbn [map_result]. rewrite reindex_series. f_equal.
    apply list_fmap_ext. intros _ i _. by rewrite iloc_fmap. }
  split.
  { intros e. rewrite Hget by apply final_plain_time.
    rewrite (getitem_typed_time _ _ _ _ _ _ _ _ Htime Hlm Hvalue).
    cbn [map_result]. by rewrite reindex_series. }
  intros e.
  assert (final_plain "last_modified") as Hfp by final_plain_label.
  rewrite Hget by done.
  assert (getitem (typed joined_df time lm value) "last_modified" e
          = Ok (to_datetime_utc lm)) as ->.
  { unfold typed.
    rewrite getitem_setitem_ne
      by (done || auto using elem_of_columns_setitem).
    eapply getitem_setitem_eq.
    rewrite getitem_setitem_ne by done. exact Hlm. }
  cbn [map_result]. by rewrite reindex_series.
Qed.

(** X11. The Cleaner keeps rows whole. There is one list of input rows,
    made of the rows with a numeric value, in which the output rows are
    taken for all columns that come from the joined table: the ten columns that no step writes to hold the cells of
    those rows unchanged, [id] holds those of [id_x], and [value], [time]
    and [last_modified] hold the converted cells of those rows. *)
Theorem cleaner_keeps_rows_whole joined_df param_df stat_df out :
  clean_and_transform_data joined_df param_df stat_df = Ok out ->
  exists (time last_modified value : Series) (idx : list nat),
    getitem joined_df "time" AttributeError = Ok time
    /\ getitem joined_df "last_modified" ValueError = Ok last_modified
    /\ getitem joined_df "value" TypeError = Ok value
    /\ nrows out = length idx
    /\ (forall i, i ∈ idx <->
          (i < nrows joined_df)%nat
          /\ exists q, to_numeric (iloc value i) = Num q)
    /\ (forall c e s, c ∈ copied_columns -> getitem joined_df c e = Ok s ->
          getitem out c e = Ok ((fun i => iloc s i) <$> idx))
    /\ (forall e s, getitem joined_df "id_x" e = Ok s ->
          getitem out "id" e = Ok ((fun i => iloc s i) <$> idx))
    /\ (forall e, getitem out "value" e
                  = Ok ((fun i => to_numeric (iloc value i)) <$> idx))
    /\ (forall e,
          getitem out "time" e
          = Ok ((fun i =>
                   iloc (to_datetime
                           ((fun c => str_strip (astype_str c)) <$> time)) i)
                  <$> idx))
    /\ (forall e, getitem out "last_modified" e
                  = Ok ((fun i => iloc (to_datetime_utc last_modified) i)
                          <$> idx)).
Proof. apply cleaning_keeps_rows. Qed.

End CleanedRows.

Lemma cleaner_keeps_rows_whole_witness :
  exists idx : list nat,
    nrows demo.cleaned_df = length idx
    /\ getitem demo.cleaned_df "monitoring_location_id" ValueError
       = Ok ((fun i => iloc [Str "USGS-1"; Str "USGS-1"; Str "USGS-9"] i)
               <$> idx).
Proof.
  destruct (cleaner_keeps_rows_whole (C := demo.conversions) demo.joined_df
              demo.param_df demo.stat_df demo.cleaned_df)
    as (time & lm & value & idx & _ & _ & _ & Hn & _ & Hcopy & _).
  - vm_compute. reflexivity.
  - exists idx. split; [exact Hn|]. apply Hcopy; [|reflexivity].
    apply (bool_decide_unpack (_ ∈ eda.copied_columns)). vm_compute. exact I.
Defined.

(** *** The description columns *)

Section Descriptions.
Context `{C : Conversions}.
Import eda.

Lemma getitem_map_inv (df df' : DataFrame) (f : Series -> Series)
    (c : string) (e : exn) (s' : Series) :
  named c df' = (fun nc : string * Series => (c, f nc.2)) <$> named c df ->
  getitem df' c e = Ok s' ->
  exists s, getitem df c e = Ok s /\ s' = f s.
Proof.
  intros Hn Hs'. rewrite (getitem_fmap _ _ _ _ _ Hn) in Hs'.
  destruct (getitem df c e) as [s|]; [|discriminate].
  injection Hs' as <-. eauto.
Qed.

(** Where the two description columns of the cleaned table come from: the
    rows of the de-duplicated lookups that the two joins pair the rows
    with. *)
Lemma cleaning_descriptions joined_df param_df stat_df out :
  clean_and_transform_data joined_df param_df stat_df = Ok out ->
  exists (value pcode sid : Series) (psmall ssmall : DataFrame)
         (rkey1 rkey2 : Series),
    getitem joined_df "value" TypeError = Ok value
    /\ getitem joined_df "parameter_code" ValueError = Ok pcode
    /\ getitem joined_df "statistic_id" ValueError = Ok sid
    /\ getitem_list param_df ["id"; "parameter_name"] = Ok psmall
    /\ getitem_list stat_df ["id"; "statistic_description"] = Ok ssmall
    /\ getitem (drop_duplicates psmall) "id" ValueError = Ok rkey1
    /\ getitem (drop_duplicates ssmall) "id" ValueError = Ok rkey2
    /\ let idx1 := survivors value (nrows joined_df) in
       let pairs1 := match_rows (reindex (Some <$> idx1) pcode) rkey1 in
       let pairs2 :=
         match_rows
           (reindex (Some <$> pairs1.*1) (reindex (Some <$> idx1) sid))
           rkey2 in
       named "parameter_name" out
       = (fun nc : string * Series =>
            ("parameter_name",
             reindex (Some <$> pairs2.*1)
               (reindex pairs1.*2 (reindex (Some <$> kept psmall) nc.2))))
           <$> named "parameter_name" param_df
       /\ named "statistic_description" out
          = (fun nc : string * Series =>
               ("statistic_description",
                reindex pairs2.*2 (reindex (Some <$> kept ssmall) nc.2)))
              <$> named "statistic_description" stat_df
       /\ nrows out = length pairs2.
Proof.
  intros Hrun.
  destruct (cleaner_requires_columns_aux _ _ _ _ Hrun) as (Hnopn & Hnosd).
  pose proof (clean_ok _ _ _ _ Hrun) as Hsteps. destruct Hsteps.
  pose proof (getitem_ok_columns _ _ _ _ Htime) as Htime_in.
  pose proof (getitem_ok_columns _ _ _ _ Hlast_modified) as Hlm_in.
  pose proof (getitem_ok_columns _ _ _ _ Hvalue) as Hvalue_in.
  assert (Hpn : plain "parameter_name") by (split; discriminate).
  assert (Hsd : plain "statistic_description") by (split; discriminate).
  (* the table before the joins *)
  pose proof Hdropna as Hdropna'.
  apply dropna_ok in Hdropna' as (s & Hs & Hfiltered).
  rewrite (getitem_typed_value _ _ _ _ _ _ Htime_in Hlm_in Hvalue) in Hs.
  injection Hs as <-.
  rewrite nrows_typed, survivors_typed in Hfiltered.
  set (idx1 := survivors value (nrows joined_df)) in *.
  assert (Htrimmed : forall c, c <> "qualifier" -> c <> "time" ->
            c <> "last_modified" -> c <> "value" ->
            named c trimmed
            = (fun nc : string * Series => (c, reindex (Some <$> idx1) nc.2))
                <$> named c joined_df).
  { intros c ? ? ? ?. rewrite (trimmed_named _ _ _ Hqualifier) by done.
    rewrite Hfiltered, named_take_rows.
    by rewrite (named_typed _ _ _ _ _ Htime_in Hlm_in Hvalue_in). }
  assert (Htrim_cols : forall c, c <> "qualifier" ->
            c ∈ columns trimmed <-> c ∈ columns joined_df).
  { intros c Hc. eapply cleaning_trimmed_columns; eassumption. }
  (* the first join *)
  destruct (lookup_join _ _ _ _ _ _ _ Hparam_small Hwith_param Hparam_dropped)
    as (lkey1 & rkey1 & Hlkey1 & Hrkey1 & Hn3 & _ & _ & _ & Hcols3).
  destruct (lookup_join_right _ _ _ _ _ _ _ Hparam_small Hwith_param
              Hparam_dropped Hpn)
    as (lkey1' & rkey1' & Hlkey1' & Hrkey1' & Hright3); [done| |].
  { rewrite Htrim_cols; done. }
  rewrite Hlkey1 in Hlkey1'. injection Hlkey1' as <-.
  rewrite Hrkey1 in Hrkey1'. injection Hrkey1' as <-.
  destruct (getitem_map_inv _ _ _ _ _ _ (Htrimmed "parameter_code"
              ltac:(done) ltac:(done) ltac:(done) ltac:(done)) Hlkey1)
    as (pcode & Hpcode & ->).
  (* the second join *)
  destruct (lookup_join _ _ _ _ _ _ _ Hstat_small Hwith_stat Hstat_dropped)
    as (lkey2 & rkey2 & Hlkey2 & Hrkey2 & Hn4 & _ & _ & _ & Hcols4).
  destruct (lookup_join_right _ _ _ _ _ _ _ Hstat_small Hwith_stat
              Hstat_dropped Hsd)
    as (lkey2' & rkey2' & Hlkey2' & Hrkey2' & Hright4); [done| |].
  { rewrite (lookup_join_columns _ _ _ _ _ _ _ _ Hparam_small Hwith_param
               Hparam_dropped Hpn Hsd) by done.
    rewrite decide_False by done. rewrite Htrim_cols; done. }
  rewrite Hlkey2 in Hlkey2'. injection Hlkey2' as <-.
  rewrite Hrkey2 in Hrkey2'. injection Hrkey2' as <-.
  assert (Hsid3 : named "statistic_id" param_dropped
            = (fun nc : string * Series =>
                 ("statistic_id",
                  reindex (Some <$> (match_rows (reindex (Some <$> idx1) pcode)
                                       rkey1).*1) nc.2))
                <$> named "statistic_id" trimmed).
  { apply Hcols3; [left; split; discriminate|done..]. }
  destruct (getitem_map_inv _ _ _ _ _ _ Hsid3 Hlkey2) as (sid' & Hsid' & ->).
  destruct (getitem_map_inv _ _ _ _ _ _ (Htrimmed "statistic_id"
              ltac:(done) ltac:(done) ltac:(done) ltac:(done)) Hsid')
    as (sid & Hsid & ->).
  exists value, pcode, sid, param_small, stat_small, rkey1, rkey2.
  do 7 (split; [done|]).
  assert (Hnd : NoDup final_cols).
  { apply (bool_decide_unpack (NoDup final_cols)). vm_compute. exact I. }
  assert (Hrename : forall c, c <> "id" -> c <> "id_x" ->
            named c (rename stat_dropped [("id_x", "id")])
            = named c stat_dropped).
  { intros c ? ?. apply named_rename. intros c' _.
    rewrite rename_label_single.
    destruct (String.eqb_spec "id_x" c') as [<-|Hne]; [|done].
    split; intros; by subst. }
  cbv zeta. split; [|split].
  - rewrite (named_getitem_list _ _ _ _ Hselect) by
      (done || apply final_cols_elem; tauto).
    rewrite Hrename by done.
    rewrite Hcols4; [|by left|done..].
    rewrite Hright3.
    unfold drop_duplicates at 1. rewrite named_take_rows.
    rewrite (named_getitem_list _ _ _ _ Hparam_small);
      [| apply (bool_decide_unpack (NoDup _)); vm_compute; exact I
       | right; left].
    apply list_eq. intros i. rewrite !list_lookup_fmap.
    by destruct (named "parameter_name" param_df !! i).
  - rewrite (named_getitem_list _ _ _ _ Hselect) by
      (done || apply final_cols_elem; tauto).
    rewrite Hrename by done.
    rewrite Hright4.
    unfold drop_duplicates at 1. rewrite named_take_rows.
    rewrite (named_getitem_list _ _ _ _ Hstat_small);
      [| apply (bool_decide_unpack (NoDup _)); vm_compute; exact I
       | right; left].
    apply list_eq. intros i. rewrite !list_lookup_fmap.
    by destruct (named "statistic_description" stat_df !! i).
  - apply getitem_list_ok in Hselect as [_ ->]. cbn [nrows]. done.
Qed.

End Descriptions.

(** *** Rows of a de-duplicated lookup *)

Lemma row_eqb_refl (r : list cell) : row_eqb r r = true.
Proof. induction r as [|a r IH]; [done|]. simpl. by rewrite cell_eqb_refl. Qed.

Lemma row_eqb_trans (r1 r2 r3 : list cell) :
  row_eqb r1 r2 = true -> row_eqb r2 r3 = true -> row_eqb r1 r3 = true.
Proof.
  revert r2 r3. induction r1 as [|a r1 IH]; intros [|b r2] [|c r3]; try done.
  simpl. rewrite !andb_true_iff. intros [Hab H12] [Hbc H23].
  split; [by eapply cell_eqb_trans|by eapply IH].
Qed.

Lemma forallb_false_exists {A} (f : A -> bool) (l : list A) :
  forallb f l = false -> exists x, x ∈ l /\ f x = false.
Proof.
  induction l as [|x l IH]; [done|]. simpl.
  destruct (f x) eqn:E.
  - intros (y & Hy & Hf)%IH. exists y. split; [by right|done].
  - intros _. exists x. split; [by left|done].
Qed.

(** Every row of a table has an equal row among those that
    [drop_duplicates] keeps. *)
Lemma kept_represents (df : DataFrame) (j : nat) :
  (j < nrows df)%nat ->
  exists r, r ∈ kept df /\ row_eqb (row df r) (row df j) = true.
Proof.
  induction j as [j IH] using lt_wf_ind. intros Hj.
  destruct (decide (j ∈ kept df)) as [Hin|Hnin].
  { exists j. split; [done|apply row_eqb_refl]. }
  assert (exists j0, (j0 < j)%nat /\ row_eqb (row df j0) (row df j) = true)
    as (j0 & Hj0 & Heq).
  { unfold kept in Hnin. rewrite list_elem_of_filter, elem_of_seq in Hnin.
    destruct (forallb (fun j0 => negb (row_eqb (row df j0) (row df j)))
                (seq 0 j)) eqn:E.
    { destruct Hnin. split; [done|lia]. }
    apply forallb_false_exists in E as (j0 & Hin & Hneg).
    exists j0. apply elem_of_seq in Hin. split; [lia|].
    by destruct (row_eqb (row df j0) (row df j)). }
  destruct (IH j0 Hj0 ltac:(lia)) as (r & Hr & Hr0).
  exists r. split; [done|]. by eapply row_eqb_trans.
Qed.

(** The reduction of a lookup to its code and one description column. *)
Lemma lookup_small (lookup small : DataFrame) (label : string)
    (codes descriptions : Series) (e e' : exn) :
  "id" <> label ->
  getitem_list lookup ["id"; label] = Ok small ->
  getitem lookup "id" e = Ok codes ->
  getitem lookup label e' = Ok descriptions ->
  nrows small = nrows lookup
  /\ cols small = [("id", codes); (label, descriptions)].
Proof.
  intros Hne Hsmall Hcodes Hdescr.
  apply getitem_list_ok in Hsmall as [_ ->].
  apply getitem_ok in Hcodes as [c1 Hc1]. apply getitem_ok in Hdescr as [c2 Hc2].
  split; [done|]. cbn [cols]. rewrite !fmap_cons, fmap_nil. cbn [concat].
  rewrite Hc1, Hc2.
  assert (Hc1' : c1 = "id").
  { assert (Hin : (c1, codes) ∈ named "id" lookup) by (rewrite Hc1; left).
    by apply elem_of_named in Hin as [_ ?]. }
  assert (Hc2' : c2 = label).
  { assert (Hin : (c2, descriptions) ∈ named label lookup)
      by (rewrite Hc2; left).
    by apply elem_of_named in Hin as [_ ?]. }
  by subst.
Qed.

(** What a row of the joined table gets from a lookup in which every code
    has one description. *)
Lemma lookup_described (lookup small : DataFrame) (label : string)
    (codes descriptions rkey lkey : Series) (k : nat) (o : option nat) :
  "id" <> label ->
  getitem_list lookup ["id"; label] = Ok small ->
  getitem lookup "id" ValueError = Ok codes ->
  getitem lookup label ValueError = Ok descriptions ->
  one_description_per_code (nrows lookup) codes descriptions ->
  getitem (drop_duplicates small) "id" ValueError = Ok rkey ->
  (k, o) ∈ match_rows lkey rkey ->
  described (nrows lookup) codes descriptions (iloc lkey k)
    (match o with
     | Some j => iloc (reindex (Some <$> kept small) descriptions) j
     | None => NA
     end).
Proof.
  intros Hne Hsmall Hcodes Hdescr Hone Hrkey Hko.
  destruct (lookup_small _ _ _ _ _ _ _ Hne Hsmall Hcodes Hdescr)
    as [Hn Hcols].
  assert (Hrow : forall i, row small i = [iloc codes i; iloc descriptions i]).
  { intros i. unfold row. by rewrite Hcols. }
  assert (Hid : getitem small "id" ValueError = Ok codes).
  { apply getitem_ok. exists "id". unfold named. rewrite Hcols.
    rewrite !filter_cons, filter_nil. cbn [fst].
    rewrite decide_True by apply String.eqb_refl.
    rewrite decide_False; [done|]. rewrite String.eqb_eq. congruence. }
  unfold drop_duplicates in Hrkey.
  rewrite getitem_take_rows, Hid in Hrkey. cbn [map_result] in Hrkey.
  injection Hrkey as <-.
  assert (Hkept : forall j r, kept small !! j = Some r ->
            (r < nrows lookup)%nat
            /\ iloc (reindex (Some <$> kept small) codes) j = iloc codes r
            /\ iloc (reindex (Some <$> kept small) descriptions) j
               = iloc descriptions r).
  { intros j r Hj.
    pose proof (list_elem_of_lookup_2 _ _ _ Hj) as [Hr _]%elem_of_kept.
    rewrite !iloc_reindex, list_lookup_fmap, Hj. simpl. split; [lia|done]. }
  apply elem_of_match_rows in Hko as [Hk Ho].
  split.
  - intros j Hj Hcode. destruct o as [j'|].
    + destruct Ho as [Hj' Hmatch]. rewrite length_reindex, length_fmap in Hj'.
      destruct (lookup_lt_is_Some_2 _ _ Hj') as [r Hr].
      destruct (Hkept _ _ Hr) as (Hrn & Hrc & Hrd).
      rewrite Hrd. rewrite Hrc in Hmatch. apply Hone; [done..|].
      eapply cell_eqb_trans; [exact Hmatch|]. by rewrite cell_eqb_sym.
    + exfalso. rewrite <- Hn in Hj.
      destruct (kept_represents small j Hj) as (r & Hr & Hrows).
      apply list_elem_of_lookup in Hr as [j' Hj'].
      destruct (Hkept _ _ Hj') as (_ & Hrc & _).
      specialize (Ho j'). rewrite length_reindex, length_fmap in Ho.
      specialize (Ho (lookup_lt_Some _ _ _ Hj')).
      rewrite Hrc in Ho. rewrite !Hrow in Hrows. simpl in Hrows.
      apply andb_true_iff in Hrows as [Hrows _].
      rewrite (cell_eqb_trans _ _ _ Hrows Hcode) in Ho. discriminate.
  - intros Hnone. destruct o as [j'|]; [|done]. exfalso.
    destruct Ho as [Hj' Hmatch]. rewrite length_reindex, length_fmap in Hj'.
    destruct (lookup_lt_is_Some_2 _ _ Hj') as [r Hr].
    destruct (Hkept _ _ Hr) as (Hrn & Hrc & _).
    rewrite Hrc, (Hnone r Hrn) in Hmatch. discriminate.
Qed.

(** With keys that occur once, the [k]-th pair of a left join is that of
    the [k]-th row. *)
Lemma match_rows_unique_lookup (lkey rkey : Series) (k : nat) :
  distinct_keys rkey -> (k < length lkey)%nat ->
  length (match_rows lkey rkey) = length lkey
  /\ exists o, match_rows lkey rkey !! k = Some (k, o).
Proof.
  intros Hd Hk. pose proof (match_rows_unique lkey rkey Hd) as Hfst.
  assert (Hlen : length (match_rows lkey rkey) = length lkey).
  { rewrite <- (length_fmap fst), Hfst. apply length_seq. }
  split; [done|].
  destruct (lookup_lt_is_Some_2 (match_rows lkey rkey) k) as [[k' o] Hko];
    [lia|].
  assert ((match_rows lkey rkey).*1 !! k = Some k') as Hk'
    by (by rewrite list_lookup_fmap, Hko).
  rewrite Hfst in Hk'. apply lookup_seq in Hk' as [-> _]. eauto.
Qed.

Section Enrichment.
Context `{C : Conversions}.
Import eda.

Lemma labels_of_selection (df : DataFrame) (cs : list string) :
  (forall c, c ∈ cs -> length (named c df) = 1%nat) ->
  (concat ((fun c => named c df) <$> cs)).*1 = cs.
Proof.
  induction cs as [|c cs IH]; intros Hall; [done|].
  rewrite fmap_cons. cbn [concat]. rewrite fmap_app, IH.
  - assert (length (named c df) = 1%nat) as Hlen by (apply Hall; left).
    destruct (named c df) as [|[c' s] [|? ?]] eqn:E; try done.
    assert ((c', s) ∈ named c df) as Hin by (rewrite E; left).
    apply elem_of_named in Hin as [_ Hc']. simpl in Hc'. by subst.
  - intros c' Hc'. apply Hall. by right.
Qed.

(** X12. The cleaned table has the sixteen final columns and no other.
    When no label occurs twice in the joined table or in a lookup table,
    its labels are exactly the final columns in their order, each once;
    [qualifier], [id_y] and [country_name] are gone. *)
Theorem cleaned_table_columns joined_df param_df stat_df out :
  clean_and_transform_data joined_df param_df stat_df = Ok out ->
  (forall c, c ∈ columns out <-> c ∈ final_cols)
  /\ (NoDup (columns joined_df) -> NoDup (columns param_df) ->
      NoDup (columns stat_df) -> columns out = final_cols).
Proof.
  intros Hrun.
  destruct (cleaning_descriptions _ _ _ _ Hrun)
    as (value' & pcode & sid & psmall & ssmall & rkey1 & rkey2 & _ & _ & _
        & _ & _ & _ & _ & Hpn & Hsd & _).
  cbv zeta in Hpn, Hsd.
  pose proof (clean_ok _ _ _ _ Hrun) as Hsteps.
  destruct (cleaning_rows _ _ _ _ Hsteps)
    as (time & lm & value & idx & Htime & Hlm & Hvalue & _ & _ & Hplain
        & Hid & _ & _).
  destruct Hsteps.
  assert (Hcols : forall c, c ∈ columns out <-> c ∈ final_cols).
  { intros c. by apply (elem_of_columns_getitem_list _ _ _ _ Hselect). }
  split; [done|]. intros Hnd1 Hnd2 Hnd3.
  assert (Hnd : NoDup final_cols).
  { apply (bool_decide_unpack (NoDup final_cols)). vm_compute. exact I. }
  assert (Hle : forall c, c ∈ final_cols -> (length (named c out) <= 1)%nat).
  { intros c Hc. apply final_cols_elem in Hc as [->|[->|[->|Hc]]].
    - rewrite Hid, length_fmap. by apply length_named_le_1.
    - rewrite Hpn, length_fmap. by apply length_named_le_1.
    - rewrite Hsd, length_fmap. by apply length_named_le_1.
    - rewrite (Hplain c Hc), length_fmap.
      rewrite (named_typed_length _ _ _ _ _ _ _ _ Htime Hlm Hvalue).
      by apply length_named_le_1. }
  pose proof Hselect as Hsel. apply getitem_list_ok in Hsel as [_ Hout].
  rewrite Hout at 1. unfold columns at 1. cbn [cols].
  apply labels_of_selection. intros c Hc.
  rewrite <- (named_getitem_list _ _ _ _ Hselect) by done.
  pose proof (Hle c Hc).
  assert (named c out <> []) by (by apply named_not_nil, Hcols).
  destruct (named c out); [done|simpl in *; lia].
Qed.

(** X13. The descriptions that the lookup joins add. When every code of
    each lookup table has one description, the cleaned table has one row
    for each row of the joined table with a numeric value, in order, and
    in that row [parameter_name] is the description that the parameter
    lookup has for the row's [parameter_code], and
    [statistic_description] the one that the statistic lookup has for its
    [statistic_id]; a code that the lookup does not have gives a null. *)
Theorem lookup_joins_describe_codes joined_df param_df stat_df out
    (pcodes pnames scodes sdescriptions : Series) :
  clean_and_transform_data joined_df param_df stat_df = Ok out ->
  getitem param_df "id" ValueError = Ok pcodes ->
  getitem param_df "parameter_name" ValueError = Ok pnames ->
  one_description_per_code (nrows param_df) pcodes pnames ->
  getitem stat_df "id" ValueError = Ok scodes ->
  getitem stat_df "statistic_description" ValueError = Ok sdescriptions ->
  one_description_per_code (nrows stat_df) scodes sdescriptions ->
  exists (value pcode sid names descriptions : Series),
    getitem joined_df "value" TypeError = Ok value
    /\ getitem joined_df "parameter_code" ValueError = Ok pcode
    /\ getitem joined_df "statistic_id" ValueError = Ok sid
    /\ getitem out "parameter_name" ValueError = Ok names
    /\ getitem out "statistic_description" ValueError = Ok descriptions
    /\ length names = length (survivors value (nrows joined_df))
    /\ length descriptions = length (survivors value (nrows joined_df))
    /\ forall (k i : nat),
         survivors value (nrows joined_df) !! k = Some i ->
         described (nrows param_df) pcodes pnames (iloc pcode i)
           (iloc names k)
         /\ described (nrows stat_df) scodes sdescriptions (iloc sid i)
              (iloc descriptions k).
Proof.
  intros Hrun Hpcodes Hpnames Hpone Hscodes Hsdescr Hsone.
  destruct (cleaning_descriptions _ _ _ _ Hrun)
    as (value & pcode & sid & psmall & ssmall & rkey1 & rkey2 & Hvalue
        & Hpcode & Hsid & Hpsmall & Hssmall & Hrkey1 & Hrkey2 & Hnames
        & Hdescr & _).
  cbv zeta in Hnames, Hdescr.
  set (idx1 := survivors value (nrows joined_df)) in *.
  set (lkey1 := reindex (Some <$> idx1) pcode) in *.
  assert (Hd1 : distinct_keys rkey1).
  { by eapply (dedup_distinct_keys param_df psmall "parameter_name"). }
  assert (Hd2 : distinct_keys rkey2).
  { by eapply (dedup_distinct_keys stat_df ssmall "statistic_description"). }
  assert (Hlen1 : length lkey1 = length idx1).
  { unfold lkey1. by rewrite length_reindex, length_fmap. }
  pose proof (match_rows_unique lkey1 rkey1 Hd1) as Hfst1.
  rewrite Hfst1, Hlen1 in Hnames, Hdescr.
  assert (Hlkey2 : reindex (Some <$> seq 0 (length idx1))
                     (reindex (Some <$> idx1) sid)
                   = reindex (Some <$> idx1) sid).
  { rewrite <- (length_fmap Some idx1), <- (length_reindex _ sid) at 1.
    apply reindex_seq. }
  rewrite Hlkey2 in Hnames, Hdescr.
  set (lkey2 := reindex (Some <$> idx1) sid) in *.
  assert (Hlen2 : length lkey2 = length idx1).
  { unfold lkey2. by rewrite length_reindex, length_fmap. }
  pose proof (match_rows_unique lkey2 rkey2 Hd2) as Hfst2.
  rewrite Hfst2, Hlen2 in Hnames.
  assert (Hp1 : length (match_rows lkey1 rkey1) = length idx1).
  { rewrite <- (length_fmap fst), Hfst1, length_seq. done. }
  assert (Hp2 : length (match_rows lkey2 rkey2) = length idx1).
  { rewrite <- (length_fmap fst), Hfst2, length_seq. done. }
  set (names := reindex (match_rows lkey1 rkey1).*2
                  (reindex (Some <$> kept psmall) pnames)).
  set (descriptions := reindex (match_rows lkey2 rkey2).*2
                         (reindex (Some <$> kept ssmall) sdescriptions)).
  assert (Hnames' : getitem out "parameter_name" ValueError = Ok names).
  { apply getitem_ok in Hpnames as [c' Hc']. apply getitem_ok.
    exists "parameter_name". rewrite Hnames, Hc'. cbn [fmap list_fmap snd].
    do 2 f_equal.
    rewrite <- (length_fmap snd (match_rows lkey1 rkey1)) in Hp1.
    rewrite <- Hp1, <- (length_reindex _ (reindex (Some <$> kept psmall) pnames)).
    apply reindex_seq. }
  assert (Hdescr' : getitem out "statistic_description" ValueError
                    = Ok descriptions).
  { apply getitem_ok in Hsdescr as [c' Hc']. apply getitem_ok.
    exists "statistic_description". by rewrite Hdescr, Hc'. }
  exists value, pcode, sid, names, descriptions.
  do 5 (split; [done|]).
  split; [unfold names; by rewrite length_reindex, length_fmap|].
  split; [unfold descriptions; by rewrite length_reindex, length_fmap|].
  intros k i Hki. change (idx1 !! k = Some i) in Hki.
  pose proof (lookup_lt_Some _ _ _ Hki) as Hk.
  assert (Hcell : forall s : Series,
            iloc (reindex (Some <$> idx1) s) k = iloc s i).
  { intros s. by rewrite iloc_reindex, list_lookup_fmap, Hki. }
  split.
  - destruct (match_rows_unique_lookup lkey1 rkey1 k Hd1 ltac:(lia))
      as [_ [o Ho]].
    assert (iloc names k
            = match o with
              | Some j => iloc (reindex (Some <$> kept psmall) pnames) j
              | None => NA
              end) as ->.
    { unfold names. rewrite iloc_reindex, list_lookup_fmap, Ho. simpl.
      by destruct o. }
    rewrite <- (Hcell pcode). fold lkey1.
    eapply (lookup_described param_df psmall "parameter_name"); try done.
    by eapply list_elem_of_lookup_2.
  - destruct (match_rows_unique_lookup lkey2 rkey2 k Hd2 ltac:(lia))
      as [_ [o Ho]].
    assert (iloc descriptions k
            = match o with
              | Some j => iloc (reindex (Some <$> kept ssmall) sdescriptions) j
              | None => NA
              end) as ->.
    { unfold descriptions. rewrite iloc_reindex, list_lookup_fmap, Ho. simpl.
      by destruct o. }
    rewrite <- (Hcell sid). fold lkey2.
    eapply (lookup_described stat_df ssmall "statistic_description");
      try done.
    by eapply list_elem_of_lookup_2.
Qed.

End Enrichment.

Lemma cleaned_table_columns_witness :
  columns demo.cleaned_df = eda.final_cols.
Proof.
  apply (cleaned_table_columns (C := demo.conversions) demo.joined_df
           demo.param_df demo.stat_df demo.cleaned_df).
  - vm_compute. reflexivity.
  - apply (bool_decide_unpack (NoDup _)). vm_compute. exact I.
  - apply (bool_decide_unpack (NoDup _)). vm_compute. exact I.
  - apply (bool_decide_unpack (NoDup _)). vm_compute. exact I.
Defined.

Lemma lookup_joins_describe_codes_witness :
  exists names descriptions : Series,
    getitem demo.cleaned_df "parameter_name" ValueError = Ok names
    /\ getitem demo.cleaned_df "statistic_description" ValueError
       = Ok descriptions
    /\ length names = length descriptions.
Proof.
  destruct (lookup_joins_describe_codes (C := demo.conversions)
              demo.joined_df demo.param_df demo.stat_df demo.cleaned_df
              [Str "00060"; Str "00010"]
              [Str "Discharge"; Str "Temperature, water"]
              [Str "00003"] [Str "MEAN"])
    as (value & pcode & sid & names & descriptions & _ & _ & _ & Hn & Hd
        & Hln & Hld & _).
  - vm_compute. reflexivity.
  - vm_compute. reflexivity.
  - vm_compute. reflexivity.
  - intros [|[|i]] [|[|j]] Hi Hj; simpl in Hi, Hj; try lia;
      vm_compute; intros H; first [reflexivity|discriminate H].
  - vm_compute. reflexivity.
  - vm_compute. reflexivity.
  - intros [|i] [|j] Hi Hj; simpl in Hi, Hj; try lia;
      vm_compute; intros H; first [reflexivity|discriminate H].
  - exists names, descriptions. split; [exact Hn|]. split; [exact Hd|].
    by rewrite Hln, Hld.
Defined.

(** ** The Summarizer: what is counted *)

Section Counting.
Context `{C : Conversions}.
Import eda.

(** The observations of the report are the rows whose site and parameter
    name are both there, in order. *)
Lemma grouped_rows_length (sites params values times units : Series)
    (idx : list nat) (rows : list observation) (P : cell -> Prop)
    `{!forall c, Decision (P c)} :
  grouped_rows sites params values times units idx = Ok rows ->
  length (filter (fun o => P (o_value o)) rows)
  = length (filter (fun i => isna (iloc sites i) = false
                             /\ isna (iloc params i) = false
                             /\ P (iloc values i)) idx).
Proof.
  revert rows. induction idx as [|i idx IH]; intros rows.
  - cbn. by intros [= <-].
  - cbn [grouped_rows]. intros Hg.
    apply bind_ok_inv in Hg as (s & Hs & Hg).
    apply bind_ok_inv in Hg as (p & Hp & Hg).
    apply bind_ok_inv in Hg as (rest & Hrest & Hg).
    specialize (IH rest Hrest). rewrite (filter_cons _ i).
    destruct (iloc sites i) as [|s'| |] eqn:Es; try discriminate;
      destruct (iloc params i) as [|p'| |] eqn:Ep; try discriminate;
      cbn in Hs, Hp; injection Hs as <-; injection Hp as <-;
      injection Hg as <-.
    + rewrite decide_False by (cbn; intros (? & _); done). exact IH.
    + rewrite decide_False by (cbn; intros (? & _); done). exact IH.
    + rewrite decide_False by (cbn; intros (_ & ? & _); done). exact IH.
    + rewrite filter_cons. cbn [o_value].
      destruct (decide (P (iloc values i))) as [HP|HP].
      * rewrite decide_True by done. cbn [length]. by rewrite IH.
      * rewrite decide_False by (intros (_ & _ & ?); done). exact IH.
Qed.

Lemma length_filter_disjoint {A} (P Q : A -> Prop)
    `{!forall x, Decision (P x)} `{!forall x, Decision (Q x)} (l : list A) :
  (forall x, P x -> Q x -> False) ->
  (length (filter P l) + length (filter Q l))%nat
  = length (filter (fun x => P x \/ Q x) l).
Proof.
  intros Hdis. induction l as [|x l IH]; [done|].
  rewrite !filter_cons.
  destruct (decide (P x)) as [HP|HP], (decide (Q x)) as [HQ|HQ].
  - destruct (Hdis x HP HQ).
  - rewrite decide_True by auto. simpl. lia.
  - rewrite decide_True by auto. simpl. lia.
  - rewrite decide_False by tauto. lia.
Qed.

(** Counting group by group is counting once. *)
Lemma sum_of_groups (rows : list observation) (P : observation -> Prop)
    `{!forall o, Decision (P o)} (keys : list (string * string)) :
  NoDup keys ->
  sum_list ((fun k => length (filter P (group_of k rows))) <$> keys)
  = length (filter (fun o => P o /\ key o ∈ keys) rows).
Proof.
  induction 1 as [|k keys Hk Hnd IH].
  - cbn. symmetry. apply length_zero_iff_nil, filter_none.
    intros o _ [_ Hin]. by apply elem_of_nil in Hin.
  - rewrite fmap_cons. cbn [sum_list]. rewrite IH.
    unfold group_of at 1. rewrite list_filter_filter. unfold id.
    rewrite (length_filter_disjoint
               (fun o => P o /\ key_eqb (key o) k = true)
               (fun o => P o /\ key o ∈ keys)).
    + f_equal. apply filter_ext_in. intros o _.
      rewrite elem_of_cons, key_eqb_eq. tauto.
    + intros o [_ Hko] [_ Hin]. apply key_eqb_eq in Hko. by subst.
Qed.

(** X15. The observation counts of the report add up to the number of rows
    of the table that have a site name, a parameter name and a value: no
    row is counted twice, and the rows without a site name or without a
    parameter name, such as the daily values of an unknown location or
    parameter code, are in no line of the report. *)
Theorem summary_counts_named_rows (cleaned_df : DataFrame)
    (summary : list summary_row) :
  produce_summary_by_site cleaned_df = Ok summary ->
  exists sites params values : Series,
    getitem cleaned_df "monitoring_location_name" ValueError = Ok sites
    /\ getitem cleaned_df "parameter_name" ValueError = Ok params
    /\ getitem cleaned_df "value" ValueError = Ok values
    /\ sum_list (observations <$> summary)
       = length (filter (fun i => isna (iloc sites i) = false
                                  /\ isna (iloc params i) = false
                                  /\ isna (iloc values i) = false)
                   (seq 0 (nrows cleaned_df))).
Proof.
  unfold produce_summary_by_site. intros Hrun.
  destruct (getitem cleaned_df "monitoring_location_name" ValueError)
    as [sites|] eqn:Hsites; [|done].
  destruct (getitem cleaned_df "parameter_name" ValueError)
    as [params|] eqn:Hparams; [|done].
  destruct (getitem cleaned_df "value" ValueError)
    as [values|] eqn:Hvalues; [|done].
  destruct (getitem cleaned_df "time" ValueError)
    as [times|] eqn:Htimes; [|done].
  destruct (getitem cleaned_df "unit_of_measure" ValueError)
    as [units|] eqn:Hunits; [|done].
  cbn [bind] in Hrun.
  destruct (grouped_rows sites params values times units
              (seq 0 (nrows cleaned_df))) as [rows|] eqn:Hrows; [|done].
  cbn [bind] in Hrun. injection Hrun as <-.
  exists sites, params, values. do 3 (split; [done|]).
  rewrite <- list_fmap_compose.
  pose proof (grouped_rows_length _ _ _ _ _ _ _
                (fun c => isna c = false) Hrows) as Hlen.
  etransitivity; [|exact Hlen].
  set (keys := sort_by key_leb (unique_keys (key <$> rows))).
  assert (Hkeys : forall k, k ∈ keys <-> k ∈ key <$> rows).
  { intros k. unfold keys. by rewrite (sort_by_perm key_leb), unique_keys_elem. }
  assert (Hnd : NoDup keys).
  { unfold keys. rewrite (sort_by_perm key_leb). apply unique_keys_NoDup. }
  transitivity
    (sum_list ((fun k => length (filter (fun o => isna (o_value o) = false)
                                   (group_of k rows))) <$> keys)).
  { f_equal. }
  rewrite sum_of_groups by done. f_equal. apply filter_ext_in.
  intros o Ho. split; [tauto|]. intros HP. split; [done|].
  apply Hkeys, list_elem_of_fmap. eauto.
Qed.

End Counting.

Lemma summary_counts_named_rows_witness :
  exists (summary : list eda.summary_row) (sites params values : Series),
    eda.produce_summary_by_site (C := demo.conversions) demo.cleaned_df
    = Ok summary
    /\ sum_list (eda.observations <$> summary)
       = length (filter (fun i => isna (iloc sites i) = false
                                  /\ isna (iloc params i) = false
                                  /\ isna (iloc values i) = false)
                   (seq 0 (nrows demo.cleaned_df))).
Proof.
  destruct (eda.produce_summary_by_site (C := demo.conversions)
              demo.cleaned_df) as [summary|e] eqn:Hrun.
  - destruct (summary_counts_named_rows (C := demo.conversions)
                demo.cleaned_df summary Hrun)
      as (sites & params & values & _ & _ & _ & Hsum).
    exists summary, sites, params, values. split; [reflexivity|exact Hsum].
  - exfalso. vm_compute in Hrun. discriminate Hrun.
Defined.

(** ** The Joiner followed by the Cleaner *)

Section Pipeline.
Context `{C : Conversions}.
Import eda.

(** X14. The Cleaner accepts the Joiner's result only for daily values
    with an [id] column: without one, the location table's [id] keeps its
    label in the joined table, and the Cleaner raises. *)
Theorem cleaner_needs_daily_value_id (dv_df loc_df joined_df : DataFrame)
    (param_df stat_df : DataFrame) :
  data_loader.join_daily_values_with_locations dv_df loc_df = Ok joined_df ->
  "id" ∉ columns dv_df ->
  exists e, clean_and_transform_data joined_df param_df stat_df = Raise e.
Proof.
  intros Hjoin Hid. apply clean_rejects_id.
  unfold data_loader.join_daily_values_with_locations in Hjoin.
  apply bind_ok_inv in Hjoin as (loc_filtered & Hfiltered & Hmerge).
  apply merge_left_ok in Hmerge as (lkey & rkey & _ & _ & ->).
  rewrite columns_merged, elem_of_app. right.
  apply list_elem_of_fmap. exists "id". split.
  - unfold suffix. rewrite bool_decide_eq_false_2; [done|].
    rewrite elem_of_overlap. tauto.
  - apply (elem_of_columns_getitem_list _ _ _ _ Hfiltered).
    unfold data_loader.loc_keep. left.
Qed.

End Pipeline.

Lemma cleaner_needs_daily_value_id_witness :
  exists joined e,
    data_loader.join_daily_values_with_locations
      (demo.table ["monitoring_location_id"; "value"]
         [[Str "USGS-1"; Str "3.5"]]) demo.loc_df = Ok joined
    /\ eda.clean_and_transform_data (C := demo.conversions) joined
         demo.param_df demo.stat_df = Raise e.
Proof.
  destruct (data_loader.join_daily_values_with_locations
              (demo.table ["monitoring_location_id"; "value"]
                 [[Str "USGS-1"; Str "3.5"]]) demo.loc_df)
    as [joined|e] eqn:Hjoin.
  - destruct (cleaner_needs_daily_value_id (C := demo.conversions) _ _ _
                demo.param_df demo.stat_df Hjoin) as [e He].
    + apply (bool_decide_unpack (_ ∉ _)). vm_compute. exact I.
    + exists joined, e. split; [reflexivity|exact He].
  - exfalso. vm_compute in Hjoin. discriminate Hjoin.
Defined.

(** ** From daily values and locations to cleaned rows *)

(** A label of the right table that the left table does not have keeps its
    name in the merge; its column is the right column at the rows that the
    join pairs the left rows with. *)
Lemma named_merged_right (left right : DataFrame) (ov : list string)
    (pairs : list (nat * option nat)) (n : nat) (c : string) :
  plain c -> c ∉ ov -> c ∉ columns left ->
  named c {| nrows := n; cols := merged_cols ov pairs left right |}
  = (fun nc : string * Series => (c, reindex pairs.*2 nc.2)) <$> named c right.
Proof.
  intros Hplain Hov Hleft. unfold named, merged_cols. cbn [cols].
  rewrite filter_app, !filter_label_fmap.
  rewrite (filter_none _ (cols left)).
  2:{ intros [c' s] Hin. cbn [fst]. rewrite String.eqb_eq.
      rewrite (suffix_plain ov "_x" c c') by auto.
      intros ->. apply Hleft, elem_of_columns. eauto. }
  rewrite fmap_nil, app_nil_l.
  rewrite (filter_ext_in _
             (fun nc : string * Series => String.eqb nc.1 c = true)).
  - apply list_fmap_ext.
    intros _ [c' s] [Hc Hin]%list_elem_of_lookup_2%list_elem_of_filter.
    cbn [fst snd] in *. apply String.eqb_eq in Hc as ->.
    f_equal. by apply suffix_plain; auto.
  - intros [c' s] Hin. cbn [fst]. rewrite !String.eqb_eq.
    by apply suffix_plain; auto.
Qed.

Lemma duplicated_lookup (labels : list string) (j : nat) (c : string) :
  labels !! j = Some c ->
  duplicated labels !! j = Some (bool_decide (c ∈ take j labels)).
Proof. intros H. unfold duplicated. by rewrite list_lookup_imap, H. Qed.

(** When no new duplicate is found, a label that repeats an earlier one
    among the new labels repeated an earlier one among the old. *)
Lemma new_duplicates_nil (old new : list string) (j : nat) (c c' : string) :
  length new = length old ->
  new_duplicates old new = [] ->
  new !! j = Some c -> c ∈ take j new ->
  old !! j = Some c' -> c' ∈ take j old.
Proof.
  intros Hlen Hnil Hnew Hdup Hold. unfold new_duplicates in Hnil.
  destruct (decide (c' ∈ take j old)) as [|Hnot]; [done|]. exfalso.
  assert (zip new (zip (duplicated new) (duplicated old)) !! j
          = Some (c, (true, false))) as Hz.
  { apply lookup_zip_with_Some. eexists c, (true, false).
    split; [done|]. split; [done|].
    apply lookup_zip_with_Some. exists true, false. split; [done|]. split.
    - rewrite (duplicated_lookup _ _ _ Hnew). by rewrite bool_decide_eq_true_2.
    - rewrite (duplicated_lookup _ _ _ Hold). by rewrite bool_decide_eq_false_2. }
  apply list_elem_of_lookup_2 in Hz.
  assert (c ∈ omap (fun x : string * (bool * bool) =>
                      if x.2.1 && negb x.2.2 then Some x.1 else None)
                (zip new (zip (duplicated new) (duplicated old)))) as Hin.
  { apply list_elem_of_omap. by exists (c, (true, false)). }
  rewrite Hnil in Hin. by apply elem_of_nil in Hin.
Qed.

(** A merge that completes has not given two columns of the left table the
    same label: a label that takes the suffix [_x] does not meet a label
    that was there with that suffix. *)
Lemma suffixed_label_is_new (left right : list string) (ll rl : list string)
    (c : string) :
  items_overlap_with_suffix left right = Ok (ll, rl) ->
  c ∈ left -> c ∈ right -> c +:+ "_x" ∉ right -> c +:+ "_x" ∉ left.
Proof.
  intros Hok Hl Hr Hxr Hx.
  set (ov := filter (fun c => c ∈ right) left).
  assert (Hov : c ∈ ov) by (by apply elem_of_overlap).
  assert (Hxov : c +:+ "_x" ∉ ov)
    by (unfold ov; rewrite elem_of_overlap; tauto).
  assert (Hnil : new_duplicates left (suffix ov "_x" <$> left) = []).
  { unfold items_overlap_with_suffix in Hok. fold ov in Hok.
    destruct ov as [|c0 ov0] eqn:E; [by apply elem_of_nil in Hov|].
    destruct (new_duplicates left _ ++ _) eqn:Hd; [|discriminate].
    by apply app_eq_nil in Hd as [? _]. }
  apply list_elem_of_split_l in Hl as (a1 & a2 & Ha & Hfirst_c).
  apply list_elem_of_split_l in Hx as (b1 & b2 & Hb & Hfirst_x).
  assert (Hne : c <> c +:+ "_x").
  { intros E. apply (f_equal String.list_ascii_of_string) in E.
    rewrite list_ascii_of_string_app in E. apply (f_equal length) in E.
    rewrite length_app in E. simpl in E. lia. }
  assert (Hsc : suffix ov "_x" c = c +:+ "_x")
    by (unfold suffix; by rewrite bool_decide_eq_true_2).
  assert (Hsx : suffix ov "_x" (c +:+ "_x") = c +:+ "_x")
    by (unfold suffix; by rewrite bool_decide_eq_false_2).
  assert (Hpos_c : left !! length a1 = Some c)
    by (rewrite Ha; apply list_lookup_middle; done).
  assert (Hpos_x : left !! length b1 = Some (c +:+ "_x"))
    by (rewrite Hb; apply list_lookup_middle; done).
  assert (Htake_c : take (length a1) left = a1)
    by (rewrite Ha; apply take_app_length).
  assert (Htake_x : take (length b1) left = b1)
    by (rewrite Hb; apply take_app_length).
  destruct (Nat.lt_total (length a1) (length b1)) as [Hlt|[Heq|Hlt]].
  - (* [c] comes first: its new label is repeated at the place of [c_x] *)
    apply Hfirst_x. rewrite <- Htake_x.
    apply (new_duplicates_nil left (suffix ov "_x" <$> left) (length b1)
             (c +:+ "_x") (c +:+ "_x")); [by rewrite length_fmap|done| | |done].
    + rewrite list_lookup_fmap, Hpos_x. cbn. by rewrite Hsx.
    + rewrite <- fmap_take. apply list_elem_of_fmap. exists c.
      split; [done|]. apply (list_elem_of_lookup_2 _ (length a1)).
      by rewrite lookup_take_lt by lia.
  - rewrite Heq in Hpos_c. congruence.
  - apply Hfirst_c. rewrite <- Htake_c.
    apply (new_duplicates_nil left (suffix ov "_x" <$> left) (length a1)
             (c +:+ "_x") c); [by rewrite length_fmap|done| | |done].
    + rewrite list_lookup_fmap, Hpos_c. cbn. by rewrite Hsc.
    + rewrite <- fmap_take. apply list_elem_of_fmap. exists (c +:+ "_x").
      split; [done|]. apply (list_elem_of_lookup_2 _ (length b1)).
      by rewrite lookup_take_lt by lia.
Qed.

(** The columns of the left table under the label that the merge gives
    them. *)
Lemma named_merged_left_relabel (left right : DataFrame) (ov : list string)
    (pairs : list (nat * option nat)) (n : nat) (c c' : string) :
  (forall c0, c0 ∈ columns left -> suffix ov "_x" c0 = c' <-> c0 = c) ->
  (forall c0, c0 ∈ columns right -> suffix ov "_y" c0 <> c') ->
  named c' {| nrows := n; cols := merged_cols ov pairs left right |}
  = (fun nc : string * Series => (c', reindex (Some <$> pairs.*1) nc.2))
      <$> named c left.
Proof.
  intros Hleft Hright. unfold named, merged_cols. cbn [cols].
  rewrite filter_app, !filter_label_fmap.
  rewrite (filter_none _ (cols right)), fmap_nil, app_nil_r.
  - rewrite (filter_ext_in _
               (fun nc : string * Series => String.eqb nc.1 c = true)).
    + apply list_fmap_ext.
      intros _ [c0 s] [Hc Hin]%list_elem_of_lookup_2%list_elem_of_filter.
      cbn [fst snd] in *. apply String.eqb_eq in Hc as ->.
      f_equal. apply Hleft; [|done]. apply elem_of_columns. eauto.
    + intros [c0 s] Hin. cbn [fst]. rewrite !String.eqb_eq.
      apply Hleft, elem_of_columns. eauto.
  - intros [c0 s] Hin. cbn [fst]. rewrite String.eqb_eq.
    apply Hright, elem_of_columns. eauto.
Qed.

Section Provenance.
Context `{C : Conversions}.
Import eda.

Lemma daily_value_columns_cases (c : string) :
  c ∈ daily_value_columns ->
  c ∈ copied_columns /\ plain c /\ c ∉ data_loader.loc_keep.
Proof.
  revert c. apply Forall_forall. unfold daily_value_columns.
  repeat (constructor;
          [split; [apply (bool_decide_unpack (_ ∈ copied_columns));
                   vm_compute; exact I|];
           split; [split; discriminate|];
           apply (bool_decide_unpack (_ ∉ data_loader.loc_keep));
           vm_compute; exact I|]).
  constructor.
Qed.

Lemma location_columns_cases (c : string) :
  c ∈ location_columns ->
  c ∈ copied_columns /\ plain c /\ c ∈ data_loader.loc_keep.
Proof.
  revert c. apply Forall_forall. unfold location_columns.
  repeat (constructor;
          [split; [apply (bool_decide_unpack (_ ∈ copied_columns));
                   vm_compute; exact I|];
           split; [split; discriminate|];
           apply (bool_decide_unpack (_ ∈ data_loader.loc_keep));
           vm_compute; exact I|]).
  constructor.
Qed.

(** What the Joiner's result holds when no two locations have the same
    identifier: one row for each daily value, in order; the columns of the
    daily values as they were, a daily-value [id] under [id_x]; and in the
    columns of the locations the cells of the location whose identifier the
    daily value carries, or nulls. *)
Lemma join_rows (dv_df loc_df joined_df : DataFrame) (locids : Series) :
  data_loader.join_daily_values_with_locations dv_df loc_df = Ok joined_df ->
  well_formed dv_df -> well_formed loc_df ->
  getitem loc_df "id" ValueError = Ok locids -> distinct_keys locids ->
  exists mlid : Series,
    getitem dv_df "monitoring_location_id" ValueError = Ok mlid
    /\ nrows joined_df = nrows dv_df
    /\ (forall c e, plain c -> c ∉ data_loader.loc_keep ->
          getitem joined_df c e = getitem dv_df c e)
    /\ ("id" ∈ columns dv_df ->
        forall e, getitem joined_df "id_x" e = getitem dv_df "id" e)
    /\ (forall c s, c ∈ data_loader.loc_keep -> c <> "id" ->
          c ∈ columns joined_df ->
          getitem loc_df c ValueError = Ok s ->
          exists col,
            getitem joined_df c ValueError = Ok col
            /\ forall i, (i < nrows dv_df)%nat ->
                 described (nrows loc_df) locids s (iloc mlid i) (iloc col i)).
Proof.
  intros Hjoin Hwf Hwfl Hlocids Hdistinct.
  unfold data_loader.join_daily_values_with_locations in Hjoin.
  apply bind_ok_inv in Hjoin as (lf & Hlf & Hmerge).
  assert (Hndk : NoDup data_loader.loc_keep).
  { apply (bool_decide_unpack (NoDup _)). vm_compute. exact I. }
  assert (Hlabels : items_overlap_with_suffix (columns dv_df) (columns lf)
                    = Ok (suffix (filter (fun c => c ∈ columns lf)
                                    (columns dv_df)) "_x" <$> columns dv_df,
                          suffix (filter (fun c => c ∈ columns lf)
                                    (columns dv_df)) "_y" <$> columns lf)).
  { unfold merge_left in Hmerge.
    apply bind_ok_inv in Hmerge as (? & _ & Hmerge).
    apply bind_ok_inv in Hmerge as (? & _ & Hmerge).
    apply bind_ok_inv in Hmerge as ([ll rl] & Hov & _).
    by destruct (items_overlap_ok _ _ _ _ Hov) as [<- <-]. }
  apply merge_left_ok in Hmerge as (lkey & rkey & Hlkey & Hrkey & ->).
  set (ov := filter (fun c => c ∈ columns lf) (columns dv_df)) in *.
  set (pairs := match_rows lkey rkey) in *.
  assert (Hright : forall c, c ∈ columns lf <-> c ∈ data_loader.loc_keep).
  { intros c. by apply (elem_of_columns_getitem_list _ _ _ _ Hlf). }
  rewrite (getitem_getitem_list _ _ _ _ _ Hlf) in Hrkey by (done || left).
  rewrite Hlocids in Hrkey. injection Hrkey as <-.
  assert (Hlen : length lkey = nrows dv_df)
    by (by eapply well_formed_getitem).
  assert (Hfst : pairs.*1 = seq 0 (nrows dv_df)).
  { unfold pairs. by rewrite match_rows_unique, Hlen. }
  assert (Hsame : forall s : Series,
            length s = nrows dv_df -> reindex (Some <$> pairs.*1) s = s).
  { intros s Hs. rewrite Hfst, <- Hs. apply reindex_seq. }
  assert (Hleft : forall c c0 e,
            c = c0 \/ c0 ∈ columns dv_df ->
            named c {| nrows := length pairs;
                       cols := merged_cols ov pairs dv_df lf |}
            = (fun nc : string * Series =>
                 (c, reindex (Some <$> pairs.*1) nc.2)) <$> named c0 dv_df ->
            getitem {| nrows := length pairs;
                       cols := merged_cols ov pairs dv_df lf |} c e
            = getitem dv_df c0 e).
  { intros c c0 e Hc Hn. unfold getitem at 1. rewrite Hn. unfold getitem.
    destruct (named c0 dv_df) as [|[c1 s1] [|? ?]] eqn:E; try done.
    - destruct Hc as [->|Hc]; [done|]. by apply named_not_nil in Hc.
    - cbn. f_equal. apply Hsame.
      assert ((c1, s1) ∈ cols dv_df) as Hin.
      { assert ((c1, s1) ∈ named c0 dv_df) as H' by (rewrite E; left).
        by apply elem_of_named in H' as [? _]. }
      unfold well_formed in Hwf. rewrite Forall_forall in Hwf.
      by apply (Hwf _ Hin). }
  exists lkey. split; [done|].
  split; [cbn; by rewrite <- (length_fmap fst), Hfst, length_seq|].
  split; [|split].
  - intros c e Hplain Hkeep. apply Hleft; [by left|].
    apply named_merged_left; [done| |by rewrite Hright].
    unfold ov. rewrite elem_of_overlap, Hright. tauto.
  - intros Hid e. apply Hleft; [by right|].
    assert (Hid_ov : "id" ∈ ov).
    { unfold ov. rewrite elem_of_overlap, Hright. split; [done|left]. }
    assert (Hx_right : "id_x" ∉ columns lf).
    { rewrite Hright. apply (bool_decide_unpack (_ ∉ _)). vm_compute. exact I. }
    assert (Hx_left : "id_x" ∉ columns dv_df).
    { apply (suffixed_label_is_new _ _ _ _ "id" Hlabels); [done| |done].
      apply Hright. left. }
    apply named_merged_left_relabel.
    + intros c' Hc'. unfold suffix. case_bool_decide as Hin.
      * split; [|by intros ->]. apply (string_app_inv_tail c' "id" "_x").
      * split; [intros ->; done|intros ->; done].
    + intros c' Hc'. unfold suffix. case_bool_decide as Hin.
      * intros Heq. apply (f_equal last_char) in Heq.
        by rewrite last_char_app in Heq.
      * by intros ->.
  - intros c s Hkeep Hcid Hin Hs.
    assert (Hplain : plain c) by (by apply loc_keep_plain).
    assert (Hnot_ov : c ∉ ov).
    { intros Hov. rewrite columns_merged, elem_of_app in Hin.
      destruct Hin as [Hin|Hin];
        apply list_elem_of_fmap in Hin as (c' & Hc' & _); symmetry in Hc';
        revert Hc'; apply suffix_overlap; auto. }
    assert (Hnot_left : c ∉ columns dv_df).
    { intros Hc. apply Hnot_ov. unfold ov. rewrite elem_of_overlap, Hright.
      tauto. }
    pose proof (named_merged_right dv_df lf ov pairs (length pairs) c
                  Hplain Hnot_ov Hnot_left) as Hnamed.
    rewrite (named_getitem_list _ _ _ _ Hlf) in Hnamed by done.
    apply getitem_ok in Hs as [c1 Hc1]. rewrite Hc1 in Hnamed.
    exists (reindex pairs.*2 s). split.
    { apply getitem_ok. exists c. by rewrite Hnamed. }
    assert (Hlenl : length locids = nrows loc_df)
      by (by eapply well_formed_getitem).
    intros i Hi.
    destruct (match_rows_unique_lookup lkey locids i Hdistinct ltac:(lia))
      as [_ [o Ho]]. fold pairs in Ho.
    assert (iloc (reindex pairs.*2 s) i
            = match o with Some j => iloc s j | None => NA end) as ->.
    { rewrite iloc_reindex, list_lookup_fmap, Ho. by destruct o. }
    apply list_elem_of_lookup_2, elem_of_match_rows in Ho as [_ Ho].
    split.
    + intros j Hj Hmatch. destruct o as [j0|].
      * destruct Ho as [Hj0 Hmatch0].
        assert (j = j0) as ->; [|apply cell_eqb_refl].
        apply Hdistinct; [lia|done|].
        eapply cell_eqb_trans; [exact Hmatch|]. by rewrite cell_eqb_sym.
      * rewrite Ho in Hmatch by lia. discriminate.
    + intros Hnone. destruct o as [j0|]; [|done].
      destruct Ho as [Hj0 Hmatch0]. rewrite Hnone in Hmatch0 by lia.
      discriminate.
Qed.

(** X17. From the two tables to the cleaned rows. When no two locations
    have the same identifier, every row of the cleaned table is one daily
    value with a numeric value: it has that daily value's own identifier,
    location identifier, codes, unit and approval status, and in its five
    location columns the cells of the location whose identifier it
    carries, or nulls when there is no such location. *)
Theorem cleaned_rows_are_located_daily_values
    (dv_df loc_df joined_df param_df stat_df out : DataFrame)
    (locids : Series) :
  data_loader.join_daily_values_with_locations dv_df loc_df = Ok joined_df ->
  clean_and_transform_data joined_df param_df stat_df = Ok out ->
  well_formed dv_df -> well_formed loc_df ->
  getitem loc_df "id" ValueError = Ok locids -> distinct_keys locids ->
  exists (value mlid : Series) (idx : list nat),
    getitem dv_df "value" TypeError = Ok value
    /\ getitem dv_df "monitoring_location_id" ValueError = Ok mlid
    /\ nrows out = length idx
    /\ (forall i, i ∈ idx <->
          (i < nrows dv_df)%nat
          /\ exists q, to_numeric (iloc value i) = Num q)
    /\ (forall c e s, c ∈ daily_value_columns -> getitem dv_df c e = Ok s ->
          getitem out c e = Ok ((fun i => iloc s i) <$> idx))
    /\ (forall e s, getitem dv_df "id" e = Ok s ->
          getitem out "id" e = Ok ((fun i => iloc s i) <$> idx))
    /\ (forall c s, c ∈ location_columns ->
          getitem loc_df c ValueError = Ok s ->
          exists col,
            getitem out c ValueError = Ok col
            /\ length col = length idx
            /\ forall k i, idx !! k = Some i ->
                 described (nrows loc_df) locids s (iloc mlid i) (iloc col k)).
Proof.
  intros Hjoin Hclean Hwf Hwfl Hlocids Hdistinct.
  destruct (join_rows _ _ _ _ Hjoin Hwf Hwfl Hlocids Hdistinct)
    as (mlid & Hmlid & Hn & Hdv & Hid & Hloc).
  destruct (cleaning_keeps_rows _ _ _ _ Hclean)
    as (time & lm & value & idx & _ & _ & Hvalue & Hrows & Hidx & Hcopy
        & Hidx_x & _).
  assert (Hpv : plain "value") by (split; discriminate).
  assert (Hkv : "value" ∉ data_loader.loc_keep)
    by (apply (bool_decide_unpack (_ ∉ _)); vm_compute; exact I).
  rewrite (Hdv "value" TypeError Hpv Hkv) in Hvalue.
  exists value, mlid, idx.
  split; [done|]. split; [done|]. split; [done|].
  split; [intros i; by rewrite Hidx, Hn|].
  split; [|split].
  - intros c e s (Hc & Hplain & Hkeep)%daily_value_columns_cases Hs.
    apply Hcopy; [done|]. by rewrite Hdv.
  - intros e s Hs. apply Hidx_x. rewrite Hid; [done|].
    by eapply getitem_ok_columns.
  - intros c s (Hc & Hplain & Hkeep)%location_columns_cases Hs.
    assert (c <> "id") as Hcid.
    { intros ->. revert Hc. unfold copied_columns.
      rewrite !elem_of_cons, elem_of_nil. intros H.
      repeat (destruct H as [H|H]; [discriminate H|]). done. }
    destruct (Hloc c s Hkeep Hcid) as (colj & Hcolj & Hdescr); [|done|].
    { eapply cleaning_has_final_plain; [done|].
      by apply copied_columns_cases in Hc as [? _]. }
    exists ((fun i => iloc colj i) <$> idx).
    split; [by apply Hcopy|]. split; [by rewrite length_fmap|].
    intros k i Hki.
    assert (iloc ((fun i => iloc colj i) <$> idx) k = iloc colj i) as ->.
    { unfold iloc at 1. by rewrite list_lookup_fmap, Hki. }
    apply Hdescr. apply list_elem_of_lookup_2, Hidx in Hki as [? _]. lia.
Qed.

End Provenance.

Lemma cleaned_rows_are_located_daily_values_witness :
  exists (mlid : Series) (idx : list nat),
    getitem demo.dv_df "monitoring_location_id" ValueError = Ok mlid
    /\ nrows demo.cleaned_df = length idx
    /\ getitem demo.cleaned_df "id" ValueError
       = Ok ((fun i => iloc [Str "dv-1"; Str "dv-2"; Str "dv-3"] i) <$> idx).
Proof.
  destruct (cleaned_rows_are_located_daily_values (C := demo.conversions)
              demo.dv_df demo.loc_df demo.joined_df demo.param_df
              demo.stat_df demo.cleaned_df [Str "USGS-1"])
    as (value & mlid & idx & _ & Hmlid & Hn & _ & _ & Hid & _).
  - vm_compute. reflexivity.
  - vm_compute. reflexivity.
  - apply (bool_decide_unpack (well_formed _)). vm_compute. exact I.
  - apply (bool_decide_unpack (well_formed _)). vm_compute. exact I.
  - vm_compute. reflexivity.
  - intros j1 j2 Hj1 Hj2 _. simpl in Hj1, Hj2. lia.
  - exists mlid, idx. split; [exact Hmlid|]. split; [exact Hn|].
    apply Hid. reflexivity.
Defined.


(** ** The cache of lookups.py *)

Section Caching.
Import files lookups.
Context `{B : Builtins} `{D : Disk} `{W : lookups.World}.

Lemma mkdir_keeps_text p d r d' :
  lawful D -> mkdir_parent p d = (r, d') ->
  forall q, read_text q d' = read_text q d.
Proof.
  intros laws Hdir q.
  by destruct (mkdir_keeps_files _ laws _ q _ _ _ Hdir).
Qed.

(** What a call that returns has done: it has made the directory, and then
    either found the file, or sent one request and written the reply. *)
Lemma get_or_fetch_json_done base_url_env params_env output_env refresh
    st path st' :
  get_or_fetch_json base_url_env params_env output_env refresh st
    = (Done path, st') ->
  getenv output_env = Some path
  /\ exists d,
       mkdir_parent path st.1 = (Done tt, d)
       /\ ((path_exists path d = true /\ refresh = false /\ st' = (d, st.2))
           \/ exists url params timeout body,
                getenv base_url_env = Some url
                /\ _load_json_env params_env = Ok params
                /\ (let req := {| req_url := url; req_params := params;
                                  req_timeout := timeout |} in
                    server (length st.2) req = Ok body
                    /\ write_text path (json_dumps body) d = (Done tt, st'.1)
                    /\ st'.2 = st.2 ++ [req])).
Proof.
  unfold get_or_fetch_json. intros Hrun.
  destruct (getenv base_url_env) as [[|c url]|] eqn:Hurl; try discriminate.
  destruct (getenv output_env) as [[|c' file]|] eqn:Hout; try discriminate.
  destruct (mkdir_parent _ st.1) as [[[]|f] d] eqn:Hdir; try discriminate.
  destruct (path_exists _ d && negb refresh) eqn:Hhit.
  - injection Hrun as <- <-. split; [done|]. exists d. split; [done|].
    apply andb_prop in Hhit as [Hex Href]. left.
    by destruct refresh.
  - destruct (_load_json_env params_env) as [params|e] eqn:Hparams;
      try discriminate.
    destruct (int_of_env _) as [timeout|e] eqn:Htimeout; try discriminate.
    cbn zeta in Hrun.
    destruct (server _ _) as [body|e] eqn:Hreply; try discriminate.
    destruct (write_text _ _ d) as [[[]|f] d'] eqn:Hwrite; try discriminate.
    injection Hrun as <- <-. split; [done|]. exists d. split; [done|].
    right. exists (String c url), params, timeout, body. cbn. done.
Qed.

(** A call that finds the file sends nothing and does not read the query
    parameters or the timeout. *)
Lemma get_or_fetch_json_hit base_url_env params_env output_env st url path d :
  getenv base_url_env = Some url -> url <> "" ->
  getenv output_env = Some path -> path <> "" ->
  mkdir_parent path st.1 = (Done tt, d) ->
  path_exists path d = true ->
  get_or_fetch_json base_url_env params_env output_env false st
    = (Done path, (d, st.2)).
Proof.
  intros Hurl Hurl' Hout Hout' Hdir Hex. unfold get_or_fetch_json.
  rewrite Hurl, Hout, Hdir, Hex.
  destruct url; [done|]. by destruct path.
Qed.

Lemma get_or_fetch_json_settings base_url_env params_env output_env refresh
    st path st' :
  get_or_fetch_json base_url_env params_env output_env refresh st
    = (Done path, st') ->
  path <> "" /\ exists url, getenv base_url_env = Some url /\ url <> "".
Proof.
  unfold get_or_fetch_json. intros Hrun.
  destruct (getenv base_url_env) as [[|c url]|] eqn:Hurl; try discriminate.
  destruct (getenv output_env) as [[|c' file]|] eqn:Hout; try discriminate.
  assert (path = String c' file) as ->.
  { destruct (mkdir_parent _ st.1) as [[[]|f] d]; try discriminate.
    destruct (path_exists _ d && negb refresh); [by injection Hrun|].
    destruct (_load_json_env params_env); try discriminate.
    destruct (int_of_env _); try discriminate. cbn zeta in Hrun.
    destruct (server _ _); try discriminate.
    destruct (write_text _ _ d) as [[[]|?] ?]; try discriminate.
    by injection Hrun. }
  split; [done|]. by exists (String c url).
Qed.

(** X18. A call of [get_or_fetch_json] that fails has sent at most one
    request, and it has left every file as it was, unless what failed is
    the writing of the reply itself. *)
Theorem failed_fetch_keeps_files base_url_env params_env output_env refresh
    st f st' :
  lawful D ->
  get_or_fetch_json base_url_env params_env output_env refresh st
    = (Failed f, st') ->
  (st'.2 = st.2 \/ exists req, st'.2 = st.2 ++ [req])
  /\ ((forall q, read_text q st'.1 = read_text q st.1)
      \/ exists path body d,
           getenv output_env = Some path
           /\ (exists req, server (length st.2) req = Ok body)
           /\ write_text path (json_dumps body) d = (Failed f, st'.1)).
Proof.
  intros laws. unfold get_or_fetch_json. intros Hrun.
  destruct (getenv base_url_env) as [[|c url]|] eqn:Hurl;
    try (injection Hrun as <- <-; split; by left).
  destruct (getenv output_env) as [[|c' file]|] eqn:Hout;
    try (injection Hrun as <- <-; split; by left).
  destruct (mkdir_parent _ st.1) as [[[]|f'] d] eqn:Hdir.
  2:{ injection Hrun as <- <-. split; [by left|]. left.
      by apply (mkdir_keeps_text _ _ _ _ laws Hdir). }
  assert (forall q, read_text q d = read_text q st.1) as Hkept.
  { by apply (mkdir_keeps_text _ _ _ _ laws Hdir). }
  destruct (path_exists _ d && negb refresh); [discriminate|].
  destruct (_load_json_env params_env) as [params|e].
  2:{ injection Hrun as <- <-. split; by left. }
  destruct (int_of_env _) as [timeout|e].
  2:{ injection Hrun as <- <-. split; by left. }
  cbn zeta in Hrun.
  destruct (server _ _) as [body|e] eqn:Hreply.
  2:{ injection Hrun as <- <-. split; [right; by eexists|by left]. }
  destruct (write_text _ _ d) as [[[]|f''] d'] eqn:Hwrite; [discriminate|].
  injection Hrun as <- <-. split; [right; by eexists|].
  right. exists (String c' file), body, d. split; [done|].
  split; [by eexists|done].
Qed.

(** X19. After a call of [get_or_fetch_json] has returned a path, a call
    for the same file without refresh returns the same path, whatever
    setting it is given for the query parameters; it sends no request and
    leaves every file as it is. *)
Theorem second_call_is_served_from_file base_url_env params_env output_env
    refresh st path st' params_env' :
  lawful D ->
  get_or_fetch_json base_url_env params_env output_env refresh st
    = (Done path, st') ->
  exists d,
    get_or_fetch_json base_url_env params_env' output_env false st'
      = (Done path, (d, st'.2))
    /\ forall q, read_text q d = read_text q st'.1.
Proof.
  intros laws Hrun.
  destruct (get_or_fetch_json_settings _ _ _ _ _ _ _ Hrun)
    as (Hpath & url & Hurl & Hurl').
  apply get_or_fetch_json_done in Hrun as (Hout & d1 & Hdir & Hcases).
  assert (path_exists path st'.1 = true) as Hex.
  { destruct Hcases as [(Hex & _ & ->)|(u & p & t & body & _ & _ & Hreq)];
      [done|].
    cbn zeta in Hreq. destruct Hreq as (_ & Hwrite & _).
    by apply (write_then_read _ laws) in Hwrite as [? _]. }
  pose proof (mkdir_next_to_file _ laws _ _ Hex) as Hdir'.
  destruct (mkdir_parent path st'.1) as [r d] eqn:Hmk. cbn in Hdir'.
  subst r. exists d. split.
  - apply (get_or_fetch_json_hit _ _ _ _ url); try done.
    by apply (mkdir_keeps_files _ laws _ path) in Hmk as [_ Hkeep]; auto.
  - by apply (mkdir_keeps_text _ _ _ _ laws Hmk).
Qed.

(** X20. What [get_locations] returns is either what the file held before
    the call, read without any request, or the reply to the one request it
    has sent, as read back from the file the reply was written to. *)
Theorem locations_are_file_or_reply st data path st' :
  lawful D ->
  get_locations st = (Done (data, path), st') ->
  (st'.2 = st.2 /\ read_json path st.1 = Done data)
  \/ exists req body,
       st'.2 = st.2 ++ [req]
       /\ server (length st.2) req = Ok body
       /\ json_loads (json_dumps body) = Some data.
Proof.
  intros laws. unfold get_locations. intros Hrun.
  destruct (refresh_setting _) as [refresh|e]; [|discriminate].
  destruct (get_or_fetch_json _ _ _ refresh st) as [[file|f] st1] eqn:Hfetch;
    [|discriminate].
  destruct (read_json file st1.1) as [v|f] eqn:Hread; [|discriminate].
  injection Hrun as -> -> ->.
  apply get_or_fetch_json_done in Hfetch as (Hout & d1 & Hdir & Hcases).
  destruct Hcases as [(Hex & _ & ->)|(u & p & t & body & _ & _ & Hreq)].
  - left. split; [done|]. cbn in Hread. unfold read_json in *.
    by rewrite <- (mkdir_keeps_text _ _ _ _ laws Hdir path).
  - right. cbn zeta in Hreq. destruct Hreq as (Hreply & Hwrite & Hlog).
    eexists _, body. split; [done|]. split; [done|].
    apply (write_then_read _ laws) in Hwrite as [_ Htext].
    unfold read_json in Hread. rewrite Htext in Hread.
    destruct (json_loads _) as [v'|]; [|discriminate].
    by injection Hread as ->.
Qed.

End Caching.

Lemma memory_lawful : files.lawful demo.memory.
Proof.
  split.
  - intros p q d r d' [= <- <-]. done.
  - done.
  - intros p text d d' [= <-]. cbn. by rewrite lookup_insert_eq.
Qed.

Lemma failed_fetch_keeps_files_witness :
  let st := demo.fresh in
  let st' := demo.asked in
  (st'.2 = st.2 \/ exists r, st'.2 = st.2 ++ [r])
  /\ ((forall q, files.read_text q st'.1 = files.read_text q st.1)
      \/ exists path body d,
           lookups.getenv (W := demo.lookup_world_down "false") "OUTPUT_FILE"
             = Some path
           /\ (exists r,
                 lookups.server (World := demo.lookup_world_down "false")
                   (length st.2) r = Ok body)
           /\ files.write_text path (files.json_dumps (Disk := demo.memory) body) d
              = (files.Failed
                   (files.Exception (RequestException "503 Server Error")),
                 st'.1)).
Proof.
  intros st st'.
  apply (failed_fetch_keeps_files (B := demo.builtins) (D := demo.memory)
           (W := demo.lookup_world_down "false")
           "USGS_LOCATIONS_BASE_URL" "QUERY_PARAMS" "OUTPUT_FILE" false
           st (files.Exception (RequestException "503 Server Error")) st'
           memory_lawful).
  vm_compute. reflexivity.
Defined.

Lemma second_call_is_served_from_file_witness :
  exists d,
    lookups.get_or_fetch_json (B := demo.builtins)
      (W := demo.lookup_world "true")
      "USGS_LOCATIONS_BASE_URL" "NO_SUCH_SETTING" "OUTPUT_FILE" false
      demo.fetched
    = (files.Done "outputs/locations.json", (d, demo.fetched.2))
    /\ forall q, files.read_text q d = files.read_text q demo.fetched.1.
Proof.
  apply (second_call_is_served_from_file (B := demo.builtins)
           (D := demo.memory) (W := demo.lookup_world "true")
           "USGS_LOCATIONS_BASE_URL" "QUERY_PARAMS" "OUTPUT_FILE" true
           demo.fresh "outputs/locations.json" demo.fetched "NO_SUCH_SETTING"
           memory_lawful).
  vm_compute. reflexivity.
Defined.

Lemma locations_are_file_or_reply_witness :
  let st := demo.fresh in
  let st' := demo.fetched in
  (st'.2 = st.2
   /\ files.read_json (B := demo.builtins) "outputs/locations.json" st.1
      = files.Done (JObj []))
  \/ exists r body,
       st'.2 = st.2 ++ [r]
       /\ lookups.server (World := demo.lookup_world "false") (length st.2) r
          = Ok body
       /\ json_loads (Builtins := demo.builtins)
            (files.json_dumps (Disk := demo.memory) body)
          = Some (JObj []).
Proof.
  intros st st'.
  apply (locations_are_file_or_reply (B := demo.builtins) (D := demo.memory)
           (W := demo.lookup_world "false") st (JObj [])
           "outputs/locations.json" st' memory_lawful).
  vm_compute. reflexivity.
Defined.


(** ** Tables from JSON records *)

Section Labels.
Import normalize.

Lemma is_prefix_spec (p s : list ascii) :
  is_prefix p s = true <-> exists r, s = p ++ r.
Proof.
  revert s. induction p as [|a p IH]; intros s; cbn.
  - split; [by exists s|done].
  - destruct s as [|b s]; [split; [done|by intros [r Hr]]|].
    rewrite andb_true_iff, IH, Ascii.eqb_eq. split.
    + intros [-> [r ->]]. by exists r.
    + intros [r [= -> ->]]. split; [done|by exists r].
Qed.

Lemma prefix_chars (p s : string) :
  String.prefix p s
  = is_prefix (String.list_ascii_of_string p) (String.list_ascii_of_string s).
Proof.
  revert s. induction p as [|a p IH]; intros s; [by destruct s|].
  destruct s as [|b s]; [done|]. cbn.
  destruct (Ascii.ascii_dec a b) as [->|Hne].
  - by rewrite Ascii.eqb_refl, IH.
  - by apply Ascii.eqb_neq in Hne as ->.
Qed.

Lemma prefix_spec (p s : string) :
  String.prefix p s = true <-> exists r, s = p +:+ r.
Proof.
  rewrite prefix_chars, is_prefix_spec. split.
  - intros [r Hr]. exists (String.string_of_list_ascii r).
    rewrite <- (String.string_of_list_ascii_of_string s), Hr.
    rewrite <- (String.string_of_list_ascii_of_string (p +:+ _)).
    by rewrite list_ascii_of_string_app, String.list_ascii_of_string_of_list_ascii.
  - intros [r ->]. exists (String.list_ascii_of_string r).
    apply list_ascii_of_string_app.
Qed.

Lemma chars_inj (s t : string) :
  String.list_ascii_of_string s = String.list_ascii_of_string t -> s = t.
Proof.
  intros H. rewrite <- (String.string_of_list_ascii_of_string s), H.
  apply String.string_of_list_ascii_of_string.
Qed.

Lemma string_app_assoc (a b c : string) : (a +:+ b) +:+ c = a +:+ (b +:+ c).
Proof.
  apply chars_inj. rewrite !list_ascii_of_string_app. by rewrite app_assoc.
Qed.

Lemma string_app_inj_head (p s t : string) : p +:+ s = p +:+ t -> s = t.
Proof.
  intros H. apply chars_inj. apply (f_equal String.list_ascii_of_string) in H.
  rewrite !list_ascii_of_string_app in H. by apply app_inv_head in H.
Qed.

(** Where the first dot of a text is. *)
Lemma first_dot_unique (d : ascii) (a b x y : list ascii) :
  d ∉ a -> d ∉ b -> a ++ d :: x = b ++ d :: y -> a = b.
Proof.
  revert b. induction a as [|c a IH]; intros [|c' b] Ha Hb H; cbn in H.
  - done.
  - injection H as -> _. exfalso. apply Hb. by left.
  - injection H as -> _. exfalso. apply Ha. by left.
  - injection H as -> H. f_equal. apply IH; [| |done].
    + intros ?. apply Ha. by right.
    + intros ?. apply Hb. by right.
Qed.

Lemma under_new_key (g k x : string) :
  g <> "" -> under (new_key g k) x -> under g x.
Proof.
  intros Hg. unfold new_key. destruct (String.eqb_spec g ""); [done|].
  intros [->|[r ->]]; right.
  - by exists k.
  - exists (k +:+ "." +:+ r). by rewrite !string_app_assoc.
Qed.

Lemma new_key_nonempty (g k : string) : g <> "" -> new_key g k <> "".
Proof.
  intros Hg. unfold new_key. destruct (String.eqb_spec g ""); [done|].
  by destruct g.
Qed.

Lemma dotless_no_prefix (k : string) :
  dotless k -> String.prefix "properties." k = false.
Proof.
  intros Hk. destruct (String.prefix _ k) eqn:Hp; [|done].
  apply prefix_spec in Hp as [r ->]. exfalso. apply Hk.
  rewrite list_ascii_of_string_app. cbn. rewrite !elem_of_cons. tauto.
Qed.

Lemma under_properties (g x : string) :
  dotless g -> under g x -> String.prefix "properties." x = true ->
  g = "properties".
Proof.
  intros Hg [->|[r ->]] Hp.
  - by rewrite dotless_no_prefix in Hp.
  - apply prefix_spec in Hp as [r' Hr'].
    apply (f_equal String.list_ascii_of_string) in Hr'.
    rewrite !list_ascii_of_string_app in Hr'.
    apply chars_inj.
    change (String.list_ascii_of_string "properties.")
      with (String.list_ascii_of_string "properties" ++ ["."%char]) in Hr'.
    rewrite <- app_assoc in Hr'. cbn [app] in Hr'.
    change (String.list_ascii_of_string ".") with ["."%char] in Hr'.
    cbn [app] in Hr'.
    apply (first_dot_unique _ _ _ _ _ Hg) in Hr'; [done|].
    cbn. rewrite !elem_of_cons, elem_of_nil.
    intros H. repeat (destruct H as [H|H]; [discriminate|]). done.
Qed.

Lemma prefixed_is_prefixed (k : string) :
  String.prefix "properties." ("properties." +:+ k) = true.
Proof. apply prefix_spec. by exists k. Qed.

Lemma replace_chars_none (old new s : list ascii) (d : ascii) :
  d ∈ old -> d ∉ s -> replace_chars old new 0 s = s.
Proof.
  intros Hd. induction s as [|c s IH]; intros Hs; [done|].
  cbn [replace_chars].
  destruct (is_prefix old (c :: s)) eqn:Hp.
  - apply is_prefix_spec in Hp as [r Hr]. exfalso. apply Hs.
    rewrite Hr. apply elem_of_app. by left.
  - f_equal. apply IH. intros ?. apply Hs. by right.
Qed.

Lemma str_replace_prefixed (k : string) :
  dotless k -> str_replace "properties." "" ("properties." +:+ k) = k.
Proof.
  intros Hk. unfold str_replace. rewrite list_ascii_of_string_app.
  apply chars_inj. rewrite String.list_ascii_of_string_of_list_ascii.
  cbn.
  apply (replace_chars_none _ _ _ "."%char); [|done].
  rewrite !elem_of_cons. tauto.
Qed.

End Labels.

Section Records.
Import normalize.

Lemma filter_iff_in {A} (P1 P2 : A -> Prop) `{!forall x, Decision (P1 x)}
    `{!forall x, Decision (P2 x)} (l : list A) :
  (forall x, x ∈ l -> P1 x <-> P2 x) -> filter P1 l = filter P2 l.
Proof.
  induction l as [|a l IH]; intros Hl; [done|].
  rewrite !filter_cons. rewrite IH by (intros x Hx; apply Hl; by right).
  destruct (decide (P1 a)) as [H1|H1], (decide (P2 a)) as [H2|H2]; try done;
    exfalso; [apply H2|apply H1]; by apply (Hl a); [left|].
Qed.

Lemma keys_dict_set (k : string) (v : json) (d : dict) :
  keys (dict_set k v d) = keys d ++ (if bool_decide (k ∈ keys d) then [] else [k]).
Proof.
  unfold keys. induction d as [|[k' v'] d IH]; [done|]. cbn.
  destruct (String.eqb_spec k k') as [->|Hne].
  - rewrite bool_decide_true by by left. by rewrite app_nil_r.
  - cbn. rewrite IH. f_equal.
    case_bool_decide as H1; case_bool_decide as H2; try done.
    + exfalso. apply H2. by right.
    + exfalso. apply elem_of_cons in H2 as [?|?]; done.
Qed.

Lemma dict_get_dict_set (x k : string) (v : json) (d : dict) :
  dict_get x (dict_set k v d)
  = if String.eqb x k then Some v else dict_get x d.
Proof.
  induction d as [|[k' v'] d IH]; cbn.
  - by destruct (String.eqb x k).
  - destruct (String.eqb_spec k k') as [->|Hne]; cbn.
    + by destruct (String.eqb x k').
    + rewrite IH. destruct (String.eqb_spec x k') as [->|?]; [|done].
      destruct (String.eqb_spec k' k) as [->|?]; done.
Qed.

Lemma dict_get_None (x : string) (d : dict) :
  x ∉ keys d -> dict_get x d = None.
Proof.
  unfold keys. induction d as [|[k v] d IH]; [done|]. cbn. intros Hx.
  destruct (String.eqb_spec x k) as [->|?].
  - exfalso. apply Hx. by left.
  - apply IH. intros ?. apply Hx. by right.
Qed.

Lemma dict_get_Some_key (x : string) (v : json) (d : dict) :
  dict_get x d = Some v -> x ∈ keys d.
Proof.
  unfold keys. induction d as [|[k w] d IH]; [done|]. cbn.
  destruct (String.eqb_spec x k) as [->|?]; [by left|]. right. auto.
Qed.

Lemma dict_get_key (x : string) (d : dict) :
  x ∈ keys d -> dict_get x d <> None.
Proof.
  unfold keys. induction d as [|[k w] d IH]; [by intros ?%elem_of_nil|].
  cbn [dict_get fmap list_fmap fst]. intros Hx.
  destruct (String.eqb_spec x k) as [->|Hne]; [done|].
  apply IH. by apply elem_of_cons in Hx as [?|?].
Qed.

Lemma keys_dict_set_NoDup (k : string) (v : json) (d : dict) :
  NoDup (keys d) -> NoDup (keys (dict_set k v d)).
Proof.
  intros Hd. rewrite keys_dict_set. case_bool_decide as Hk.
  - by rewrite app_nil_r.
  - apply NoDup_app. split; [done|]. split; [|apply NoDup_singleton].
    intros y Hy ->%list_elem_of_singleton. done.
Qed.

Lemma dict_update_NoDup (a b : dict) :
  NoDup (keys a) -> NoDup (keys (dict_update a b)).
Proof.
  unfold dict_update. revert a. induction b as [|[k v] b IH]; intros a Ha;
    [done|]. cbn. apply IH. by apply keys_dict_set_NoDup.
Qed.

Lemma dict_update_keys (a b : dict) :
  NoDup (keys b) ->
  keys (dict_update a b) = keys a ++ filter (fun k => k ∉ keys a) (keys b).
Proof.
  unfold dict_update. revert a. induction b as [|[k v] b IH]; intros a Hb.
  - cbn. by rewrite app_nil_r.
  - cbn [fold_left fst snd]. apply NoDup_cons in Hb as [Hk Hb].
    rewrite (IH _ Hb), keys_dict_set.
    change (keys ((k, v) :: b)) with (k :: keys b).
    rewrite filter_cons. case_bool_decide as Hin.
    + rewrite app_nil_r. by rewrite decide_False by (intros H; by apply H).
    + rewrite decide_True by done. rewrite <- app_assoc. cbn. do 2 f_equal.
      apply filter_iff_in. intros y Hy.
      rewrite elem_of_app, list_elem_of_singleton. split.
      * intros Hya ?. apply Hya. by left.
      * intros Hya [?| ->]; done.
Qed.

Lemma dict_update_get (a b : dict) (x : string) :
  NoDup (keys b) ->
  dict_get x (dict_update a b)
  = match dict_get x b with Some v => Some v | None => dict_get x a end.
Proof.
  unfold dict_update. revert a. induction b as [|[k v] b IH]; intros a Hb;
    [done|].
  cbn [fold_left fst snd]. apply NoDup_cons in Hb as [Hk Hb].
  rewrite (IH _ Hb), dict_get_dict_set. cbn.
  destruct (String.eqb_spec x k) as [->|Hne]; [|done].
  by rewrite dict_get_None.
Qed.

End Records.

Section Flattening.
Import normalize.

Lemma json_nested_ind (P : json -> Prop) :
  P JNull -> (forall b, P (JBool b)) -> (forall z, P (JInt z)) ->
  (forall f, P (JFloat f)) -> (forall s, P (JStr s)) ->
  (forall l, Forall P l -> P (JArr l)) ->
  (forall items, Forall (fun kv : string * json => P kv.2) items ->
     P (JObj items)) ->
  forall v, P v.
Proof.
  intros Hnull Hbool Hint Hfloat Hstr Harr Hobj.
  refine (fix IH (v : json) : P v :=
            match v with
            | JNull => Hnull
            | JBool b => Hbool b
            | JInt z => Hint z
            | JFloat f => Hfloat f
            | JStr s => Hstr s
            | JArr l =>
                Harr l ((fix go (l : list json) : Forall P l :=
                           match l with
                           | [] => @List.Forall_nil _ _
                           | x :: l' => @List.Forall_cons _ _ x l' (IH x) (go l')
                           end) l)
            | JObj items =>
                Hobj items
                  ((fix go (l : list (string * json))
                      : Forall (fun kv : string * json => P kv.2) l :=
                      match l with
                      | [] => @List.Forall_nil _ _
                      | kv :: l' => @List.Forall_cons _ _ kv l' (IH kv.2) (go l')
                      end) items)
            end).
Qed.

Lemma normalise_json_nil (g : string) (acc : dict) :
  _normalise_json (JObj []) g acc = acc.
Proof. reflexivity. Qed.

Lemma normalise_json_cons (k : string) (v : json) (items : dict) (g : string)
    (acc : dict) :
  _normalise_json (JObj ((k, v) :: items)) g acc
  = _normalise_json (JObj items) g (_normalise_json v (new_key g k) acc).
Proof. reflexivity. Qed.

Lemma normalise_json_leaf (v : json) (g : string) (acc : dict) :
  is_dict v = false -> _normalise_json v g acc = dict_set g v acc.
Proof. by destruct v. Qed.

(** What flattening a value under a key adds to a record: labels under
    that key, and nothing else changes. *)
Lemma normalise_json_under (v : json) :
  forall g acc, g <> "" ->
    (exists new, keys (_normalise_json v g acc) = keys acc ++ new
                 /\ Forall (under g) new)
    /\ (forall x, ~ under g x ->
          dict_get x (_normalise_json v g acc) = dict_get x acc).
Proof.
  assert (forall v g acc, is_dict v = false -> g <> "" ->
    (exists new, keys (_normalise_json v g acc) = keys acc ++ new
                 /\ Forall (under g) new)
    /\ (forall x, ~ under g x ->
          dict_get x (_normalise_json v g acc) = dict_get x acc)) as Hleaf.
  { intros w g acc Hw Hg. rewrite (normalise_json_leaf _ _ _ Hw). split.
    - eexists. split; [apply keys_dict_set|].
      case_bool_decide; repeat constructor.
    - intros x Hx. rewrite dict_get_dict_set.
      destruct (String.eqb_spec x g) as [->|?]; [|done].
      exfalso. apply Hx. by left. }
  induction v as [| | | | | |items IH] using json_nested_ind;
    try (intros g acc Hg; by apply Hleaf).
  intros g acc Hg. revert acc.
  induction IH as [|[k v] items Hv _ IHitems]; intros acc.
  - rewrite normalise_json_nil. split.
    + exists []. by rewrite app_nil_r.
    + done.
  - rewrite normalise_json_cons. cbn in Hv.
    destruct (Hv (new_key g k) acc (new_key_nonempty _ _ Hg))
      as [(new1 & Hk1 & Hu1) Hg1].
    destruct (IHitems (_normalise_json v (new_key g k) acc))
      as [(new2 & Hk2 & Hu2) Hg2].
    split.
    + exists (new1 ++ new2). unfold keys in *.
      rewrite Hk2, Hk1, app_assoc. split; [done|].
      apply Forall_app. split; [|done].
      eapply Forall_impl; [exact Hu1|]. intros x. by apply under_new_key.
    + intros x Hx. rewrite Hg2 by done. apply Hg1.
      intros Hx'. apply Hx. by apply (under_new_key g k).
Qed.

Lemma normalise_json_NoDup (v : json) :
  forall g acc, NoDup (keys acc) -> NoDup (keys (_normalise_json v g acc)).
Proof.
  induction v as [| | | | | |items IH] using json_nested_ind;
    try (intros g acc Hacc; by apply keys_dict_set_NoDup).
  intros g acc. revert acc.
  induction IH as [|[k v] items Hv _ IHitems]; intros acc Hacc; [done|].
  rewrite normalise_json_cons. apply IHitems. by apply Hv.
Qed.

(** An object that holds no object is laid out key by key. *)
Lemma normalise_json_flat (p : dict) (g : string) (acc : dict) :
  Forall (fun kv : string * json => is_dict kv.2 = false) p ->
  _normalise_json (JObj p) g acc
  = dict_update acc ((fun kv : string * json => (new_key g kv.1, kv.2)) <$> p).
Proof.
  intros Hp. revert acc. induction Hp as [|[k v] p Hv _ IH]; intros acc;
    [done|].
  rewrite normalise_json_cons, IH. cbn in Hv.
  by rewrite (normalise_json_leaf _ _ _ Hv).
Qed.

End Flattening.

Section Features.
Import normalize.

Local Abbreviation P := (fun x : string => String.prefix "properties." x = true).
Local Abbreviation pre := (fun k : string => "properties." +:+ k).

Lemma filter_nothing {A} (Q : A -> Prop) `{!forall x, Decision (Q x)}
    (l : list A) :
  Forall (fun x => ~ Q x) l -> filter Q l = [].
Proof.
  induction 1 as [|x l Hx _ IH]; [done|]. by rewrite filter_cons_False.
Qed.

Lemma filter_all {A} (Q : A -> Prop) `{!forall x, Decision (Q x)}
    (l : list A) :
  Forall Q l -> filter Q l = l.
Proof.
  induction 1 as [|x l Hx _ IH]; [done|].
  by rewrite filter_cons_True, IH.
Qed.

Lemma keys_filter_subseteq (Q : string * json -> Prop)
    `{!forall x, Decision (Q x)} (d : dict) (k : string) :
  k ∈ keys (filter Q d) -> k ∈ keys d.
Proof.
  unfold keys. rewrite !list_elem_of_fmap. intros (kv & -> & Hkv).
  apply list_elem_of_filter in Hkv as [_ Hkv]. by exists kv.
Qed.

Lemma keys_filter_NoDup (Q : string * json -> Prop)
    `{!forall x, Decision (Q x)} (d : dict) :
  NoDup (keys d) -> NoDup (keys (filter Q d)).
Proof.
  unfold dict in *.
  induction d as [|[k v] d IH]; [done|]. intros [Hk Hd]%NoDup_cons.
  rewrite filter_cons. destruct (decide _); [|by apply IH].
  apply NoDup_cons. split; [|by apply IH].
  intros Hin. apply Hk. by apply keys_filter_subseteq in Hin.
Qed.

(** A member that is not [properties] brings no label that starts with
    [properties.] and touches none. *)
Lemma member_other (v : json) (g : string) (acc : dict) :
  g <> "" -> dotless g -> g <> "properties" ->
  filter P (keys (_normalise_json v g acc)) = filter P (keys acc)
  /\ forall x, P x -> dict_get x (_normalise_json v g acc) = dict_get x acc.
Proof.
  intros Hg Hdot Hne.
  destruct (normalise_json_under v g acc Hg) as [(new & Hk & Hu) Hget].
  split.
  - rewrite Hk, filter_app, (filter_nothing _ new), app_nil_r; [done|].
    eapply Forall_impl; [exact Hu|]. intros x Hx Hp. cbn in Hp.
    by apply Hne, (under_properties g x).
  - intros x Hp. apply Hget. intros Hx.
    by apply Hne, (under_properties g x).
Qed.

Lemma members_other (items : dict) (acc : dict) :
  Forall (fun k => k <> "" /\ dotless k) (keys items) ->
  "properties" ∉ keys items ->
  filter P (keys (_normalise_json (JObj items) "" acc)) = filter P (keys acc)
  /\ forall x, P x ->
       dict_get x (_normalise_json (JObj items) "" acc) = dict_get x acc.
Proof.
  revert acc. induction items as [|[k v] items IH]; intros acc Hkeys Hno;
    [done|].
  rewrite normalise_json_cons.
  change (keys ((k, v) :: items)) with (k :: keys items) in *.
  apply Forall_cons in Hkeys as [[Hk Hdot] Hkeys].
  apply not_elem_of_cons in Hno as [Hne Hno].
  destruct (IH (_normalise_json v (new_key "" k) acc) Hkeys Hno) as [IH1 IH2].
  change (new_key "" k) with k in *.
  destruct (member_other v k acc Hk Hdot) as [H1 H2]; [done|].
  split.
  - by rewrite IH1, H1.
  - intros x Hx. by rewrite IH2, H2.
Qed.

Lemma dict_get_relabel (k : string) (p : dict) :
  dict_get (pre k)
    ((fun kv : string * json => (new_key "properties" kv.1, kv.2)) <$> p)
  = dict_get k p.
Proof.
  induction p as [|[k' v] p IH]; [done|].
  cbn [fmap list_fmap fst snd dict_get]. fold (@fmap list _).
  change (new_key "properties" k') with (pre k').
  destruct (String.eqb_spec k k') as [->|Hne].
  - by rewrite String.eqb_refl.
  - destruct (String.eqb_spec (pre k) (pre k')) as [Heq|_]; [|exact IH].
    by apply string_app_inj_head in Heq.
Qed.

Lemma keys_relabel (p : dict) :
  keys ((fun kv : string * json => (new_key "properties" kv.1, kv.2)) <$> p)
  = pre <$> keys p.
Proof.
  unfold keys. rewrite <- !list_fmap_compose. done.
Qed.

Lemma pre_NoDup (l : list string) : NoDup l -> NoDup (pre <$> l).
Proof.
  apply NoDup_fmap_2. intros a b. apply string_app_inj_head.
Qed.

Lemma filter_prefixed (l : list string) : filter P (pre <$> l) = pre <$> l.
Proof.
  induction l as [|k l IH]; [done|].
  rewrite fmap_cons, filter_cons_True by apply prefixed_is_prefixed.
  by rewrite IH.
Qed.

Lemma not_in_unprefixed (x : string) (l : list string) :
  P x -> filter P l = [] -> x ∉ l.
Proof.
  intros Hx Hl Hin.
  assert (x ∈ filter P l) as H by by apply list_elem_of_filter.
  rewrite Hl in H. by apply elem_of_nil in H.
Qed.

(** The members of a feature that are objects, flattened: the labels that
    start with [properties.] are those of the properties, in their order,
    and hold their values. *)
Lemma members_properties (items : dict) (acc : dict) :
  let props :=
    match dict_get "properties" items with
    | Some (JObj p) => p
    | _ => []
    end in
  Forall (fun kv : string * json => is_dict kv.2 = true) items ->
  NoDup (keys items) ->
  Forall (fun k => k <> "" /\ dotless k) (keys items) ->
  NoDup (keys props) ->
  Forall (fun kv : string * json => is_dict kv.2 = false) props ->
  filter P (keys acc) = [] ->
  filter P (keys (_normalise_json (JObj items) "" acc)) = pre <$> keys props
  /\ forall k,
       dict_get (pre k) (_normalise_json (JObj items) "" acc)
       = dict_get k props.
Proof.
  revert acc. induction items as [|[k v] items IH];
    intros acc props Hdicts Hnd Hkeys Hpnd Hflat Hacc.
  - rewrite normalise_json_nil. split; [done|]. intros k.
    apply dict_get_None, (not_in_unprefixed _ _ (prefixed_is_prefixed k) Hacc).
  - rewrite normalise_json_cons.
    change (keys ((k, v) :: items)) with (k :: keys items) in *.
    apply Forall_cons in Hdicts as [Hv Hdicts]. cbn in Hv.
    apply NoDup_cons in Hnd as [Hk Hnd].
    apply Forall_cons in Hkeys as [[Hk' Hdot] Hkeys].
    change (new_key "" k) with k.
    subst props. cbn [dict_get] in *.
    destruct (String.eqb_spec "properties" k) as [<-|Hne].
    + destruct v as [| | | | | |p]; try discriminate.
      destruct (members_other items
                  (_normalise_json (JObj p) "properties" acc) Hkeys Hk)
        as [H1 H2].
      rewrite (normalise_json_flat _ _ _ Hflat) in *.
      assert (NoDup (keys ((fun kv : string * json =>
                (new_key "properties" kv.1, kv.2)) <$> p))) as Hrel.
      { rewrite keys_relabel. by apply pre_NoDup. }
      split.
      * rewrite H1, (dict_update_keys _ _ Hrel), filter_app, Hacc, keys_relabel.
        cbn [app].
        rewrite (filter_all (fun k => k ∉ keys acc)); [apply filter_prefixed|].
        apply Forall_forall. intros x (k & -> & _)%list_elem_of_fmap.
        apply (not_in_unprefixed _ _ (prefixed_is_prefixed k) Hacc).
      * intros k. rewrite (H2 _ (prefixed_is_prefixed k)).
        rewrite (dict_update_get _ _ _ Hrel), dict_get_relabel.
        destruct (dict_get k p); [done|].
        apply dict_get_None,
          (not_in_unprefixed _ _ (prefixed_is_prefixed k) Hacc).
    + destruct (member_other v k acc Hk' Hdot) as [H1 H2]; [done|].
      apply IH; try done. by rewrite H1.
Qed.

End Features.

Section Tables.
Import normalize.
Context `{F : Frames}.

Local Abbreviation P := (fun x : string => String.prefix "properties." x = true).
Local Abbreviation pre := (fun k : string => "properties." +:+ k).

Lemma properties_among_objects (fd : dict) :
  NoDup (keys fd) ->
  match dict_get "properties"
          (filter (fun kv : string * json => is_dict kv.2 = true) fd) with
  | Some (JObj p) => p
  | _ => []
  end = properties_of (JObj fd).
Proof.
  unfold properties_of, dict in *.
  induction fd as [|[k v] fd IH]; [done|]. intros [Hk Hfd]%NoDup_cons.
  rewrite filter_cons. cbn [dict_get snd].
  destruct (String.eqb_spec "properties" k) as [<-|Hne].
  - assert (dict_get "properties"
              (filter (fun kv : string * json => is_dict kv.2 = true) fd)
            = None) as Hnone.
    { apply dict_get_None. intros Hin. apply Hk.
      by apply keys_filter_subseteq in Hin. }
    destruct (decide (is_dict v = true)) as [Hv|Hv].
    + cbn [dict_get]. by rewrite String.eqb_refl.
    + rewrite Hnone. by destruct v.
  - destruct (decide (is_dict v = true)) as [Hv|Hv]; [|by apply IH].
    cbn [dict_get]. destruct (String.eqb_spec "properties" k); [done|].
    by apply IH.
Qed.

(** The record of a feature: what starts with [properties.] are its
    properties. *)
Lemma record_of_feature (f : json) :
  tidy f ->
  filter P (keys (normalise_row f)) = pre <$> keys (properties_of f)
  /\ forall k,
       dict_get (pre k) (normalise_row f) = dict_get k (properties_of f).
Proof.
  destruct f as [| | | | | |fd]; try (intros _; split; [done|by intros k]).
  intros (Hnd & Hkeys & Hpnd & Hprops).
  cbn [normalise_row]. unfold _normalise_json_ordered, dict in *.
  set (top := filter (fun kv : string * json => is_dict kv.2 = false) fd).
  set (nested := filter (fun kv : string * json => is_dict kv.2 = true) fd).
  set (flat := _normalise_json (JObj nested) "" []).
  assert (Forall (fun k => k <> "" /\ dotless k) (keys nested)) as Hkn.
  { apply Forall_forall. intros k Hk. apply keys_filter_subseteq in Hk.
    by apply (proj1 (Forall_forall _ _) Hkeys). }
  assert (filter P (keys top) = []) as Htop.
  { apply filter_nothing, Forall_forall. intros k Hk.
    apply keys_filter_subseteq in Hk.
    destruct (proj1 (Forall_forall _ _) Hkeys k Hk) as [_ Hdot].
    cbn. by rewrite (dotless_no_prefix _ Hdot). }
  destruct (members_properties nested []) as [Hlabels Hget].
  { apply Forall_forall. intros kv Hkv. unfold nested, dict in *.
    by apply list_elem_of_filter in Hkv as [? _]. }
  { by apply keys_filter_NoDup. }
  { done. }
  { unfold nested. by rewrite properties_among_objects. }
  { unfold nested. rewrite properties_among_objects by done.
    eapply Forall_impl; [exact Hprops|]. by intros kv [_ ?]. }
  { done. }
  unfold nested in Hlabels, Hget at 2.
  rewrite properties_among_objects in Hlabels, Hget by done.
  fold nested flat in Hlabels, Hget.
  assert (NoDup (keys flat)) as Hflat.
  { apply normalise_json_NoDup. apply NoDup_nil_2. }
  split.
  - rewrite (dict_update_keys _ _ Hflat), filter_app, Htop. cbn [app].
    rewrite list_filter_filter, <- Hlabels.
    apply list_filter_iff. intros x. split; [by intros [? _]|].
    intros Hx. split; [done|]. by apply not_in_unprefixed.
  - intros k. rewrite (dict_update_get _ _ _ Hflat), Hget.
    destruct (dict_get k _); [done|].
    apply dict_get_None, not_in_unprefixed; [apply prefixed_is_prefixed|done].
Qed.

Lemma unique_snoc (l : list string) (x : string) :
  unique (l ++ [x])
  = if bool_decide (x ∈ unique l) then unique l else unique l ++ [x].
Proof. unfold unique. by rewrite fold_left_app. Qed.

Lemma elem_of_unique (l : list string) (x : string) : x ∈ unique l <-> x ∈ l.
Proof.
  induction l as [|y l IH] using rev_ind; [done|].
  rewrite unique_snoc, elem_of_app, list_elem_of_singleton.
  case_bool_decide as Hy.
  - rewrite IH. split; [tauto|]. intros [?| ->]; [done|]. by apply IH.
  - by rewrite elem_of_app, list_elem_of_singleton, IH.
Qed.

Lemma unique_filter (Q : string -> Prop) `{!forall x, Decision (Q x)}
    (l : list string) :
  filter Q (unique l) = unique (filter Q l).
Proof.
  induction l as [|y l IH] using rev_ind; [done|].
  rewrite filter_app, unique_snoc.
  rewrite filter_cons, filter_nil.
  destruct (decide (Q y)) as [Hq|Hq].
  - rewrite unique_snoc, <- IH.
    case_bool_decide as H1; case_bool_decide as H2.
    + done.
    + exfalso. apply H2. by apply list_elem_of_filter.
    + exfalso. by apply list_elem_of_filter in H2 as [_ ?].
    + by rewrite filter_app, filter_cons_True, filter_nil.
  - rewrite app_nil_r, <- IH. case_bool_decide; [done|].
    by rewrite filter_app, filter_cons_False, filter_nil, app_nil_r.
Qed.

Lemma unique_fmap (f : string -> string) `{!Inj (=) (=) f} (l : list string) :
  unique (f <$> l) = f <$> unique l.
Proof.
  induction l as [|y l IH] using rev_ind; [done|].
  rewrite fmap_app, fmap_cons, fmap_nil, !unique_snoc, IH.
  case_bool_decide as H1; case_bool_decide as H2.
  - done.
  - exfalso. apply H2. apply list_elem_of_fmap in H1 as (z & Hz & ?).
    by apply (inj f) in Hz as ->.
  - exfalso. apply H1. by apply list_elem_of_fmap_2.
  - by rewrite fmap_app.
Qed.

Lemma filter_concat {A} (Q : A -> Prop) `{!forall x, Decision (Q x)}
    (ls : list (list A)) :
  filter Q (concat ls) = concat (filter Q <$> ls).
Proof.
  induction ls as [|l ls IH]; [done|]. cbn. by rewrite filter_app, IH.
Qed.

Lemma fmap_concat {A C} (f : A -> C) (ls : list (list A)) :
  f <$> concat ls = concat ((fun l : list A => f <$> l) <$> ls).
Proof.
  induction ls as [|l ls IH]; [done|]. cbn. by rewrite fmap_app, IH.
Qed.

Lemma elem_of_some_list {A} (ls : list (list A)) (x : A) :
  x ∈ concat ls -> exists l, l ∈ ls /\ x ∈ l.
Proof.
  induction ls as [|l ls IH]; cbn; [by intros ?%elem_of_nil|].
  rewrite elem_of_app. intros [Hx|Hx].
  - exists l. split; [by left|done].
  - destruct (IH Hx) as (l' & ? & ?). exists l'. split; [by right|done].
Qed.

Lemma filter_prefix_labelled (n : nat) (g : string -> Series)
    (l : list string) :
  cols (filter_prefix "properties."
          {| nrows := n; cols := (fun c => (c, g c)) <$> l |})
  = (fun c => (c, g c)) <$> filter P l.
Proof.
  unfold filter_prefix. cbn [cols nrows].
  induction l as [|c l IH]; [done|].
  rewrite fmap_cons, !filter_cons, IH. cbn.
  by destruct (decide (String.prefix "properties." c = true)).
Qed.

#[local] Instance pre_inj : Inj (=) (=) pre.
Proof. intros a b. apply string_app_inj_head. Qed.

(** The labels that start with [properties.], over all records. *)
Lemma property_labels (fs : list json) :
  Forall tidy fs ->
  filter P (unique (concat (keys <$> (normalise_row <$> fs))))
  = pre <$> unique (concat (keys <$> (properties_of <$> fs))).
Proof.
  intros Hfs. rewrite unique_filter, filter_concat.
  rewrite <- (unique_fmap pre), fmap_concat. do 2 f_equal.
  rewrite <- !list_fmap_compose. apply Forall_fmap_ext.
  eapply Forall_impl; [exact Hfs|]. intros f Hf. cbn.
  by destruct (record_of_feature f Hf) as [-> _].
Qed.

Lemma property_is_dotless (fs : list json) (k : string) :
  Forall tidy fs ->
  k ∈ unique (concat (keys <$> (properties_of <$> fs))) -> dotless k.
Proof.
  intros Hfs. rewrite elem_of_unique, <- list_fmap_compose.
  intros (ks & Hks & Hk)%elem_of_some_list.
  apply list_elem_of_fmap in Hks as (f & -> & Hf).
  pose proof (proj1 (Forall_forall _ _) Hfs f Hf) as Htidy.
  destruct f as [| | | | | |fd]; try (by apply elem_of_nil in Hk).
  destruct Htidy as (_ & _ & _ & Hprops). cbn in Hk.
  apply list_elem_of_fmap in Hk as (kv & -> & Hkv).
  by destruct (proj1 (Forall_forall _ _) Hprops kv Hkv).
Qed.

(** The table of tidy features is the table of their properties. *)
Lemma table_of_tidy_features (fs : list json) :
  Forall tidy fs ->
  rename_with (str_replace "properties." "")
    (filter_prefix "properties." (frame_of_dicts (normalise_row <$> fs)))
  = frame_of_dicts (properties_of <$> fs).
Proof.
  intros Hfs. unfold rename_with, frame_of_dicts.
  rewrite filter_prefix_labelled. cbn [nrows cols filter_prefix].
  f_equal; [by rewrite !length_fmap|].
  rewrite (property_labels _ Hfs), <- !list_fmap_compose.
  apply Forall_fmap_ext, Forall_forall. intros k Hk.
  unfold compose. cbn [fst snd].
  rewrite list_fmap_compose in Hk.
  rewrite (str_replace_prefixed k) by by apply (property_is_dotless fs).
  do 2 f_equal. rewrite <- !list_fmap_compose. apply Forall_fmap_ext.
  eapply Forall_impl; [exact Hfs|]. intros f Hf. unfold compose.
  by destruct (record_of_feature f Hf) as [_ ->].
Qed.

Lemma tidy_no_list (fs : list json) :
  Forall tidy fs -> existsb is_list fs = false.
Proof.
  induction 1 as [|f fs Hf _ IH]; [done|]. cbn. rewrite IH.
  by destruct f.
Qed.

Lemma json_normalize_tidy (fs : list json) :
  Forall tidy fs ->
  json_normalize (JArr fs) = Done (frame_of_dicts (normalise_row <$> fs)).
Proof.
  intros Hfs. destruct fs as [|f fs]; [done|].
  cbn [json_normalize]. unfold frame_of_rows.
  by rewrite (tidy_no_list _ Hfs).
Qed.

End Tables.


(** ** The loader: data_loader.py and [save_daily_values] *)

Section Loader.
Import normalize data_files.
Context `{B : Builtins} `{D : Disk} `{F : Frames}.

Lemma convert_tidy (path : string) (d : disk) (data : dict) (fs : list json) :
  read_json path d = Done (JObj data) ->
  default (JArr []) (dict_get "features" data) = JArr fs ->
  Forall tidy fs ->
  convert_geojson_to_dataframe path d
  = Done (frame_of_dicts (properties_of <$> fs)).
Proof.
  intros Hread Hfeatures Hfs. unfold convert_geojson_to_dataframe.
  rewrite Hread. cbn [table_of_features]. rewrite Hfeatures.
  rewrite (json_normalize_tidy _ Hfs).
  by rewrite (table_of_tidy_features _ Hfs).
Qed.

Lemma length_column_cells (vals : list (option json)) :
  length (column_cells vals) = length vals.
Proof.
  unfold column_cells. destruct (forallb is_text vals).
  - by rewrite length_fmap.
  - apply column_of_values_length.
Qed.

Lemma forallb_fmap_true {A C} (p : C -> bool) (f : A -> C) (l : list A) :
  Forall (fun x => p (f x) = true) l -> forallb p (f <$> l) = true.
Proof. induction 1 as [|x l Hx _ IH]; [done|]. cbn. by rewrite Hx, IH. Qed.

Lemma columns_frame_of_dicts (records : list dict) :
  columns (frame_of_dicts records) = unique (concat (keys <$> records)).
Proof.
  unfold columns, frame_of_dicts. cbn [cols].
  rewrite <- list_fmap_compose. apply list_fmap_id.
Qed.

Lemma unique_NoDup (l : list string) : NoDup (unique l).
Proof.
  induction l as [|x l IH] using rev_ind; [apply NoDup_nil_2|].
  rewrite unique_snoc. case_bool_decide as Hx; [done|].
  apply NoDup_app. split; [done|]. split; [|apply NoDup_singleton].
  intros y Hy ->%list_elem_of_singleton. done.
Qed.

Lemma named_frame_of_dicts (records : list dict) (k : string) :
  k ∈ columns (frame_of_dicts records) ->
  named k (frame_of_dicts records)
  = [(k, column_cells ((fun r => dict_get k r) <$> records))].
Proof.
  rewrite columns_frame_of_dicts. unfold named, frame_of_dicts. cbn [cols].
  pose proof (unique_NoDup (concat (keys <$> records))) as Hnd.
  induction Hnd as [|c l Hc _ IH]; [by intros ?%elem_of_nil|].
  intros Hk. rewrite fmap_cons, filter_cons. cbn [fst].
  destruct (String.eqb_spec c k) as [->|Hne].
  - rewrite decide_True by done. f_equal.
    apply filter_nothing, Forall_forall. intros nc Hnc. cbn.
    apply list_elem_of_fmap in Hnc as (c & -> & Hin). cbn.
    destruct (String.eqb_spec c k) as [->|?]; done.
  - rewrite decide_False by done. apply IH.
    by apply elem_of_cons in Hk as [?|?].
Qed.

Lemma elem_of_property_labels (fs : list json) (k : string) :
  k ∈ unique (concat (keys <$> (properties_of <$> fs)))
  <-> exists f, f ∈ fs /\ k ∈ keys (properties_of f).
Proof.
  rewrite elem_of_unique. split.
  - intros (ks & Hks & Hk)%elem_of_some_list.
    apply list_elem_of_fmap in Hks as (p & -> & Hp).
    apply list_elem_of_fmap in Hp as (f & -> & Hf). by exists f.
  - intros (f & Hf & Hk). induction fs as [|f' fs IH].
    + by apply elem_of_nil in Hf.
    + cbn. rewrite elem_of_app.
      apply elem_of_cons in Hf as [->|Hf]; [by left|right; auto].
Qed.

(** X21. A file of features as the API sends them gives a table with one
    row for each feature and one column for each name that one of the
    features has among its properties, each name once; the geometry and
    the other members of a feature give no column. *)
Theorem features_become_rows (path : string) (d : disk) (data : dict)
    (fs : list json) :
  read_json path d = Done (JObj data) ->
  default (JArr []) (dict_get "features" data) = JArr fs ->
  Forall tidy fs ->
  exists df,
    convert_geojson_to_dataframe path d = Done df
    /\ nrows df = length fs
    /\ well_formed df
    /\ NoDup (columns df)
    /\ forall k, k ∈ columns df
         <-> exists f, f ∈ fs /\ k ∈ keys (properties_of f).
Proof.
  intros Hread Hfeatures Hfs. eexists. split; [by eapply convert_tidy|].
  split; [cbn; by rewrite length_fmap|].
  split.
  { unfold well_formed, frame_of_dicts. cbn [cols nrows].
    apply Forall_forall. intros nc (k & -> & _)%list_elem_of_fmap. cbn.
    by rewrite length_column_cells, length_fmap. }
  rewrite columns_frame_of_dicts.
  split; [apply unique_NoDup|]. intros k. apply elem_of_property_labels.
Qed.

(** X22. In that table, the column of a property that holds text or null
    in every feature that has it holds, row by row, the text of the
    feature, and a null where the feature has a null or lacks the
    property. *)
Theorem text_properties_become_cells (path : string) (d : disk) (data : dict)
    (fs : list json) (df : DataFrame) (k : string) (e : exn) :
  read_json path d = Done (JObj data) ->
  default (JArr []) (dict_get "features" data) = JArr fs ->
  Forall tidy fs ->
  convert_geojson_to_dataframe path d = Done df ->
  (exists f, f ∈ fs /\ k ∈ keys (properties_of f)) ->
  Forall (fun f => is_text (dict_get k (properties_of f)) = true) fs ->
  getitem df k e
  = Ok ((fun f => text_cell (dict_get k (properties_of f))) <$> fs).
Proof.
  intros Hread Hfeatures Hfs Hdf Hk Htext.
  rewrite (convert_tidy _ _ _ _ Hread Hfeatures Hfs) in Hdf.
  injection Hdf as <-. unfold getitem.
  rewrite named_frame_of_dicts.
  2:{ rewrite columns_frame_of_dicts. by apply elem_of_property_labels. }
  f_equal. unfold column_cells. rewrite <- !list_fmap_compose.
  by rewrite forallb_fmap_true.
Qed.

(** X23. When no feature of the daily-values file has a property
    [monitoring_location_id], as when the file has no feature at all, the
    table loaded from it makes the Joiner raise, whatever the location
    table is: a [KeyError] or a [ValueError], and a [KeyError] whenever the
    location table has no more than one column labelled [id]. *)
Theorem no_site_column_stops_the_join (path : string) (d : disk)
    (data : dict) (fs : list json) (loc_df : DataFrame) :
  read_json path d = Done (JObj data) ->
  default (JArr []) (dict_get "features" data) = JArr fs ->
  Forall tidy fs ->
  Forall (fun f => dict_get "monitoring_location_id" (properties_of f) = None)
    fs ->
  exists dv_df e,
    convert_geojson_to_dataframe path d = Done dv_df
    /\ data_loader.join_daily_values_with_locations dv_df loc_df = Raise e
    /\ ((exists c, e = KeyError c) \/ e = ValueError)
    /\ ((length (named "id" loc_df) <= 1)%nat -> exists c, e = KeyError c).
Proof.
  intros Hread Hfeatures Hfs Hnone. eexists.
  assert ("monitoring_location_id"
            ∉ columns (frame_of_dicts (properties_of <$> fs))) as Hkey.
  { rewrite columns_frame_of_dicts, elem_of_property_labels.
    intros (f & Hf & Hk).
    pose proof (proj1 (Forall_forall _ _) Hnone f Hf) as Hget. cbn beta in Hget.
    by apply dict_get_key in Hk. }
  assert (Hnd : NoDup data_loader.loc_keep).
  { apply (bool_decide_unpack (NoDup _)). vm_compute. exact I. }
  unfold data_loader.join_daily_values_with_locations.
  destruct (getitem_list loc_df data_loader.loc_keep) as [lf|e] eqn:Hlf.
  - cbn [bind]. unfold merge_left.
    rewrite (getitem_getitem_list _ _ _ "id" ValueError Hlf Hnd) by by left.
    unfold getitem at 1.
    destruct (named "id" loc_df) as [|[c s] [|? ?]] eqn:Hid; cbn [bind].
    + exists (KeyError "id"). split; [by eapply convert_tidy|].
      split; [done|]. split; [left|]; by eexists.
    + exists (KeyError "monitoring_location_id").
      split; [by eapply convert_tidy|]. unfold getitem.
      rewrite (proj2 (named_nil _ _) Hkey).
      split; [done|]. split; [left|]; by eexists.
    + exists ValueError. split; [by eapply convert_tidy|].
      split; [done|]. split; [by right|]. cbn. lia.
  - unfold getitem_list in Hlf.
    destruct (first_missing data_loader.loc_keep loc_df) as [c|];
      [|discriminate].
    injection Hlf as <-. exists (KeyError c).
    split; [by eapply convert_tidy|].
    split; [done|]. split; [left|]; by eexists.
Qed.

(** X24. The file that [save_daily_values] has written loads back as the
    table of the data saved, when the data reads back from its JSON
    text. *)
Theorem saved_daily_values_load_back `{W : !daily_values.World} (data : json)
    (d : disk) (path : string) (d' : disk) :
  lawful D ->
  json_loads (json_dumps data) = Some data ->
  save_daily_values data d = (Done path, d') ->
  daily_values.getenv "DV_OUTPUT_FILE" = Some path
  /\ convert_geojson_to_dataframe path d' = table_of_features data.
Proof.
  intros laws Hloads. unfold save_daily_values. intros Hsave.
  destruct (daily_values.getenv "DV_OUTPUT_FILE") as [file|]; [|discriminate].
  destruct (mkdir_parent file d) as [[[]|f] d1]; [|discriminate].
  destruct (write_text file _ d1) as [[[]|f] d2] eqn:Hwrite; [|discriminate].
  injection Hsave as -> ->. split; [done|].
  apply (write_then_read _ laws) in Hwrite as [_ Htext].
  unfold convert_geojson_to_dataframe, read_json.
  by rewrite Htext, Hloads.
Qed.

End Loader.

Lemma site_features_tidy : Forall normalize.tidy demo.site_features.
Proof.
  repeat constructor; cbn; unfold normalize.dotless;
    try (apply (bool_decide_unpack (NoDup _)); vm_compute; exact I);
    try discriminate;
    try (apply (bool_decide_unpack (_ ∉ _)); vm_compute; exact I).
Qed.

Lemma features_become_rows_witness :
  exists df,
    data_files.convert_geojson_to_dataframe (B := demo.reader)
      (D := demo.memory) (F := demo.frames) "outputs/sites.json"
      demo.sites_disk = Done df
    /\ nrows df = length demo.site_features
    /\ well_formed df
    /\ NoDup (columns df)
    /\ forall k, k ∈ columns df
         <-> exists f, f ∈ demo.site_features
                       /\ k ∈ normalize.keys (normalize.properties_of f).
Proof.
  apply (features_become_rows (B := demo.reader) (D := demo.memory)
           (F := demo.frames) "outputs/sites.json" demo.sites_disk
           demo.sites demo.site_features).
  - vm_compute. reflexivity.
  - reflexivity.
  - apply site_features_tidy.
Defined.

Lemma text_properties_become_cells_witness :
  getitem demo.sites_df "site_type" ValueError
  = Ok ((fun f => normalize.text_cell
                    (dict_get "site_type" (normalize.properties_of f)))
          <$> demo.site_features).
Proof.
  apply (text_properties_become_cells (B := demo.reader) (D := demo.memory)
           (F := demo.frames) "outputs/sites.json" demo.sites_disk
           demo.sites demo.site_features demo.sites_df "site_type"
           ValueError).
  - vm_compute. reflexivity.
  - reflexivity.
  - apply site_features_tidy.
  - vm_compute. reflexivity.
  - eexists. split; [apply list_elem_of_here|]. cbn.
    rewrite !elem_of_cons. tauto.
  - repeat constructor.
Defined.

Lemma no_site_column_stops_the_join_witness :
  exists dv_df e,
    data_files.convert_geojson_to_dataframe (B := demo.reader)
      (D := demo.memory) (F := demo.frames) "outputs/sites.json"
      demo.sites_disk = Done dv_df
    /\ data_loader.join_daily_values_with_locations dv_df demo.loc_df
       = Raise e
    /\ ((exists c, e = KeyError c) \/ e = ValueError)
    /\ ((length (named "id" demo.loc_df) <= 1)%nat -> exists c, e = KeyError c).
Proof.
  apply (no_site_column_stops_the_join (B := demo.reader) (D := demo.memory)
           (F := demo.frames) "outputs/sites.json" demo.sites_disk
           demo.sites demo.site_features demo.loc_df).
  - vm_compute. reflexivity.
  - reflexivity.
  - apply site_features_tidy.
  - repeat constructor.
Defined.

Lemma saved_daily_values_load_back_witness :
  daily_values.getenv (W := demo.saving_world) "DV_OUTPUT_FILE"
  = Some "outputs/daily_values.json"
  /\ data_files.convert_geojson_to_dataframe (B := demo.builtins)
       (D := demo.memory) (F := demo.frames) "outputs/daily_values.json"
       demo.saved_disk
     = data_files.table_of_features (F := demo.frames) (JObj []).
Proof.
  apply (saved_daily_values_load_back (B := demo.builtins)
           (D := demo.memory) (F := demo.frames) (W := demo.saving_world)
           (JObj []) ∅ "outputs/daily_values.json" demo.saved_disk
           memory_lawful).
  - reflexivity.
  - vm_compute. reflexivity.
Defined.


(** ** The Cleaner on the tables it is made for *)

Section Completion.
Context `{C : Conversions}.
Import eda.








End Completion.

Section Columns.
Context `{C : Conversions}.
Import eda.

End Columns.


